(** * Filter subscription and update orchestrator (AdGuardForSafari)

    A shallow embedding of the filters manager ([filters-manager.js]) and of
    the filters update service ([filters/filters-update.js]) of the Electron
    main application, with the properties of the specification stated and
    proved over it.

    The JavaScript code runs on one thread and talks to its collaborators
    (the filters cache, the persisted filters state, the storage, the
    settings, the notifier and the service client) through calls and
    callbacks.  The embedding keeps the state of these collaborators in one
    record, [World], threads it through a small state-and-exception monad,
    and records every call that leaves the orchestrator (a notification, a
    storage write, a network request) in the [trace] of the world.  The
    answers of the network are given by an environment, [Env]. *)

From stdpp Require Import gmap strings list sorting.
From Stdlib Require Import ZArith String Permutation.

Open Scope Z_scope.

(** ** Data model *)

(** A filter object of the cache.  A property that JavaScript may leave
    [undefined] is an [option]; [_isDownloading] is [true] exactly while the
    property is present on the object. *)
Record Filter := mkFilter {
  filterId : Z;
  groupId : Z;
  version : option string;
  timeUpdated : option Z;
  customUrl : option string;
  enabled : option bool;
  installed : option bool;
  loaded : option bool;
  trusted : option bool;
  lastCheckTime : option Z;
  lastUpdateTime : option Z;
  _isDownloading : bool
}.

Record Group := mkGroup {
  g_groupId : Z;
  g_enabled : option bool
}.

(** The entries of the persisted state ([filters-state]). *)
Record VersionInfo := mkVersionInfo {
  vi_version : option string;
  vi_lastCheckTime : option Z;
  vi_lastUpdateTime : option Z
}.

Record StateInfo := mkStateInfo {
  si_enabled : option bool;
  si_installed : option bool;
  si_loaded : option bool
}.

Record GroupStateInfo := mkGroupStateInfo {
  gs_enabled : option bool
}.

(** JavaScript truthiness of the values the code tests. *)
Definition truthy_bool (b : option bool) : bool :=
  match b with Some true => true | _ => false end.

Definition truthy_num (n : option Z) : bool :=
  match n with Some z => negb (z =? 0) | None => false end.

Definition truthy_str (s : option string) : bool :=
  match s with Some EmptyString => false | Some _ => true | None => false end.

(** Field assignments on a filter object. *)
Definition set_enabled (b : bool) (f : Filter) : Filter :=
  mkFilter (filterId f) (groupId f) (version f) (timeUpdated f) (customUrl f)
    (Some b) (installed f) (loaded f) (trusted f)
    (lastCheckTime f) (lastUpdateTime f) (_isDownloading f).

Definition set_installed (b : bool) (f : Filter) : Filter :=
  mkFilter (filterId f) (groupId f) (version f) (timeUpdated f) (customUrl f)
    (enabled f) (Some b) (loaded f) (trusted f)
    (lastCheckTime f) (lastUpdateTime f) (_isDownloading f).

Definition set_isDownloading (b : bool) (f : Filter) : Filter :=
  mkFilter (filterId f) (groupId f) (version f) (timeUpdated f) (customUrl f)
    (enabled f) (installed f) (loaded f) (trusted f)
    (lastCheckTime f) (lastUpdateTime f) b.


Definition set_group_enabled (b : bool) (g : Group) : Group :=
  mkGroup (g_groupId g) (Some b).

(** ** Events, payloads and the trace *)

Inductive EventKind :=
| FILTER_GROUP_ENABLE_DISABLE
| FILTER_ENABLE_DISABLE
| FILTER_ADD_REMOVE
| START_DOWNLOAD_FILTER
| SUCCESS_DOWNLOAD_FILTER
| ERROR_DOWNLOAD_FILTER
| UPDATE_FILTER_RULES
| UPDATE_FILTERS_SHOW_POPUP.

(** The object handed to [UPDATE_FILTERS_SHOW_POPUP] listeners.  The
    [updatedFilters] property exists only on the object built by
    [onSuccess]. *)
Record Popup := mkPopup {
  success : bool;
  updatedFilters : option (list (option Filter));
  forceUpdate : option bool;
  filtersUpdateLastCheck : Z
}.

Inductive Payload :=
| PGroup (g : Group)
| PFilter (f : option Filter)
| PFilterRules (f : Filter) (filterRules : list string)
| PPopup (p : Popup).

(** What leaves the orchestrator, in the order it happens. *)
Inductive Effect :=
| Notify (ev : EventKind) (p : Payload)
| StorageSetItem (key : string) (value : Z)
| RequestMetadata (filterIds : list Z)
| RequestRules (id : Z) (forceRemote : bool)
| RequestCustomUpdate (f : option Filter).

(** ** The world: the state of the collaborators *)

Record World := mkWorld {
  cacheFilters : gmap Z Filter;             (* cache: filters by id *)
  cacheGroups : gmap Z Group;               (* cache: groups by id *)
  filtersVersionInfo : gmap Z VersionInfo;  (* filtersState.getFiltersVersion() *)
  filtersStateInfo : gmap Z StateInfo;      (* filtersState.getFiltersState() *)
  groupsStateInfo : gmap Z GroupStateInfo;  (* filtersState.getGroupState() *)
  customStore : list Filter;                (* customFilters.loadCustomFilters() *)
  storage : gmap string Z;                  (* storage.getItem / setItem *)
  updateFiltersPeriod : Z;                  (* settings.getUpdateFiltersPeriod(), hours *)
  clock : Z;                                (* Date.now(), milliseconds *)
  trace : list Effect
}.

Definition with_cacheFilters (m : gmap Z Filter) (w : World) : World :=
  mkWorld m (cacheGroups w) (filtersVersionInfo w) (filtersStateInfo w)
    (groupsStateInfo w) (customStore w) (storage w) (updateFiltersPeriod w)
    (clock w) (trace w).

Definition with_cacheGroups (m : gmap Z Group) (w : World) : World :=
  mkWorld (cacheFilters w) m (filtersVersionInfo w) (filtersStateInfo w)
    (groupsStateInfo w) (customStore w) (storage w) (updateFiltersPeriod w)
    (clock w) (trace w).

Definition with_storage (m : gmap string Z) (w : World) : World :=
  mkWorld (cacheFilters w) (cacheGroups w) (filtersVersionInfo w)
    (filtersStateInfo w) (groupsStateInfo w) (customStore w) m
    (updateFiltersPeriod w) (clock w) (trace w).

Definition with_clock (t : Z) (w : World) : World :=
  mkWorld (cacheFilters w) (cacheGroups w) (filtersVersionInfo w)
    (filtersStateInfo w) (groupsStateInfo w) (customStore w) (storage w)
    (updateFiltersPeriod w) t (trace w).

Definition with_trace (t : list Effect) (w : World) : World :=
  mkWorld (cacheFilters w) (cacheGroups w) (filtersVersionInfo w)
    (filtersStateInfo w) (groupsStateInfo w) (customStore w) (storage w)
    (updateFiltersPeriod w) (clock w) t.

Definition emit (e : Effect) (w : World) : World :=
  with_trace (trace w ++ [e]) w.

(** The persisted state store, as the three tables the manager reads. *)
Definition persisted (w : World) :
  gmap Z VersionInfo * gmap Z StateInfo * gmap Z GroupStateInfo :=
  (filtersVersionInfo w, filtersStateInfo w, groupsStateInfo w).

(** ** The monad of the orchestrator: state and exceptions *)

Inductive Exn :=
| TypeError                       (* property access on undefined *)
| FilterNotFound (filterId : Z).  (* thrown by getFilterById *)

Inductive Result (A : Type) :=
| Ok (a : A) (w : World)
| Throw (e : Exn) (w : World).
Arguments Ok {A} a w.
Arguments Throw {A} e w.

Definition M (A : Type) : Type := World -> Result A.

Definition ret {A} (a : A) : M A := fun w => Ok a w.

Definition bind {A B} (m : M A) (k : A -> M B) : M B :=
  fun w => match m w with
           | Ok a w' => k a w'
           | Throw e w' => Throw e w'
           end.

Definition throw {A} (e : Exn) : M A := fun w => Throw e w.

(** A state change that cannot fail. *)
Definition modify (f : World -> World) : M unit := fun w => Ok tt (f w).

Definition gets {A} (f : World -> A) : M A := fun w => Ok (f w) w.

Declare Scope js_scope.
Delimit Scope js_scope with js.
Notation "'let*' x ':=' c 'in' k" := (bind c (fun x => k))
  (at level 10, x name, c at level 100, k at level 200) : js_scope.
Notation "c ';;;' k" := (bind c (fun _ => k))
  (at level 100, k at level 200, right associativity) : js_scope.
Open Scope js_scope.

(** The world a computation leaves behind, however it ends. *)
Definition world_of {A} (r : Result A) : World :=
  match r with Ok _ w => w | Throw _ w => w end.

(** ** Collaborators *)

(** [listeners.notifyListeners(event, payload)]. *)
Definition notifyListeners (ev : EventKind) (p : Payload) : M unit :=
  modify (emit (Notify ev p)).

(** [cache.getFilter], [cache.getGroup], [cache.getFilters],
    [cache.getGroups]. *)
Definition cache_getFilter (id : Z) (w : World) : option Filter :=
  cacheFilters w !! id.

Definition cache_getGroup (id : Z) (w : World) : option Group :=
  cacheGroups w !! id.

Definition cache_getFilters (w : World) : list Filter :=
  (map_to_list (cacheFilters w)).*2.

Definition cache_getGroups (w : World) : list Group :=
  (map_to_list (cacheGroups w)).*2.

(** The events of one kind in a trace, and the notifications in general. *)
Definition is_notify (k : EventKind) (e : Effect) : bool :=
  match e with
  | Notify k' _ =>
      match k, k' with
      | FILTER_GROUP_ENABLE_DISABLE, FILTER_GROUP_ENABLE_DISABLE
      | FILTER_ENABLE_DISABLE, FILTER_ENABLE_DISABLE
      | FILTER_ADD_REMOVE, FILTER_ADD_REMOVE
      | START_DOWNLOAD_FILTER, START_DOWNLOAD_FILTER
      | SUCCESS_DOWNLOAD_FILTER, SUCCESS_DOWNLOAD_FILTER
      | ERROR_DOWNLOAD_FILTER, ERROR_DOWNLOAD_FILTER
      | UPDATE_FILTER_RULES, UPDATE_FILTER_RULES
      | UPDATE_FILTERS_SHOW_POPUP, UPDATE_FILTERS_SHOW_POPUP => true
      | _, _ => false
      end
  | _ => false
  end.

Definition is_request (e : Effect) : bool :=
  match e with
  | RequestMetadata _ | RequestRules _ _ | RequestCustomUpdate _ => true
  | _ => false
  end.

(** JavaScript arithmetic on a timestamp that may be [undefined]:
    [a - undefined] is [NaN] (here [None]), and every comparison with [NaN]
    is false. *)
Definition js_sub (a : Z) (b : option Z) : option Z :=
  match b with Some b => Some (a - b) | None => None end.

Definition js_ge (a : option Z) (b : Z) : bool :=
  match a with Some a => b <=? a | None => false end.

Definition js_lt (a : option Z) (b : Z) : bool :=
  match a with Some a => a <? b | None => false end.

(** Assignment to a property of the filter (group) object that the cache
    holds under [id]. *)
Definition assign_filter (id : Z) (g : Filter -> Filter) : M unit :=
  modify (fun w => with_cacheFilters (alter g id (cacheFilters w)) w).

Definition assign_group (id : Z) (g : Group -> Group) : M unit :=
  modify (fun w => with_cacheGroups (alter g id (cacheGroups w)) w).

(** The object behind a reference taken from the cache under [id]: the
    object the cache holds now, or, once it has left the cache, the object
    [obj] as it was when the reference was taken. *)
Definition deref (id : Z) (obj : Filter) : M Filter :=
  gets (fun w => default obj (cache_getFilter id w)).

(** ** The environment: configuration and the answers of the network

    [config] constants and the modules [utils/version],
    [filters/subscriptions], [filters/service-client] and
    [filters/custom-filters] are not part of the orchestrator.  The
    environment fixes what they answer.  Every request is answered once; an
    answer comes with the instant ([Date.now()]) at which it is delivered,
    and the answers to requests that are in flight together are handled in
    the order of their instants. *)
Record Env := mkEnv {
  SEARCH_AND_SELF_PROMO_FILTER_ID : Z;
  CUSTOM_FILTERS_GROUP_ID : Z;
  CUSTOM_FILTERS_START_ID : Z;
  (* versionUtils.isGreaterVersion(left, right) *)
  isGreaterVersion : option string -> option string -> bool;
  (* subscriptions.createSubscriptionFilterFromJSON(json) *)
  createSubscriptionFilterFromJSON : Filter -> Filter;
  (* serviceClient.loadFiltersMetadata: Some list for loadSuccess, None for
     loadError *)
  metadataAnswer : list Z -> option (list Filter);
  (* serviceClient.loadFilterRules(id, forceRemote, ...): Some rules for
     successCallback, None for errorCallback *)
  rulesAnswer : Z -> bool -> option (list string);
  rulesAnswerTime : Z -> Z;
  (* customFilters.updateCustomFilter(filter, callback): the argument of
     the callback, a filter id or a falsy value *)
  customAnswer : option Filter -> option Z;
  customAnswerTime : option Filter -> Z
}.

(** The requests of one batch in the order in which they are answered. *)
Definition answered_before {A} (t : A -> Z) (a b : A) : Prop := t a <= t b.

Global Instance answered_before_dec {A} (t : A -> Z) (a b : A) :
  Decision (answered_before t a b) := Z_le_dec (t a) (t b).

Definition by_answer_time {A} (t : A -> Z) (l : list A) : list A :=
  merge_sort (answered_before t) l.

(** Modelled from the spec: [collections.removeDuplicates], which the
    orchestrator uses for the "id de-duplication" of a batch; the first
    occurrence of every id is kept, in the order given. *)
Fixpoint removeDuplicates (l : list Z) : list Z :=
  match l with
  | [] => []
  | x :: rest => x :: List.filter (fun y => negb (y =? x)) (removeDuplicates rest)
  end.

(** Modelled from the spec: [subscriptions.groupHasEnabledStatus], false
    for a group that "has never been toggled ([enabled] undefined)". *)
Definition groupHasEnabledStatus (groupId : Z) (w : World) : bool :=
  match cache_getGroup groupId w with
  | Some group => match g_enabled group with Some _ => true | None => false end
  | None => false
  end.

(** ** The filters update service ([filters-update.js]) *)

Module FiltersUpdate.
Section WithEnv.

Variable E : Env.

Definition FILTERS_UPDATE_LAST_CHECK_KEY : string := "filters-update-last-check".

Definition UPDATE_FILTERS_DELAY : Z := 5 * 60 * 1000.
Definition RELOAD_FILTERS_DELAY : Z := 15 * 1000.
Definition ENABLED_FILTERS_SKIP_TIMEOUT : Z := 5 * 60 * 1000.

Definition setFiltersUpdateLastCheck (value : Z) : M unit :=
  modify (fun w =>
    emit (StorageSetItem FILTERS_UPDATE_LAST_CHECK_KEY value)
      (with_storage (<[FILTERS_UPDATE_LAST_CHECK_KEY := value]> (storage w)) w)).

Definition getFiltersUpdateLastCheck (w : World) : option Z :=
  storage w !! FILTERS_UPDATE_LAST_CHECK_KEY.

(** *** loadFiltersMetadataFromBackend *)
Definition loadFiltersMetadataFromBackend (filterIds : list Z)
    (callback : bool -> option (list Filter) -> M unit) : M unit :=
  if (Z.of_nat (List.length filterIds) =? 0) then callback true (Some [])
  else
    modify (emit (RequestMetadata filterIds)) ;;;
    match metadataAnswer E filterIds with
    | Some filterMetadataList => (* loadSuccess *)
        callback true (Some filterMetadataList)
    | None => (* loadError *)
        callback false None
    end.

(** *** loadFilterRules

    The function is split where the JavaScript code hands the request to
    the service client: [loadFilterRules_request] is its body up to and
    with the call of [serviceClient.loadFilterRules], and
    [successCallback] and [errorCallback] are the two local callbacks, of
    which [loadFilterRules_answer] runs the one the answer selects.  The
    local [filter] is a reference to the cache object found under
    [filterMetadata.filterId]. *)
Definition loadFilterRules_request (filterMetadata : Filter)
    (forceRemote : bool) : M Filter :=
  let* found := gets (cache_getFilter (filterId filterMetadata)) in
  match found with
  | None => throw TypeError  (* filter._isDownloading = true on undefined *)
  | Some filter =>
      assign_filter (filterId filterMetadata) (set_isDownloading true) ;;;
      notifyListeners START_DOWNLOAD_FILTER
        (PFilter (Some (set_isDownloading true filter))) ;;;
      modify (emit (RequestRules (filterId filter) forceRemote)) ;;;
      ret filter
  end.

Definition on_rules_loaded (filterMetadata : Filter) (now : Z)
    (filter : Filter) : Filter :=
  mkFilter (filterId filter) (groupId filter) (version filterMetadata)
    (timeUpdated filter) (customUrl filter) (enabled filter)
    (installed filter) (Some true) (trusted filter) (Some now)
    (timeUpdated filterMetadata) false.

Definition successCallback {B} (filter filterMetadata : Filter)
    (filterRules : list string) (callback : bool -> M B) : M B :=
  let id := filterId filterMetadata in
  let* now := gets clock in
  (* delete filter._isDownloading; filter.version = filterMetadata.version;
     filter.lastUpdateTime = filterMetadata.timeUpdated;
     filter.lastCheckTime = Date.now(); filter.loaded = true *)
  assign_filter id (on_rules_loaded filterMetadata now) ;;;
  let* filter := deref id (on_rules_loaded filterMetadata now filter) in
  notifyListeners SUCCESS_DOWNLOAD_FILTER (PFilter (Some filter)) ;;;
  notifyListeners UPDATE_FILTER_RULES (PFilterRules filter filterRules) ;;;
  callback true.

Definition errorCallback {B} (filter filterMetadata : Filter)
    (callback : bool -> M B) : M B :=
  let id := filterId filterMetadata in
  (* delete filter._isDownloading *)
  assign_filter id (set_isDownloading false) ;;;
  let* filter := deref id (set_isDownloading false filter) in
  notifyListeners ERROR_DOWNLOAD_FILTER (PFilter (Some filter)) ;;;
  callback false.

(** The service client answers the request made for [filter]. *)
Definition loadFilterRules_answer {B} (filter filterMetadata : Filter)
    (forceRemote : bool) (callback : bool -> M B) : M B :=
  modify (with_clock (rulesAnswerTime E (filterId filter))) ;;;
  match rulesAnswer E (filterId filter) forceRemote with
  | Some filterRules => successCallback filter filterMetadata filterRules callback
  | None => errorCallback filter filterMetadata callback
  end.

(** One request that is alone in flight: the request, then its answer. *)
Definition loadFilterRules {B} (filterMetadata : Filter) (forceRemote : bool)
    (callback : bool -> M B) : M B :=
  let* filter := loadFilterRules_request filterMetadata forceRemote in
  loadFilterRules_answer filter filterMetadata forceRemote callback.

(** *** loadFiltersFromBackend

    [startDownloads] is the [forEach] that creates one promise per entry;
    an executor that throws rejects its promise, and the loop goes on.  It
    returns the requests it has started, each with the [filter] reference
    of its closure, and whether some promise is rejected already.
    [settleDownloads] is [Promise.all(dfds).then(...)]: it takes the
    answers in the order they arrive, with the array [loadedFilters] and
    the fact that the aggregate promise is settled as its state. *)
Fixpoint startDownloads (filterMetadataList : list Filter) :
    M (list (Filter * Filter) * bool) :=
  match filterMetadataList with
  | [] => ret ([], false)
  | filterMetadata :: rest => fun w =>
      match loadFilterRules_request filterMetadata true w with
      | Ok filter w1 =>
          (let* r := startDownloads rest in
           ret ((filter, filterMetadata) :: fst r, snd r)) w1
      | Throw _ w1 =>
          (let* r := startDownloads rest in ret (fst r, true)) w1
      end
  end.

Fixpoint settleDownloads (arrivals : list (Filter * Filter))
    (loadedFilters : list Z) (settled : bool)
    (callback : bool -> option (list Z) -> M unit) : M unit :=
  match arrivals with
  | [] => if settled then ret tt else callback true (Some loadedFilters)
  | (filter, filterMetadata) :: rest =>
      let* success :=
        loadFilterRules_answer filter filterMetadata true (fun success => ret success) in
      if negb success then
        (* reject() *)
        (if settled then ret tt else callback false None) ;;;
        settleDownloads rest loadedFilters true callback
      else
        (* loadedFilters.push(filterMetadata.filterId); resolve() *)
        settleDownloads rest (loadedFilters ++ [filterId filterMetadata])
          settled callback
  end.

Definition loadFiltersFromBackend (filterMetadataList : list Filter)
    (callback : bool -> option (list Z) -> M unit) : M unit :=
  let* started := startDownloads filterMetadataList in
  (if snd started then callback false None else ret tt) ;;;
  settleDownloads
    (by_answer_time (fun r => rulesAnswerTime E (filterId (fst r))) (fst started))
    [] (snd started) callback.

(** *** selectFilterIdsToUpdate *)
Definition needUpdate (forceUpdate : option bool) (updateFiltersPeriodInMs : Z)
    (now : Z) (filter : Filter) : bool :=
  truthy_bool forceUpdate
  || (negb (truthy_num (lastCheckTime filter))
      || js_ge (js_sub now (lastCheckTime filter)) updateFiltersPeriodInMs).

(** The [for (const filter of filters)] loop; [filterIds] is the array it
    pushes to. *)
Fixpoint selectLoop (forceUpdate : option bool) (updateFiltersPeriodInMs now : Z)
    (filters : list Filter) (filterIds : list Z) : list Z :=
  match filters with
  | [] => filterIds
  | filter :: rest =>
      selectLoop forceUpdate updateFiltersPeriodInMs now rest
        (if truthy_bool (installed filter) && truthy_bool (enabled filter) then
           if needUpdate forceUpdate updateFiltersPeriodInMs now filter then
             if negb (truthy_str (customUrl filter)) then
               filterIds ++ [filterId filter]
             else filterIds
           else filterIds
         else filterIds)
  end.

Record ToUpdate := mkToUpdate {
  filterIds : list Z;
  customFilterIds : list Z
}.

Definition selectFilterIdsToUpdate (forceUpdate : option bool)
    (filtersToUpdate : option (list Filter)) (w : World) : ToUpdate :=
  let customFilterIds :=
    List.map filterId
      (List.filter (fun f => truthy_bool (enabled f))
        (List.filter
           (fun f => match filtersToUpdate with
                     | None => true
                     | Some l => existsb (fun x => filterId x =? filterId f) l
                     end)
           (customStore w))) in
  let filters :=
    match filtersToUpdate with
    | Some l => l
    | None => cache_getFilters w
    end in
  let updateFiltersPeriodInMs := updateFiltersPeriod w * 60 * 60 * 1000 in
  mkToUpdate
    (selectLoop forceUpdate updateFiltersPeriodInMs (clock w) filters [])
    customFilterIds.

(** *** updateCustomFilters

    [startCustomUpdates] is the [for] loop: for every id it takes the
    filter from the cache, hands it to [customFilters.updateCustomFilter]
    and notifies [FILTER_ADD_REMOVE]; it returns the filters of the promises
    it has created.  [settleCustomUpdates] takes the answers in the order
    they arrive, with the array [filters] as its state. *)
Fixpoint startCustomUpdates (customFilterIds : list Z) :
    M (list (option Filter)) :=
  match customFilterIds with
  | [] => ret []
  | id :: rest =>
      let* filter := gets (cache_getFilter id) in
      modify (emit (RequestCustomUpdate filter)) ;;;
      notifyListeners FILTER_ADD_REMOVE (PFilter filter) ;;;
      let* dfds := startCustomUpdates rest in
      ret (filter :: dfds)
  end.

Fixpoint settleCustomUpdates (arrivals : list (option Filter))
    (filters : list (option Filter)) : list (option Filter) :=
  match arrivals with
  | [] => filters
  | filter :: rest =>
      settleCustomUpdates rest
        (if truthy_num (customAnswer E filter) then filters ++ [filter]
         else filters)
  end.

Definition updateCustomFilters (customFilterIds : list Z)
    (callback : list (option Filter) -> M unit) : M unit :=
  if (Z.of_nat (List.length customFilterIds) =? 0) then callback []
  else
    let* dfds := startCustomUpdates customFilterIds in
    callback
      (settleCustomUpdates (by_answer_time (customAnswerTime E) dfds) []).

(** *** checkAntiBannerFiltersUpdate *)

(** The loop of the success branch: the filters of the loaded ids that the
    cache still has. *)
Fixpoint loadedFiltersOf (filterIds : list Z) (w : World) : list Filter :=
  match filterIds with
  | [] => []
  | id :: rest =>
      match cache_getFilter id w with
      | Some filter => filter :: loadedFiltersOf rest w
      | None => loadedFiltersOf rest w
      end
  end.

(** The loop of [onLoadFilterMetadataList]. *)
Fixpoint metadataToUpdate (filterMetadataList : list Filter) (w : World) :
    list Filter :=
  match filterMetadataList with
  | [] => []
  | json :: rest =>
      let filterMetadata := createSubscriptionFilterFromJSON E json in
      match cache_getFilter (filterId filterMetadata) w with
      | Some filter =>
          if truthy_str (version filterMetadata)
             && isGreaterVersion E (version filterMetadata) (version filter)
          then filterMetadata :: metadataToUpdate rest w
          else metadataToUpdate rest w
      | None => metadataToUpdate rest w
      end
  end.

Definition checkAntiBannerFiltersUpdate (forceUpdate : option bool)
    (filters : option (list Filter)) : M unit :=
  let* currentDate := gets clock in
  setFiltersUpdateLastCheck currentDate ;;;
  let onSuccess (updatedFilters : list (option Filter)) : M unit :=
    notifyListeners UPDATE_FILTERS_SHOW_POPUP
      (PPopup (mkPopup true (Some updatedFilters) forceUpdate currentDate)) in
  let onError : M unit :=
    notifyListeners UPDATE_FILTERS_SHOW_POPUP
      (PPopup (mkPopup false None forceUpdate currentDate)) in
  let* toUpdate := gets (selectFilterIdsToUpdate forceUpdate filters) in
  let filterIdsToUpdate := filterIds toUpdate in
  let customFilterIdsToUpdate := customFilterIds toUpdate in
  let totalToUpdate :=
    Z.of_nat (List.length filterIdsToUpdate) + Z.of_nat (List.length customFilterIdsToUpdate) in
  if totalToUpdate =? 0 then onSuccess []
  else
    let loadFiltersFromBackendCallback (filterMetadataList : list Filter) :=
      loadFiltersFromBackend filterMetadataList (fun success filterIds =>
        if success then
          match filterIds with
          | None => throw TypeError  (* filterIds.length on undefined *)
          | Some filterIds =>
              let* filters := gets (loadedFiltersOf filterIds) in
              updateCustomFilters customFilterIdsToUpdate (fun customFilters =>
                onSuccess (List.map Some filters ++ customFilters))
          end
        else onError) in
    let onLoadFilterMetadataList (success : bool)
        (filterMetadataList : option (list Filter)) : M unit :=
      if success then
        match filterMetadataList with
        | None => throw TypeError  (* filterMetadataList.length on undefined *)
        | Some filterMetadataList =>
            let* filterMetadataListToUpdate :=
              gets (metadataToUpdate filterMetadataList) in
            loadFiltersFromBackendCallback filterMetadataListToUpdate
        end
      else onError in
    loadFiltersMetadataFromBackend filterIdsToUpdate onLoadFilterMetadataList.

(** *** checkFilterUpdate *)
Definition checkFilterUpdate (filter : Filter) : M unit :=
  fun w =>
    if negb (truthy_bool (enabled filter)) then Ok tt w
    else if js_lt (js_sub (clock w) (lastCheckTime filter))
                  ENABLED_FILTERS_SKIP_TIMEOUT
    then Ok tt w
    else checkAntiBannerFiltersUpdate (Some true) (Some [filter]) w.



End WithEnv.
End FiltersUpdate.

(** ** The filters manager ([filters-manager.js]) *)

Module FiltersManager.
Section WithEnv.

Variable E : Env.

(** *** getFilterById *)
Definition getFilterById (id : Z) : M Filter :=
  let* found := gets (cache_getFilter id) in
  match found with
  | None => throw (FilterNotFound id)
  | Some filter => ret filter
  end.

(** *** getFilters

    [merge_filter] is the body of the loop: the version and the state that
    the persisted store has for the filter are copied into the object of
    the cache. *)
Definition merge_filter (w : World) (filter : Filter) : Filter :=
  let filter :=
    match filtersVersionInfo w !! filterId filter with
    | Some versionInfo =>
        mkFilter (filterId filter) (groupId filter) (vi_version versionInfo)
          (timeUpdated filter) (customUrl filter) (enabled filter)
          (installed filter) (loaded filter) (trusted filter)
          (vi_lastCheckTime versionInfo) (vi_lastUpdateTime versionInfo)
          (_isDownloading filter)
    | None => filter
    end in
  match filtersStateInfo w !! filterId filter with
  | Some stateInfo =>
      mkFilter (filterId filter) (groupId filter) (version filter)
        (timeUpdated filter) (customUrl filter) (si_enabled stateInfo)
        (si_installed stateInfo) (si_loaded stateInfo) (trusted filter)
        (lastCheckTime filter) (lastUpdateTime filter) (_isDownloading filter)
  | None => filter
  end.

Definition getFilters : M (list Filter) :=
  modify (fun w => with_cacheFilters (merge_filter w <$> cacheFilters w) w) ;;;
  let* filters := gets cache_getFilters in
  ret filters.

Definition getEnabledFilters : M (list Filter) :=
  let* filters := getFilters in
  ret (List.filter (fun f => truthy_bool (enabled f)) filters).

Definition getCustomFilters : M (list Filter) :=
  let* filters := getFilters in
  ret (List.filter (fun f => truthy_str (customUrl f)) filters).

(** *** getGroups

    The function has no [return] statement: a call evaluates to
    [undefined], which is [None] here. *)
Definition merge_group (w : World) (group : Group) : Group :=
  match groupsStateInfo w !! g_groupId group with
  | Some stateInfo => mkGroup (g_groupId group) (gs_enabled stateInfo)
  | None => group
  end.

Definition getGroups : M (option (list Group)) :=
  modify (fun w => with_cacheGroups (merge_group w <$> cacheGroups w) w) ;;;
  ret None.

(** *** enableGroup, disableGroup, isGroupEnabled *)
Definition enableGroup (groupId : Z) : M unit :=
  let* found := gets (cache_getGroup groupId) in
  match found with
  | None => ret tt
  | Some group =>
      if truthy_bool (g_enabled group) then ret tt
      else
        assign_group groupId (set_group_enabled true) ;;;
        notifyListeners FILTER_GROUP_ENABLE_DISABLE
          (PGroup (set_group_enabled true group))
  end.

Definition disableGroup (groupId : Z) : M unit :=
  let* found := gets (cache_getGroup groupId) in
  match found with
  | None => ret tt
  | Some group =>
      if negb (truthy_bool (g_enabled group)) then ret tt
      else
        assign_group groupId (set_group_enabled false) ;;;
        notifyListeners FILTER_GROUP_ENABLE_DISABLE
          (PGroup (set_group_enabled false group))
  end.

Definition isGroupEnabled (groupId : Z) (w : World) : bool :=
  match cache_getGroup groupId w with
  | Some group => truthy_bool (g_enabled group)
  | None => false
  end.

(** *** isFilterEnabled: the truthiness of
    [filter && stateInfo && stateInfo.enabled] *)
Definition isFilterEnabled (id : Z) (w : World) : bool :=
  match cache_getFilter id w, filtersStateInfo w !! id with
  | Some _, Some stateInfo => truthy_bool (si_enabled stateInfo)
  | _, _ => false
  end.

(** *** enableFilter *)
Definition enableFilter (id : Z) : M unit :=
  let* found := gets (cache_getFilter id) in
  match found with
  | None => throw TypeError  (* filter.enabled = true on undefined *)
  | Some filter =>
      assign_filter id (set_enabled true) ;;;
      let groupId := groupId filter in
      let* hasStatus := gets (groupHasEnabledStatus groupId) in
      (if negb hasStatus then enableGroup groupId
       else if (id =? SEARCH_AND_SELF_PROMO_FILTER_ID E)
               || (groupId =? CUSTOM_FILTERS_GROUP_ID E)
       then enableGroup groupId
       else ret tt) ;;;
      notifyListeners FILTER_ENABLE_DISABLE
        (PFilter (Some (set_enabled true filter)))
  end.

(** *** isTrustedFilter *)
Definition isTrustedFilter (id : Z) : M bool :=
  if id <? CUSTOM_FILTERS_START_ID E then ret true
  else
    let* filter := getFilterById id in
    ret (truthy_bool (trusted filter)).

(** *** addAntiBannerFilter *)
Definition addAntiBannerFilter (id : Z) (callback : bool -> M unit) : M unit :=
  let* filter := getFilterById id in
  if truthy_bool (installed filter) then callback true
  else
    let onFilterLoaded (success : bool) : M unit :=
      (if success then
         assign_filter id (set_installed true) ;;;
         let* filter := deref id (set_installed true filter) in
         notifyListeners FILTER_ADD_REMOVE (PFilter (Some filter))
       else ret tt) ;;;
      callback success in
    if truthy_bool (loaded filter) then onFilterLoaded true
    else FiltersUpdate.loadFilterRules E filter false onFilterLoaded.

(** *** addAndEnableFilters

    [loadNextFilter] takes the first id off the array ([shift]) and goes on
    with the rest from inside the callback of [addAntiBannerFilter]. *)
Fixpoint loadNextFilter (filterIds : list Z) : M unit :=
  match filterIds with
  | [] => ret tt
  | id :: rest =>
      addAntiBannerFilter id (fun success =>
        (if success then enableFilter id else ret tt) ;;;
        loadNextFilter rest)
  end.

(** [filterIds] is [None] for [null] or [undefined]. *)
Definition addAndEnableFilters (filterIds : option (list Z)) : M unit :=
  match filterIds with
  | None => ret tt
  | Some filterIds =>
      if Z.of_nat (List.length filterIds) =? 0 then ret tt
      else loadNextFilter (removeDuplicates filterIds)
  end.

(** *** enableAndUpdateFilter *)
Definition enableAndUpdateFilter (id : Z) : M unit :=
  addAntiBannerFilter id (fun success =>
    if success then
      enableFilter id ;;;
      let* found := gets (cache_getFilter id) in
      match found with
      | None => throw TypeError  (* filter.customUrl on undefined *)
      | Some filter =>
          if negb (truthy_str (customUrl filter))
          then FiltersUpdate.checkFilterUpdate E filter
          else ret tt
      end
    else ret tt).

(** *** disableFilters

    [disableLoop] is the [for] loop over the de-duplicated ids; its
    [return] leaves the function. *)
Fixpoint disableLoop (filterIds : list Z) : M unit :=
  match filterIds with
  | [] => ret tt
  | id :: rest =>
      let* isEnabled := gets (isFilterEnabled id) in
      if negb isEnabled then ret tt
      else
        let* found := gets (cache_getFilter id) in
        match found with
        | None => throw TypeError  (* filter.enabled = false on undefined *)
        | Some filter =>
            assign_filter id (set_enabled false) ;;;
            notifyListeners FILTER_ENABLE_DISABLE
              (PFilter (Some (set_enabled false filter))) ;;;
            disableLoop rest
        end
  end.

Definition disableFilters (filterIds : list Z) : M unit :=
  disableLoop (removeDuplicates filterIds).

(** *** disableFiltersGroup *)
Definition disableFiltersGroup (groupId : Z) : M unit := disableGroup groupId.

(** *** checkAntiBannerFiltersUpdate *)
Definition checkAntiBannerFiltersUpdate (forceUpdate : option bool) : M unit :=
  FiltersUpdate.checkAntiBannerFiltersUpdate E forceUpdate None.

End WithEnv.
End FiltersManager.

(** ** The rest of the filters manager: removal of filters

    [customFilters.removeCustomFilter] and the write of [filters.json]
    ([fs.writeFileSync] in [updateFiltersJson]) act on stores that are not
    part of the world; the operations below take them as parameters. *)

Definition with_filtersVersionInfo (m : gmap Z VersionInfo) (w : World) : World :=
  mkWorld (cacheFilters w) (cacheGroups w) m (filtersStateInfo w)
    (groupsStateInfo w) (customStore w) (storage w) (updateFiltersPeriod w)
    (clock w) (trace w).

Definition with_filtersStateInfo (m : gmap Z StateInfo) (w : World) : World :=
  mkWorld (cacheFilters w) (cacheGroups w) (filtersVersionInfo w) m
    (groupsStateInfo w) (customStore w) (storage w) (updateFiltersPeriod w)
    (clock w) (trace w).

(** [cache.removeFilter(filterId)]. *)
Definition cache_removeFilter (id : Z) : M unit :=
  modify (fun w => with_cacheFilters (delete id (cacheFilters w)) w).

(** Modelled from the spec: [filtersState.removeFilter], by which a filter
    is removed "from both state store and registry" on the side of the
    state store: its version entry and its state entry are deleted. *)
Definition filtersState_removeFilter (id : Z) : M unit :=
  modify (fun w =>
    with_filtersStateInfo (delete id (filtersStateInfo w))
      (with_filtersVersionInfo (delete id (filtersVersionInfo w)) w)).

(** An entry of the [filters] array of the local or remote metadata, with
    the two properties that [removeObsoleteFilters] compares. *)
Record FilterMetadata := mkFilterMetadata {
  md_filterId : Z;
  md_name : option string
}.

(** [a === b] on names. *)
Definition name_eqb (a b : option string) : bool :=
  match a, b with
  | Some x, Some y => String.eqb x y
  | None, None => true
  | _, _ => false
  end.

Module Lifecycle.
Section WithCollaborators.

(* customFilters.removeCustomFilter(filter) *)
Variable removeCustomFilter : Filter -> M unit.
(* updateFiltersJson(metaData) *)
Variable updateFiltersJson : list FilterMetadata -> M unit.

(** *** removeFilter *)
Definition removeFilter (id : Z) : M unit :=
  let* found := gets (cache_getFilter id) in
  match found with
  | None => ret tt
  | Some filter =>
      assign_filter id (set_enabled false) ;;;
      assign_filter id (set_installed false) ;;;
      let* filter := deref id (set_installed false (set_enabled false filter)) in
      notifyListeners FILTER_ENABLE_DISABLE (PFilter (Some filter)) ;;;
      notifyListeners FILTER_ADD_REMOVE (PFilter (Some filter)) ;;;
      if truthy_str (customUrl filter) then removeCustomFilter filter
      else cache_removeFilter id
  end.

(** *** removeObsoleteFilters

    [obsoleteFiltersMetadata] is the [filter] over the local metadata, and
    [removeEach] the [forEach] over its result.  The two metadata are what
    [serviceClient.loadLocalFiltersMetadata] and
    [serviceClient.loadRemoteFiltersMetadata] hand to their callbacks. *)
Definition obsoleteFiltersMetadata (localFilters remoteFilters : list FilterMetadata) :
    list FilterMetadata :=
  List.filter
    (fun localFilter =>
       negb (existsb
               (fun remoteFilter =>
                  (md_filterId remoteFilter =? md_filterId localFilter)
                  && name_eqb (md_name remoteFilter) (md_name localFilter))
               remoteFilters))
    localFilters.

Fixpoint removeEach (obsolete : list FilterMetadata) : M unit :=
  match obsolete with
  | [] => ret tt
  | filter :: rest =>
      filtersState_removeFilter (md_filterId filter) ;;;
      removeFilter (md_filterId filter) ;;;
      removeEach rest
  end.

Definition removeObsoleteFilters (localFilters remoteFilters : list FilterMetadata) :
    M unit :=
  updateFiltersJson remoteFilters ;;;
  removeEach (obsoleteFiltersMetadata localFilters remoteFilters).

End WithCollaborators.
End Lifecycle.

(** ** The rest of the update service: the reload of the filters

    [reloadAntiBannerFilters] arms a timer; [reloadJob] is the function the
    timer runs. *)
Module Reload.
Section WithEnv.

Variable E : Env.


End WithEnv.
End Reload.

(** ** Concrete configurations

    A small installation used to run the model: two groups, three built-in
    filters and one custom filter. *)
Module Sample.

Definition basic (id group : Z) (v : string) (en inst : option bool)
    (checked : option Z) : Filter :=
  mkFilter id group (Some v) (Some 1000) None en inst None None checked None
    false.

Definition custom (id : Z) (url : string) (en : option bool) : Filter :=
  mkFilter id 0 (Some "1.0.0"%string) None (Some url) en (Some true) (Some true)
    (Some true) None None false.

Definition f1 : Filter := basic 1 1 "1.0.0" (Some true) (Some true) (Some 500).
Definition f2 : Filter := basic 2 1 "2.0.0" (Some true) (Some true) None.
Definition f3 : Filter := basic 3 2 "1.0.0" None None None.
Definition f4 : Filter := basic 4 2 "1.0.0" None None None.
Definition c1000 : Filter := custom 1000 "https://example.org/a.txt" (Some true).
Definition c1001 : Filter := custom 1001 "https://example.org/b.txt" (Some true).

Definition filters0 : gmap Z Filter :=
  <[1 := f1]> (<[2 := f2]> (<[3 := f3]> (<[4 := f4]>
    (<[1000 := c1000]> (<[1001 := c1001]> ∅))))).

Definition groups0 : gmap Z Group :=
  <[0 := mkGroup 0 None]> (<[1 := mkGroup 1 (Some true)]> (<[2 := mkGroup 2 None]> ∅)).

Definition state0 : gmap Z StateInfo :=
  <[1 := mkStateInfo (Some true) (Some true) (Some true)]>
    (<[2 := mkStateInfo (Some true) (Some true) (Some true)]>
      (<[3 := mkStateInfo (Some false) None None]> ∅)).

Definition groupState0 : gmap Z GroupStateInfo :=
  <[1 := mkGroupStateInfo (Some true)]> (<[2 := mkGroupStateInfo (Some false)]> ∅).

Definition world0 : World :=
  mkWorld filters0 groups0 ∅ state0 groupState0 [c1000; c1001] ∅ 1 10000000 [].

(** Plain comparison of dotted versions is not needed to run the model:
    here a remote version is greater when it differs from the local one. *)
Definition differs (l r : option string) : bool :=
  match l, r with
  | Some a, Some b => negb (String.eqb a b)
  | Some _, None => true
  | None, _ => false
  end.

Definition remote (id : Z) (v : string) : Filter :=
  mkFilter id 1 (Some v) (Some 2000) None None None None None None None false.

(** The network answers everything; filter 2 is the slowest. *)
Definition env_ok : Env :=
  mkEnv 10 0 1000 differs (fun json => json)
    (fun ids => Some (List.map (fun id => remote id "3.0.0") ids))
    (fun id _ => Some ["||example.org^"%string])
    (fun id => if id =? 2 then 10000900 else 10000100 + id)
    (fun f => filterId <$> f)
    (fun f => 10001000).

(** The rules of filter 2 cannot be downloaded, and the custom filter 1001
    cannot be updated. *)
Definition env_fail2 : Env :=
  mkEnv 10 0 1000 differs (fun json => json)
    (fun ids => Some (List.map (fun id => remote id "3.0.0") ids))
    (fun id _ => if id =? 2 then None else Some ["||example.org^"%string])
    (fun id => 10000100 - id)
    (fun f => match f with
              | Some f => if filterId f =? 1001 then None else Some (filterId f)
              | None => None
              end)
    (fun f => 10001000).

(** The rules of filter 3 cannot be downloaded. *)
Definition env_fail3 : Env :=
  mkEnv 10 0 1000 differs (fun json => json)
    (fun ids => Some (List.map (fun id => remote id "3.0.0") ids))
    (fun id _ => if id =? 3 then None else Some ["||example.org^"%string])
    (fun id => 10000100 + id)
    (fun f => filterId <$> f)
    (fun f => 10001000).

(** A filter checked 2 minutes before the time of [world0], and one
    checked 30 minutes before it. *)
Definition f_recent : Filter :=
  basic 5 1 "1.0.0" (Some true) (Some true) (Some (10000000 - 2 * 60 * 1000)).

Definition f_half_hour : Filter :=
  basic 6 1 "1.0.0" (Some true) (Some true) (Some (10000000 - 30 * 60 * 1000)).

(** The metadata cannot be fetched. *)
Definition env_nometa : Env :=
  mkEnv 10 0 1000 differs (fun json => json)
    (fun ids => None)
    (fun id _ => Some [])
    (fun id => 10000100)
    (fun f => filterId <$> f)
    (fun f => 10001000).

End Sample.

(** ** Notions used to state the properties *)

(** What a call that finds the group in the other state does. *)
Definition toggled (b : bool) (groupId : Z) (group : Group) (w : World) : World :=
  emit (Notify FILTER_GROUP_ENABLE_DISABLE (PGroup (set_group_enabled b group)))
    (with_cacheGroups (alter (set_group_enabled b) groupId (cacheGroups w)) w).

(** The world after [disableFilters] has disabled the filter [id]: the
    [enabled] flag of the cache object is cleared and the event is
    emitted. *)
Definition disabled_one (id : Z) (w : World) : World :=
  emit (Notify FILTER_ENABLE_DISABLE
          (PFilter (set_enabled false <$> cache_getFilter id w)))
    (with_cacheFilters (alter (set_enabled false) id (cacheFilters w)) w).

Definition disabled_all (ids : list Z) (w : World) : World :=
  fold_left (fun w id => disabled_one id w) ids w.

(** The effects by which the update check is observed from outside: the
    writes to the storage, the requests to the network and the
    [UPDATE_FILTERS_SHOW_POPUP] notifications. *)
Definition watch (e : Effect) : bool :=
  match e with
  | StorageSetItem _ _ => true
  | Notify _ _ => is_notify UPDATE_FILTERS_SHOW_POPUP e
  | _ => is_request e
  end.

(** [emits w w' obs]: the world [w'] comes after [w], the effects observed
    in between are [obs], and the storage is the same. *)
Definition emits (w w' : World) (obs : list Effect) : Prop :=
  storage w' = storage w /\
  exists ev, trace w' = trace w ++ ev /\ List.filter watch ev = obs.

(** The download of the rules of a metadata entry succeeds when the cache
    holds the filter of the entry and the service client answers the
    request for it with rules. *)
Definition download_succeeds (E : Env) (w : World) (filterMetadata : Filter) : bool :=
  match cache_getFilter (filterId filterMetadata) w with
  | Some filter =>
      match rulesAnswer E (filterId filter) true with
      | Some _ => true
      | None => false
      end
  | None => false
  end.

(** The id under which the rules of a metadata entry are requested, if the
    cache holds its filter. *)
Definition requested_id (w : World) (filterMetadata : Filter) : option Z :=
  filterId <$> cache_getFilter (filterId filterMetadata) w.

(** The cache holds the filter of a metadata entry. *)
Definition present (w : World) (filterMetadata : Filter) : bool :=
  match cache_getFilter (filterId filterMetadata) w with
  | Some _ => true
  | None => false
  end.

(** The service client answers a started request with rules. *)
Definition answer_ok (E : Env) (r : Filter * Filter) : bool :=
  match rulesAnswer E (filterId (fst r)) true with
  | Some _ => true
  | None => false
  end.

(** A started request [r] is the request of the metadata entry [m]. *)
Definition request_of (w : World) (r : Filter * Filter) (m : Filter) : Prop :=
  snd r = m /\ requested_id w m = Some (filterId (fst r)).

(** What [updateCustomFilters] emits for one id when it starts the update
    of its filter. *)
Definition custom_update_started (w : World) (id : Z) : list Effect :=
  [RequestCustomUpdate (cache_getFilter id w);
   Notify FILTER_ADD_REMOVE (PFilter (cache_getFilter id w))].

(** The update of a custom filter succeeds when the callback of
    [customFilters.updateCustomFilter] receives a filter id. *)
Definition custom_update_ok (E : Env) (filter : option Filter) : bool :=
  truthy_num (customAnswer E filter).

(** The metadata that a check obtains for the built-in ids it has
    selected; for an empty selection nothing is requested. *)
Definition fetched_metadata (E : Env) (ids : list Z) : option (list Filter) :=
  if Z.of_nat (List.length ids) =? 0 then Some [] else metadataAnswer E ids.

(** The fetch stage of a check succeeds: nothing is due, or the metadata
    is fetched and every download of the built-in batch succeeds. *)
Definition fetch_stage_ok (E : Env) (force : option bool)
    (filters : option (list Filter)) (w : World) : bool :=
  let toUpdate := FiltersUpdate.selectFilterIdsToUpdate force filters w in
  if Z.of_nat (List.length (FiltersUpdate.filterIds toUpdate))
     + Z.of_nat (List.length (FiltersUpdate.customFilterIds toUpdate)) =? 0
  then true
  else
    match fetched_metadata E (FiltersUpdate.filterIds toUpdate) with
    | Some l =>
        forallb (download_succeeds E w) (FiltersUpdate.metadataToUpdate E l w)
    | None => false
    end.

Definition popup (p : Popup) : Effect :=
  Notify UPDATE_FILTERS_SHOW_POPUP (PPopup p).

(** The cache is keyed by the identifier of its filters. *)
Definition keyed (w : World) : Prop :=
  forall k f, cache_getFilter k w = Some f -> filterId f = k.

(** The installation of the filter [id] by [addAntiBannerFilter] succeeds:
    the filter is installed already, or its rules are loaded already, or
    the service client answers the request for its rules. *)
Definition installs (E : Env) (w : World) (id : Z) : bool :=
  match cache_getFilter id w with
  | Some filter =>
      truthy_bool (installed filter) || truthy_bool (loaded filter)
      || match rulesAnswer E (filterId filter) false with
         | Some _ => true
         | None => false
         end
  | None => false
  end.

(** The id of the filter of a [FILTER_ENABLE_DISABLE] event. *)
Definition enabled_id (e : Effect) : option Z :=
  match e with
  | Notify FILTER_ENABLE_DISABLE (PFilter (Some f)) => Some (filterId f)
  | _ => None
  end.

(** An effect is about the filter [id]: it is an event or a request for
    this filter, or the event of a group. *)
Definition about (id : Z) (e : Effect) : bool :=
  match e with
  | Notify _ (PFilter (Some f)) => filterId f =? id
  | Notify _ (PFilterRules f _) => filterId f =? id
  | Notify _ (PGroup _) => true
  | RequestRules k _ => k =? id
  | _ => false
  end.

(** Unfolding of the operations of the monad. *)
Ltac unfold_monad :=
  unfold notifyListeners, assign_filter, assign_group, deref in *;
  unfold bind, ret, throw, modify, gets in *.

(** The ids at the head of a batch whose filters are enabled. *)
Fixpoint enabled_prefix (ids : list Z) (w : World) : list Z :=
  match ids with
  | [] => []
  | id :: rest =>
      if FiltersManager.isFilterEnabled id w then id :: enabled_prefix rest w
      else []
  end.

(** A local metadata entry has a remote entry with its id and its name. *)
Definition has_remote (remoteFilters : list FilterMetadata)
    (localFilter : FilterMetadata) : Prop :=
  exists remoteFilter,
    In remoteFilter remoteFilters /\
    md_filterId remoteFilter = md_filterId localFilter /\
    md_name remoteFilter = md_name localFilter.

(** The id [id] is the id of a local metadata entry without such a remote
    entry. *)
Definition obsolete_id (localFilters remoteFilters : list FilterMetadata)
    (id : Z) : Prop :=
  exists localFilter,
    In localFilter localFilters /\ md_filterId localFilter = id /\
    ~ has_remote remoteFilters localFilter.

(** More of the sample installation: metadata in which filter 3 has been
    renamed and filter 7 has been dropped, and collaborators that do
    nothing to the world. *)
Module SampleMore.

Definition localMetadata : list FilterMetadata :=
  [mkFilterMetadata 1 (Some "Base filter"%string);
   mkFilterMetadata 3 (Some "Old name"%string);
   mkFilterMetadata 7 (Some "Dropped"%string)].

Definition remoteMetadata : list FilterMetadata :=
  [mkFilterMetadata 1 (Some "Base filter"%string);
   mkFilterMetadata 3 (Some "New name"%string)].

Definition removeCustomFilter (f : Filter) : M unit := ret tt.
Definition updateFiltersJson (m : list FilterMetadata) : M unit := ret tt.

(** The server has the version of filter 2 that the cache has. *)
Definition env_current : Env :=
  mkEnv 10 0 1000 Sample.differs (fun json => json)
    (fun ids => Some (List.map (fun id => Sample.remote id "2.0.0") ids))
    (fun id _ => Some ["||example.org^"%string])
    (fun id => 10000100 + id)
    (fun f => filterId <$> f)
    (fun f => 10001000).

End SampleMore.

(** What a download leaves alone in a filter: its identity, its group, its
    url, and whether it is enabled, installed and trusted. *)
Definition same_settings (f f' : Filter) : Prop :=
  filterId f' = filterId f /\ groupId f' = groupId f /\
  customUrl f' = customUrl f /\ enabled f' = enabled f /\
  installed f' = installed f /\ trusted f' = trusted f.

(** The cache holds a filter under [id] that is marked as downloading. *)
Definition downloading (id : Z) (w : World) : Prop :=
  exists f, cache_getFilter id w = Some f /\ _isDownloading f = true.

(** From [w] to [w'] the filters of the cache have only been refreshed: the
    cache holds filters under the same ids with the same settings, the
    groups are the same, and a filter newly marked as downloading has one
    of the ids [inFlight], for which an answer is still to come. *)
Definition refreshes (inFlight : list Z) (w w' : World) : Prop :=
  (forall id,
     match cache_getFilter id w, cache_getFilter id w' with
     | Some f, Some f' => same_settings f f'
     | None, None => True
     | _, _ => False
     end) /\
  cacheGroups w' = cacheGroups w /\
  (forall id, downloading id w' -> In id inFlight \/ downloading id w).

(** The effects of a check that downloads nothing: the storage write, the
    metadata request when some built-in filter is selected, and the popup. *)
Definition check_without_download (E : Env) (forceUpdate : option bool)
    (ids : list Z) (now : Z) : list Effect :=
  StorageSetItem FiltersUpdate.FILTERS_UPDATE_LAST_CHECK_KEY now ::
  match ids with
  | [] => [popup (mkPopup true (Some []) forceUpdate now)]
  | _ :: _ =>
      [RequestMetadata ids;
       popup (match metadataAnswer E ids with
              | Some _ => mkPopup true (Some []) forceUpdate now
              | None => mkPopup false None forceUpdate now
              end)]
  end.

(** The rules of the filter [id] have to be downloaded before it can be
    installed: the cache holds the filter, and it is neither installed nor
    loaded. *)
Definition needs_download (w : World) (id : Z) : bool :=
  match cache_getFilter id w with
  | Some filter =>
      negb (truthy_bool (installed filter)) && negb (truthy_bool (loaded filter))
  | None => false
  end.

(** Modelled from the spec: the contract of the metadata client, "fetch
    metadata for a set of filter ids → list of metadata records {id,
    version, timeUpdated,...}": every record of an answer is the record of
    one of the ids that were asked for.  The client ([service-client.js])
    is not part of the orchestrator, and the orchestrator does not test
    this itself. *)
Definition answers_for_asked (E : Env) : Prop :=
  forall ids l json,
    metadataAnswer E ids = Some l ->
    In json l ->
    In (filterId (createSubscriptionFilterFromJSON E json)) ids.

(** The ids at the head of a batch whose filters the cache holds, and the
    first id of the batch whose filter the cache does not hold. *)
Fixpoint known_prefix (ids : list Z) (w : World) : list Z :=
  match ids with
  | [] => []
  | id :: rest =>
      match cache_getFilter id w with
      | Some _ => id :: known_prefix rest w
      | None => []
      end
  end.

Fixpoint first_unknown (ids : list Z) (w : World) : option Z :=
  match ids with
  | [] => None
  | id :: rest =>
      match cache_getFilter id w with
      | Some _ => first_unknown rest w
      | None => Some id
      end
  end.

(** * Properties *)

(** ** Reasoning about computations *)

Lemma bind_assoc {A B C} (m : M A) (k : A -> M B) (h : B -> M C) (w : World) :
  bind (bind m k) h w = bind m (fun a => bind (k a) h) w.
Proof. unfold bind. destruct (m w); reflexivity. Qed.

Lemma bind_ret_l {A B} (a : A) (k : A -> M B) (w : World) :
  bind (ret a) k w = k a w.
Proof. reflexivity. Qed.

Lemma bind_ext {A B} (m : M A) (k k' : A -> M B) (w : World) :
  (forall a w', k a w' = k' a w') -> bind m k w = bind m k' w.
Proof. intros H. unfold bind. destruct (m w); auto. Qed.

(** The record of the world is determined by its fields. *)
Lemma with_trace_id (w : World) : with_trace (trace w) w = w.
Proof. destruct w; reflexivity. Qed.

Lemma with_cacheGroups_id (w : World) : with_cacheGroups (cacheGroups w) w = w.
Proof. destruct w; reflexivity. Qed.

Lemma with_cacheFilters_id (w : World) : with_cacheFilters (cacheFilters w) w = w.
Proof. destruct w; reflexivity. Qed.

(** ** Groups: enableGroup and disableGroup *)

Section Groups.

Import FiltersManager.

Lemma enableGroup_unknown (groupId : Z) (w : World) :
  cache_getGroup groupId w = None -> enableGroup groupId w = Ok tt w.
Proof. intros H. unfold enableGroup. unfold_monad. rewrite H. reflexivity. Qed.

Lemma disableGroup_unknown (groupId : Z) (w : World) :
  cache_getGroup groupId w = None -> disableGroup groupId w = Ok tt w.
Proof. intros H. unfold disableGroup. unfold_monad. rewrite H. reflexivity. Qed.

Lemma enableGroup_enabled (groupId : Z) (w : World) :
  isGroupEnabled groupId w = true -> enableGroup groupId w = Ok tt w.
Proof.
  unfold isGroupEnabled, enableGroup. unfold_monad.
  destruct (cache_getGroup groupId w) as [group|]; [|discriminate].
  intros ->. reflexivity.
Qed.

Lemma disableGroup_not_enabled (groupId : Z) (w : World) :
  isGroupEnabled groupId w = false -> disableGroup groupId w = Ok tt w.
Proof.
  unfold isGroupEnabled, disableGroup. unfold_monad.
  destruct (cache_getGroup groupId w) as [group|]; [|reflexivity].
  intros ->. reflexivity.
Qed.

Lemma enableGroup_fresh (groupId : Z) (group : Group) (w : World) :
  cache_getGroup groupId w = Some group ->
  truthy_bool (g_enabled group) = false ->
  enableGroup groupId w = Ok tt (toggled true groupId group w).
Proof.
  intros H Hd. unfold enableGroup. unfold_monad. rewrite H, Hd. reflexivity.
Qed.

Lemma disableGroup_fresh (groupId : Z) (group : Group) (w : World) :
  cache_getGroup groupId w = Some group ->
  truthy_bool (g_enabled group) = true ->
  disableGroup groupId w = Ok tt (toggled false groupId group w).
Proof.
  intros H Hd. unfold disableGroup. unfold_monad. rewrite H, Hd. reflexivity.
Qed.

Lemma isGroupEnabled_toggled (b : bool) (groupId : Z) (group : Group) (w : World) :
  cache_getGroup groupId w = Some group ->
  isGroupEnabled groupId (toggled b groupId group w) = b.
Proof.
  unfold isGroupEnabled, cache_getGroup, toggled. cbn. intros H.
  rewrite lookup_alter_eq, H. cbn. destruct b; reflexivity.
Qed.

(** C9. [enableGroup] and [disableGroup] are idempotent.  For every group
    id and every state of the cache, [enableGroup] returns, and a second
    [enableGroup] right after it changes nothing and emits nothing.  On an
    unknown id, and on a group that is enabled already, the first call
    changes nothing either; on a known group that is not enabled it sets
    the flag and emits one [FILTER_GROUP_ENABLE_DISABLE] event, so that the
    two calls together emit exactly one.  [disableGroup] is symmetric: it
    emits its one event only for a group that is enabled. *)
Theorem enableGroup_disableGroup_idempotent (groupId : Z) (w : World) :
  (exists w1,
     enableGroup groupId w = Ok tt w1 /\
     enableGroup groupId w1 = Ok tt w1 /\
     match cache_getGroup groupId w with
     | None => w1 = w
     | Some group =>
         if truthy_bool (g_enabled group) then w1 = w
         else
           isGroupEnabled groupId w1 = true /\
           trace w1 =
             trace w ++ [Notify FILTER_GROUP_ENABLE_DISABLE
                           (PGroup (set_group_enabled true group))]
     end) /\
  (exists w1,
     disableGroup groupId w = Ok tt w1 /\
     disableGroup groupId w1 = Ok tt w1 /\
     match cache_getGroup groupId w with
     | None => w1 = w
     | Some group =>
         if truthy_bool (g_enabled group) then
           isGroupEnabled groupId w1 = false /\
           trace w1 =
             trace w ++ [Notify FILTER_GROUP_ENABLE_DISABLE
                           (PGroup (set_group_enabled false group))]
         else w1 = w
     end).
Proof.
  split.
  - destruct (cache_getGroup groupId w) as [group|] eqn:Hg.
    + destruct (truthy_bool (g_enabled group)) eqn:He.
      * assert (Hen : isGroupEnabled groupId w = true)
          by (unfold isGroupEnabled; rewrite Hg; exact He).
        exists w. rewrite (enableGroup_enabled _ _ Hen). auto.
      * exists (toggled true groupId group w).
        pose proof (isGroupEnabled_toggled true groupId group w Hg) as Hen.
        rewrite (enableGroup_fresh _ _ _ Hg He).
        rewrite (enableGroup_enabled _ _ Hen). auto.
    + exists w. rewrite (enableGroup_unknown _ _ Hg). auto.
  - destruct (cache_getGroup groupId w) as [group|] eqn:Hg.
    + destruct (truthy_bool (g_enabled group)) eqn:He.
      * exists (toggled false groupId group w).
        pose proof (isGroupEnabled_toggled false groupId group w Hg) as Hen.
        rewrite (disableGroup_fresh _ _ _ Hg He).
        rewrite (disableGroup_not_enabled _ _ Hen). auto.
      * assert (Hen : isGroupEnabled groupId w = false)
          by (unfold isGroupEnabled; rewrite Hg; exact He).
        exists w. rewrite (disableGroup_not_enabled _ _ Hen). auto.
    + exists w. rewrite (disableGroup_unknown _ _ Hg). auto.
Qed.

End Groups.

(** ** De-duplication of a batch of ids *)

Section RemoveDuplicates.

Lemma In_removeDuplicates (x : Z) (l : list Z) :
  In x (removeDuplicates l) <-> In x l.
Proof.
  induction l as [|a l IH]; cbn; [tauto|].
  rewrite filter_In, IH, negb_true_iff, Z.eqb_neq. split.
  - intros [H|[H _]]; auto.
  - intros [H|H]; auto. destruct (Z.eq_dec a x); auto.
Qed.

Lemma NoDup_filter_list {A} (p : A -> bool) (l : list A) :
  List.NoDup l -> List.NoDup (List.filter p l).
Proof.
  induction 1 as [|a l Hn Hd IH]; cbn; [constructor|].
  destruct (p a); auto. constructor; auto.
  rewrite filter_In. tauto.
Qed.

Lemma NoDup_removeDuplicates (l : list Z) : List.NoDup (removeDuplicates l).
Proof.
  induction l as [|a l IH]; cbn; constructor.
  - rewrite filter_In, negb_true_iff, Z.eqb_neq. tauto.
  - apply NoDup_filter_list, IH.
Qed.

Lemma removeDuplicates_NoDup_id (l : list Z) :
  List.NoDup l -> removeDuplicates l = l.
Proof.
  induction 1 as [|a l Hn Hd IH]; cbn; [reflexivity|].
  rewrite IH. f_equal.
  clear - Hn. induction l as [|b l IH]; cbn; [reflexivity|].
  destruct (Z.eqb_spec b a) as [->|Hne]; cbn.
  - exfalso. apply Hn. left. reflexivity.
  - f_equal. apply IH. intros H. apply Hn. right. exact H.
Qed.

End RemoveDuplicates.

(** ** disableFilters *)

Section DisableFilters.

Import FiltersManager.

Lemma isFilterEnabled_present (id : Z) (w : World) :
  isFilterEnabled id w = true -> is_Some (cache_getFilter id w).
Proof.
  unfold isFilterEnabled. destruct (cache_getFilter id w); [eauto|discriminate].
Qed.

Lemma isFilterEnabled_absent (id : Z) (w : World) :
  cache_getFilter id w = None -> isFilterEnabled id w = false.
Proof. unfold isFilterEnabled. intros ->. reflexivity. Qed.

Lemma isFilterEnabled_disabled_one (x id : Z) (w : World) :
  isFilterEnabled x (disabled_one id w) = isFilterEnabled x w.
Proof.
  unfold isFilterEnabled, cache_getFilter, disabled_one. cbn.
  rewrite lookup_alter. case_decide as Hx; [subst x|reflexivity].
  destruct (cacheFilters w !! id); reflexivity.
Qed.

Lemma cache_getFilter_disabled_one (x id : Z) (w : World) :
  cache_getFilter x (disabled_one id w) =
  if decide (id = x) then set_enabled false <$> cache_getFilter id w
  else cache_getFilter x w.
Proof. unfold cache_getFilter, disabled_one. cbn. apply lookup_alter. Qed.

Lemma trace_disabled_one (id : Z) (w : World) :
  trace (disabled_one id w) =
  trace w ++ [Notify FILTER_ENABLE_DISABLE
                (PFilter (set_enabled false <$> cache_getFilter id w))].
Proof. reflexivity. Qed.

Lemma disableLoop_stop (id : Z) (rest : list Z) (w : World) :
  isFilterEnabled id w = false -> disableLoop (id :: rest) w = Ok tt w.
Proof. intros H. cbn. unfold_monad. rewrite H. reflexivity. Qed.

Lemma disableLoop_step (id : Z) (rest : list Z) (w : World) :
  isFilterEnabled id w = true ->
  disableLoop (id :: rest) w = disableLoop rest (disabled_one id w).
Proof.
  intros H. destruct (isFilterEnabled_present _ _ H) as [filter Hf].
  cbn. unfold_monad. rewrite H. cbn. rewrite Hf. unfold disabled_one.
  rewrite Hf. reflexivity.
Qed.

Lemma Forall_enabled_disabled_one (id : Z) (l : list Z) (w : World) :
  List.Forall (fun x => isFilterEnabled x w = true) l ->
  List.Forall (fun x => isFilterEnabled x (disabled_one id w) = true) l.
Proof.
  intros H. eapply List.Forall_impl; [|exact H]. cbn. intros x Hx.
  rewrite isFilterEnabled_disabled_one. exact Hx.
Qed.

(** The loop disables the enabled ids at the head of the list and leaves
    at the first id that is not enabled. *)
Lemma disableLoop_prefix (pre : list Z) (id : Z) (post : list Z) (w : World) :
  List.Forall (fun x => isFilterEnabled x w = true) pre ->
  isFilterEnabled id w = false ->
  disableLoop (pre ++ id :: post) w = Ok tt (disabled_all pre w).
Proof.
  revert w. induction pre as [|x pre IH]; intros w Hpre Hid.
  - apply disableLoop_stop, Hid.
  - inversion Hpre as [|? ? Hx Hrest]; subst.
    change ((x :: pre) ++ id :: post) with (x :: (pre ++ id :: post)).
    rewrite (disableLoop_step _ _ _ Hx). cbn. apply IH.
    + apply Forall_enabled_disabled_one, Hrest.
    + rewrite isFilterEnabled_disabled_one. exact Hid.
Qed.

Lemma disableLoop_all (l : list Z) (w : World) :
  List.Forall (fun x => isFilterEnabled x w = true) l ->
  disableLoop l w = Ok tt (disabled_all l w).
Proof.
  revert w. induction l as [|x l IH]; intros w Hl; [reflexivity|].
  inversion Hl as [|? ? Hx Hrest]; subst.
  rewrite (disableLoop_step _ _ _ Hx). cbn. apply IH.
  apply Forall_enabled_disabled_one, Hrest.
Qed.

Lemma cache_getFilter_disabled_all_other (x : Z) (l : list Z) (w : World) :
  ~ In x l -> cache_getFilter x (disabled_all l w) = cache_getFilter x w.
Proof.
  revert w. induction l as [|a l IH]; intros w Hx; [reflexivity|].
  cbn. rewrite IH by (intros H; apply Hx; right; exact H).
  rewrite cache_getFilter_disabled_one. case_decide as Ha; [|reflexivity].
  exfalso. apply Hx. left. exact Ha.
Qed.

Lemma cache_getFilter_disabled_all_in (x : Z) (l : list Z) (w : World) :
  List.NoDup l -> In x l ->
  cache_getFilter x (disabled_all l w) = set_enabled false <$> cache_getFilter x w.
Proof.
  revert w. induction l as [|a l IH]; intros w Hnd Hx; [destruct Hx|].
  inversion Hnd as [|? ? Ha Hl]; subst. cbn. destruct Hx as [->|Hx].
  - rewrite cache_getFilter_disabled_all_other by exact Ha.
    rewrite cache_getFilter_disabled_one. case_decide; [reflexivity|congruence].
  - rewrite (IH _ Hl Hx). rewrite cache_getFilter_disabled_one.
    case_decide as Hax; [|reflexivity]. subst. contradiction.
Qed.

Lemma trace_disabled_all (l : list Z) (w : World) :
  List.NoDup l ->
  trace (disabled_all l w) =
  trace w ++ List.map (fun x => Notify FILTER_ENABLE_DISABLE
                         (PFilter (set_enabled false <$> cache_getFilter x w))) l.
Proof.
  revert w. induction l as [|a l IH]; intros w Hnd.
  - cbn. rewrite app_nil_r. reflexivity.
  - inversion Hnd as [|? ? Ha Hl]; subst. cbn. rewrite (IH _ Hl).
    rewrite trace_disabled_one, <- app_assoc. cbn. do 2 f_equal.
    apply map_ext_in. intros x Hx. rewrite cache_getFilter_disabled_one.
    case_decide as Hax; [|reflexivity]. subst. contradiction.
Qed.

Lemma NoDup_app_parts {A} (l1 l2 : list A) :
  List.NoDup (l1 ++ l2) ->
  List.NoDup l1 /\ List.NoDup l2 /\ (forall x, In x l2 -> ~ In x l1).
Proof.
  induction l1 as [|a l1 IH]; cbn; intros H.
  - repeat split; [constructor|exact H|tauto].
  - inversion H as [|? ? Ha Hl]; subst. destruct (IH Hl) as (H1 & H2 & H3).
    repeat split; auto.
    + constructor; auto. intros Hin. apply Ha, in_or_app. left. exact Hin.
    + intros x Hx [->|Hin]; [apply Ha, in_or_app; right; exact Hx|].
      exact (H3 x Hx Hin).
Qed.

(** C6. [disableFilters] handles the ids in the order given, once each,
    and stops for good at the first id whose filter is not enabled.  When
    the de-duplicated batch is [pre ++ id :: post], with the filters of
    [pre] enabled and the filter of [id] not, the call returns after it has
    disabled the filters of [pre], one [FILTER_ENABLE_DISABLE] event each
    and in that order; [id] and every later id of [post] is none of those,
    its cache object is left as it was (also when it is enabled), and no
    event is emitted for it. *)
Theorem disableFilters_stops_at_first_not_enabled
    (filterIds pre post : list Z) (id : Z) (w : World) :
  removeDuplicates filterIds = pre ++ id :: post ->
  List.Forall (fun x => isFilterEnabled x w = true) pre ->
  isFilterEnabled id w = false ->
  exists w',
    disableFilters filterIds w = Ok tt w' /\
    trace w' =
      trace w ++ List.map (fun x => Notify FILTER_ENABLE_DISABLE
                             (PFilter (set_enabled false <$> cache_getFilter x w)))
                   pre /\
    (forall x, In x pre ->
       cache_getFilter x w' = set_enabled false <$> cache_getFilter x w) /\
    (forall x, In x (id :: post) ->
       ~ In x pre /\ cache_getFilter x w' = cache_getFilter x w).
Proof.
  intros Hd Hpre Hid.
  pose proof (NoDup_removeDuplicates filterIds) as Hnd. rewrite Hd in Hnd.
  destruct (NoDup_app_parts _ _ Hnd) as (Hnpre & _ & Hsep).
  exists (disabled_all pre w). unfold disableFilters. rewrite Hd.
  split; [apply disableLoop_prefix; assumption|].
  split; [apply trace_disabled_all, Hnpre|].
  split.
  - intros x Hx. apply cache_getFilter_disabled_all_in; assumption.
  - intros x Hx. split; [apply Hsep, Hx|].
    apply cache_getFilter_disabled_all_other, Hsep, Hx.
Qed.

End DisableFilters.

(** ** Ids that the cache does not hold *)

Section AbsentIds.

Import FiltersManager.

Variable E : Env.

(** [enableFilter] assigns to a property of the object it has looked up
    without testing it: on an id that the cache does not hold the
    assignment throws, before any event and with the state as it was. *)
Lemma enableFilter_absent (id : Z) (w : World) :
  cache_getFilter id w = None -> enableFilter E id w = Throw TypeError w.
Proof. intros H. unfold enableFilter. unfold_monad. rewrite H. reflexivity. Qed.

(** [disableFilters] leaves at an id that the cache does not hold: nothing
    is thrown and nothing is emitted, for this id or for a later one. *)
Lemma disableLoop_absent (id : Z) (rest : list Z) (w : World) :
  cache_getFilter id w = None -> disableLoop (id :: rest) w = Ok tt w.
Proof. intros H. apply disableLoop_stop, isFilterEnabled_absent, H. Qed.

Lemma disableFilters_absent (pre post : list Z) (id : Z) (w : World) :
  List.NoDup (pre ++ id :: post) ->
  List.Forall (fun x => isFilterEnabled x w = true) pre ->
  cache_getFilter id w = None ->
  disableFilters (pre ++ id :: post) w = Ok tt (disabled_all pre w).
Proof.
  intros Hnd Hpre Hid. unfold disableFilters.
  rewrite (removeDuplicates_NoDup_id _ Hnd).
  apply disableLoop_prefix; [exact Hpre|]. apply isFilterEnabled_absent, Hid.
Qed.

End AbsentIds.

(** C1. Filter 99 is not in the cache of the sample installation.
    [disableFilters] on a batch with this id returns, with the one event of
    the enabled filter that comes before it; [enableFilter] on this id does
    not return: it throws a [TypeError], having emitted nothing. *)
Theorem enableFilter_absent_id_throws :
  cache_getFilter 99 Sample.world0 = None /\
  FiltersManager.enableFilter Sample.env_ok 99 Sample.world0
    = Throw TypeError Sample.world0 /\
  FiltersManager.disableFilters [1; 99; 2] Sample.world0
    = Ok tt (disabled_all [1] Sample.world0).
Proof.
  split; [reflexivity|]. split.
  - apply enableFilter_absent. reflexivity.
  - apply (disableFilters_absent [1] [2] 99).
    + repeat constructor; cbn; intuition discriminate.
    + repeat constructor.
    + reflexivity.
Qed.

(** ** getFilters and getGroups *)

Section Projections.

Import FiltersManager.

(** [getFilters] returns the filters of the cache, each merged with what
    the persisted store has for it; the store itself and the trace are as
    before. *)
Lemma getFilters_merges (w : World) :
  exists w' filters,
    getFilters w = Ok filters w' /\
    filters = cache_getFilters w' /\
    cacheFilters w' = merge_filter w <$> cacheFilters w /\
    filters ≡ₚ List.map (merge_filter w) (cache_getFilters w) /\
    persisted w' = persisted w /\
    storage w' = storage w /\
    trace w' = trace w.
Proof.
  eexists _, _. split; [reflexivity|]. cbn.
  repeat split. unfold cache_getFilters. cbn.
  rewrite map_to_list_fmap. rewrite <- list_fmap_compose.
  change (List.map (merge_filter w) (map_to_list (cacheFilters w)).*2)
    with (merge_filter w <$> (map_to_list (cacheFilters w)).*2).
  rewrite <- list_fmap_compose. reflexivity.
Qed.

Lemma merge_filter_fields (w : World) (f : Filter) :
  (version (merge_filter w f), lastCheckTime (merge_filter w f),
   lastUpdateTime (merge_filter w f)) =
    match filtersVersionInfo w !! filterId f with
    | Some vi => (vi_version vi, vi_lastCheckTime vi, vi_lastUpdateTime vi)
    | None => (version f, lastCheckTime f, lastUpdateTime f)
    end /\
  (enabled (merge_filter w f), installed (merge_filter w f),
   loaded (merge_filter w f)) =
    match filtersStateInfo w !! filterId f with
    | Some si => (si_enabled si, si_installed si, si_loaded si)
    | None => (enabled f, installed f, loaded f)
    end.
Proof.
  unfold merge_filter.
  destruct (filtersVersionInfo w !! filterId f) as [vi|]; cbn;
    destruct (filtersStateInfo w !! filterId f) as [si|]; cbn; auto.
Qed.

(** C8. [getGroups] copies the persisted [enabled] state into the groups of
    the cache and writes nothing to the persisted store, but it does not
    return the merged groups: in every state the call evaluates to
    [undefined]. *)
Theorem getGroups_returns_undefined (w : World) :
  exists w',
    getGroups w = Ok None w' /\
    cacheGroups w' = merge_group w <$> cacheGroups w /\
    persisted w' = persisted w /\
    storage w' = storage w /\
    trace w' = trace w.
Proof. eexists. split; [reflexivity|]. cbn. repeat split. Qed.

End Projections.

(** ** selectFilterIdsToUpdate *)

Section Select.

Import FiltersUpdate.

(** The test that the loop applies to a filter. *)
Lemma selectLoop_filter (forceUpdate : option bool) (period now : Z)
    (filters : list Filter) (acc : list Z) :
  selectLoop forceUpdate period now filters acc =
  acc ++ List.map filterId
    (List.filter
       (fun f => truthy_bool (installed f) && truthy_bool (enabled f)
                 && needUpdate forceUpdate period now f
                 && negb (truthy_str (customUrl f)))
       filters).
Proof.
  revert acc. induction filters as [|f filters IH]; intros acc; cbn.
  - rewrite app_nil_r. reflexivity.
  - rewrite IH.
    destruct (truthy_bool (installed f) && truthy_bool (enabled f)); cbn;
      [|reflexivity].
    destruct (needUpdate forceUpdate period now f); cbn; [|reflexivity].
    destruct (negb (truthy_str (customUrl f))); cbn; [|reflexivity].
    rewrite <- app_assoc. reflexivity.
Qed.

Lemma needUpdate_iff (forceUpdate : option bool) (period now : Z) (f : Filter) :
  needUpdate forceUpdate period now f = true <->
  (forceUpdate = Some true \/
   truthy_num (lastCheckTime f) = false \/
   exists t, lastCheckTime f = Some t /\ now - t >= period).
Proof.
  unfold needUpdate. rewrite !orb_true_iff, negb_true_iff. split.
  - intros [H|[H|H]].
    + left. destruct forceUpdate as [[|]|]; try discriminate. reflexivity.
    + right. left. exact H.
    + right. right. destruct (lastCheckTime f) as [t|]; [|discriminate].
      exists t. split; [reflexivity|]. cbn in H. apply Z.leb_le in H. lia.
  - intros [->|[H|(t & Ht & Hge)]]; [left; reflexivity|right; left; exact H|].
    right. right. rewrite Ht. cbn. apply Z.leb_le. lia.
Qed.

(** C5. The ids that [selectFilterIdsToUpdate] selects.  The built-in list
    holds the id of a filter of the list it goes through (the subset when
    one is supplied, the filters of the cache otherwise) exactly when the
    filter is not custom, is installed and enabled, and [forceUpdate] is
    true, or the filter has no [lastCheckTime], or the time since its
    [lastCheckTime] is at least the update period of the settings, taken
    in milliseconds at the call.  The custom list holds the id of a custom
    filter exactly when the filter is enabled and, when a subset is
    supplied, a filter of the subset has its id.  An installed, enabled,
    built-in filter checked 30 minutes ago, under a period of one hour, is
    left out without [forceUpdate] and selected with it. *)
Theorem selectFilterIdsToUpdate_spec (forceUpdate : option bool)
    (filtersToUpdate : option (list Filter)) (w : World) :
  let scanned :=
    match filtersToUpdate with Some l => l | None => cache_getFilters w end in
  let periodInMs := updateFiltersPeriod w * 60 * 60 * 1000 in
  (forall id,
     In id (filterIds (selectFilterIdsToUpdate forceUpdate filtersToUpdate w)) <->
     exists f, In f scanned /\ filterId f = id /\
       truthy_str (customUrl f) = false /\
       truthy_bool (installed f) = true /\ truthy_bool (enabled f) = true /\
       (forceUpdate = Some true \/
        truthy_num (lastCheckTime f) = false \/
        exists t, lastCheckTime f = Some t /\ clock w - t >= periodInMs)) /\
  (forall id,
     In id (customFilterIds (selectFilterIdsToUpdate forceUpdate filtersToUpdate w)) <->
     exists f, In f (customStore w) /\ filterId f = id /\
       truthy_bool (enabled f) = true /\
       match filtersToUpdate with
       | None => True
       | Some l => exists x, In x l /\ filterId x = id
       end) /\
  (forall f t,
     lastCheckTime f = Some t -> t <> 0 -> clock w - t = 30 * 60 * 1000 ->
     updateFiltersPeriod w = 1 ->
     truthy_str (customUrl f) = false ->
     truthy_bool (installed f) = true -> truthy_bool (enabled f) = true ->
     filterIds (selectFilterIdsToUpdate (Some false) (Some [f]) w) = [] /\
     filterIds (selectFilterIdsToUpdate (Some true) (Some [f]) w) = [filterId f]).
Proof.
  cbn zeta. split; [|split].
  - intros id. unfold selectFilterIdsToUpdate. cbn [filterIds].
    rewrite selectLoop_filter. cbn [app]. rewrite in_map_iff. split.
    + intros (f & Hid & Hf). apply filter_In in Hf. destruct Hf as [Hin Hc].
      rewrite !andb_true_iff, negb_true_iff in Hc.
      destruct Hc as [[[Hi He] Hn] Hcu]. apply needUpdate_iff in Hn.
      exists f. auto 10.
    + intros (f & Hin & Hid & Hcu & Hi & He & Hn). exists f.
      split; [exact Hid|]. apply filter_In. split; [exact Hin|].
      rewrite !andb_true_iff, negb_true_iff. apply needUpdate_iff in Hn. auto.
  - intros id. unfold selectFilterIdsToUpdate. cbn [customFilterIds].
    rewrite in_map_iff. split.
    + intros (f & Hid & Hf). rewrite !filter_In in Hf.
      destruct Hf as [[Hin Hsub] He]. exists f. repeat split; auto.
      destruct filtersToUpdate as [l|]; [|exact I].
      apply existsb_exists in Hsub. destruct Hsub as (x & Hx & Heq).
      exists x. split; [exact Hx|]. apply Z.eqb_eq in Heq. congruence.
    + intros (f & Hin & Hid & He & Hsub). exists f. split; [exact Hid|].
      rewrite !filter_In. repeat split; auto.
      destruct filtersToUpdate as [l|]; [|reflexivity].
      destruct Hsub as (x & Hx & Heq). apply existsb_exists. exists x.
      split; [exact Hx|]. apply Z.eqb_eq. congruence.
  - intros f t Ht Hnz Hel Hp Hcu Hi He.
    unfold selectFilterIdsToUpdate. cbn [filterIds]. rewrite !selectLoop_filter.
    cbn. unfold needUpdate. rewrite Hi, He, Hcu, Ht, Hp. cbn.
    apply Z.eqb_neq in Hnz. rewrite Hnz. cbn.
    replace (1 * 60 * 60 * 1000 <=? clock w - t) with false; [split; reflexivity|].
    symmetry. apply Z.leb_gt. lia.
Qed.

End Select.

(** ** checkFilterUpdate *)

Section CheckFilterUpdate.

Import FiltersUpdate.

Variable E : Env.

(** C7. [checkFilterUpdate] returns at once, leaving the state and the
    trace as they are (no request, no event, no storage write), when the
    filter is not enabled or its [lastCheckTime] is less than 5 minutes
    before the current time; it does so for a filter checked 2 minutes ago.
    For an enabled filter without [lastCheckTime], or checked 5 minutes ago
    or earlier, it is the forced check of this one filter:
    [checkAntiBannerFiltersUpdate(true, [filter])]. *)
Theorem checkFilterUpdate_skip_window (filter : Filter) (w : World) :
  (truthy_bool (enabled filter) = false \/
   (exists t, lastCheckTime filter = Some t /\ clock w - t < 5 * 60 * 1000) ->
   checkFilterUpdate E filter w = Ok tt w) /\
  (truthy_bool (enabled filter) = true ->
   (lastCheckTime filter = None \/
    exists t, lastCheckTime filter = Some t /\ 5 * 60 * 1000 <= clock w - t) ->
   checkFilterUpdate E filter w =
   checkAntiBannerFiltersUpdate E (Some true) (Some [filter]) w) /\
  (forall t, lastCheckTime filter = Some t -> clock w - t = 2 * 60 * 1000 ->
   checkFilterUpdate E filter w = Ok tt w).
Proof.
  assert (Hskip : forall t, lastCheckTime filter = Some t ->
            clock w - t < 5 * 60 * 1000 -> checkFilterUpdate E filter w = Ok tt w).
  { intros t Ht Hlt. unfold checkFilterUpdate.
    destruct (negb (truthy_bool (enabled filter))); [reflexivity|].
    rewrite Ht. cbn. unfold ENABLED_FILTERS_SKIP_TIMEOUT.
    replace (clock w - t <? 5 * 60 * 1000) with true; [reflexivity|].
    symmetry. apply Z.ltb_lt. exact Hlt. }
  split; [|split].
  - intros [Hd|(t & Ht & Hlt)]; [|exact (Hskip t Ht Hlt)].
    unfold checkFilterUpdate. rewrite Hd. reflexivity.
  - intros He Hold. unfold checkFilterUpdate. rewrite He. cbn [negb].
    destruct Hold as [Hn|(t & Ht & Hge)].
    + rewrite Hn. reflexivity.
    + rewrite Ht. cbn. unfold ENABLED_FILTERS_SKIP_TIMEOUT.
      replace (clock w - t <? 5 * 60 * 1000) with false; [reflexivity|].
      symmetry. apply Z.ltb_ge. exact Hge.
  - intros t Ht H2. apply (Hskip t Ht). lia.
Qed.

End CheckFilterUpdate.

(** ** Observed effects *)

Section Emits.

Lemma emits_refl (w : World) : emits w w [].
Proof. split; [reflexivity|]. exists []. rewrite app_nil_r. auto. Qed.

Lemma emits_trans (w1 w2 w3 : World) (o1 o2 : list Effect) :
  emits w1 w2 o1 -> emits w2 w3 o2 -> emits w1 w3 (o1 ++ o2).
Proof.
  intros [Hs1 (e1 & Ht1 & Ho1)] [Hs2 (e2 & Ht2 & Ho2)]. split; [congruence|].
  exists (e1 ++ e2). rewrite Ht2, Ht1, <- app_assoc, List.filter_app.
  split; congruence.
Qed.

Lemma emits_emit (e : Effect) (w : World) :
  emits w (emit e w) (if watch e then [e] else []).
Proof.
  split; [reflexivity|]. exists [e]. split; [reflexivity|].
  cbn. destruct (watch e); reflexivity.
Qed.

Lemma emits_quiet_l (w1 w2 w3 : World) (o : list Effect) :
  emits w1 w2 [] -> emits w2 w3 o -> emits w1 w3 o.
Proof. intros H1 H2. exact (emits_trans _ _ _ _ _ H1 H2). Qed.

Lemma emits_quiet_r (w1 w2 w3 : World) (o : list Effect) :
  emits w1 w2 o -> emits w2 w3 [] -> emits w1 w3 o.
Proof.
  intros H1 H2. pose proof (emits_trans _ _ _ _ _ H1 H2) as H.
  rewrite app_nil_r in H. exact H.
Qed.

(** A change of the cache or of the clock is not observed. *)
Lemma emits_with_cacheFilters (m : gmap Z Filter) (w : World) :
  emits w (with_cacheFilters m w) [].
Proof. split; [reflexivity|]. exists []. cbn. rewrite app_nil_r. auto. Qed.

Lemma emits_with_clock (t : Z) (w : World) : emits w (with_clock t w) [].
Proof. split; [reflexivity|]. exists []. cbn. rewrite app_nil_r. auto. Qed.

End Emits.

(** ** Downloads of filter rules *)

Section Downloads.

Import FiltersUpdate.

Variable E : Env.

(** *** One request and its answer *)

Lemma loadFilterRules_request_absent (filterMetadata : Filter)
    (forceRemote : bool) (w : World) :
  cache_getFilter (filterId filterMetadata) w = None ->
  loadFilterRules_request filterMetadata forceRemote w = Throw TypeError w.
Proof.
  intros H. unfold loadFilterRules_request. unfold_monad. rewrite H. reflexivity.
Qed.

Lemma loadFilterRules_request_present (filterMetadata filter : Filter)
    (forceRemote : bool) (w : World) :
  cache_getFilter (filterId filterMetadata) w = Some filter ->
  exists w',
    loadFilterRules_request filterMetadata forceRemote w = Ok filter w' /\
    emits w w' [RequestRules (filterId filter) forceRemote] /\
    (forall k, filterId <$> cache_getFilter k w' = filterId <$> cache_getFilter k w).
Proof.
  intros H. unfold loadFilterRules_request. unfold_monad. rewrite H.
  eexists. split; [reflexivity|]. split.
  - split; [reflexivity|]. eexists. cbn. rewrite <- app_assoc. split; reflexivity.
  - intros k. unfold cache_getFilter. cbn. rewrite lookup_alter.
    case_decide as Hk; [|reflexivity]. subst k.
    unfold cache_getFilter in H. rewrite H. reflexivity.
Qed.

(** The callback of [loadFilterRules] is called once, last, with the
    outcome. *)
Lemma loadFilterRules_answer_cps {B} (filter filterMetadata : Filter)
    (forceRemote : bool) (callback : bool -> M B) (w : World) :
  loadFilterRules_answer E filter filterMetadata forceRemote callback w =
  bind (loadFilterRules_answer E filter filterMetadata forceRemote ret) callback w.
Proof.
  unfold loadFilterRules_answer, successCallback, errorCallback. unfold_monad.
  destruct (rulesAnswer E (filterId filter) forceRemote); reflexivity.
Qed.

Lemma loadFilterRules_answer_ret (filter filterMetadata : Filter)
    (forceRemote : bool) (w : World) :
  exists w',
    loadFilterRules_answer E filter filterMetadata forceRemote ret w =
      Ok (match rulesAnswer E (filterId filter) forceRemote with
          | Some _ => true
          | None => false
          end) w' /\
    emits w w' [] /\
    (forall k, filterId <$> cache_getFilter k w' = filterId <$> cache_getFilter k w).
Proof.
  unfold loadFilterRules_answer, successCallback, errorCallback. unfold_monad.
  destruct (rulesAnswer E (filterId filter) forceRemote) as [rules|];
    (eexists; split; [reflexivity|]; split;
     [ split; [reflexivity|]; eexists; cbn; rewrite <- ?app_assoc;
       split; reflexivity
     | intros k; unfold cache_getFilter; cbn; rewrite lookup_alter;
       case_decide as Hk; [|reflexivity]; subst k;
       destruct (cacheFilters w !! filterId filterMetadata); reflexivity ]).
Qed.

(** *** The promises of a batch *)

Lemma forallb_Permutation {A} (p : A -> bool) (l l' : list A) :
  l ≡ₚ l' -> forallb p l = forallb p l'.
Proof.
  induction 1 as [|x l l' _ IH|x y l|l l' l'' _ IH1 _ IH2]; cbn.
  - reflexivity.
  - rewrite IH. reflexivity.
  - destruct (p x), (p y); reflexivity.
  - congruence.
Qed.

Lemma forallb_pointwise {A} (p q : A -> bool) (l : list A) :
  (forall x, p x = q x) -> forallb p l = forallb q l.
Proof.
  intros H. induction l as [|x l IH]; cbn; [reflexivity|].
  rewrite H, IH. reflexivity.
Qed.

Lemma startDownloads_run (filterMetadataList : list Filter) (w : World) :
  exists started thrown w',
    startDownloads filterMetadataList w = Ok (started, thrown) w' /\
    emits w w' (List.map (fun r => RequestRules (filterId (fst r)) true) started) /\
    (forall k, filterId <$> cache_getFilter k w' = filterId <$> cache_getFilter k w) /\
    thrown = negb (forallb (present w) filterMetadataList) /\
    Forall2 (request_of w) started (List.filter (present w) filterMetadataList).
Proof.
  revert w. induction filterMetadataList as [|m l IH]; intros w.
  - exists [], false, w. cbn. repeat split; auto using emits_refl.
    exists []. rewrite app_nil_r. auto.
  - cbn [startDownloads List.filter forallb]. unfold present at 1 3.
    destruct (cache_getFilter (filterId m) w) as [filter|] eqn:Hm.
    + destruct (loadFilterRules_request_present m filter true w Hm)
        as (w1 & Hrun & Hem & Hids).
      destruct (IH w1) as (started & thrown & w2 & Hrest & Hem2 & Hids2 & Hth & Hrel).
      assert (Hpres : forall x, present w1 x = present w x).
      { intros x. unfold present. specialize (Hids (filterId x)).
        destruct (cache_getFilter (filterId x) w1),
          (cache_getFilter (filterId x) w); cbn in Hids; congruence. }
      exists ((filter, m) :: started), thrown, w2. rewrite Hrun.
      unfold bind, ret. rewrite Hrest. cbn [fst snd].
      split; [reflexivity|]. split.
      { exact (emits_trans _ _ _ _ _ Hem Hem2). }
      split; [intros k; rewrite Hids2; apply Hids|].
      split.
      { rewrite Hth. cbn. f_equal. apply forallb_pointwise. intros x. apply Hpres. }
      constructor.
      * split; [reflexivity|]. unfold requested_id. rewrite Hm. reflexivity.
      * rewrite (List.filter_ext _ _ Hpres) in Hrel.
        eapply Forall2_impl; [exact Hrel|]. intros r x [Hr1 Hr2].
        split; [exact Hr1|]. unfold requested_id in *. rewrite <- Hids. exact Hr2.
    + rewrite (loadFilterRules_request_absent m true w Hm).
      destruct (IH w) as (started & thrown & w2 & Hrest & Hem2 & Hids2 & Hth & Hrel).
      exists started, true, w2. unfold bind, ret. rewrite Hrest. cbn [fst snd].
      repeat split; auto; apply Hem2.
Qed.

Lemma settleDownloads_cons (f m : Filter) (rest : list (Filter * Filter))
    (loadedFilters : list Z) (settled : bool)
    (callback : bool -> option (list Z) -> M unit) (w : World) :
  settleDownloads E ((f, m) :: rest) loadedFilters settled callback w =
  match loadFilterRules_answer E f m true ret w with
  | Ok true w' =>
      settleDownloads E rest (loadedFilters ++ [filterId m]) settled callback w'
  | Ok false w' =>
      bind (if settled then ret tt else callback false None)
        (fun _ => settleDownloads E rest loadedFilters true callback) w'
  | Throw e w' => Throw e w'
  end.
Proof.
  cbn [settleDownloads]. unfold bind at 1.
  change (fun success : bool => ret success) with (@ret bool).
  destruct (loadFilterRules_answer E f m true ret w) as [[|] w'|e w'];
    reflexivity.
Qed.

(** Once the aggregate promise is settled the callback is not called
    again: the answers that are still to come only emit their events. *)
Lemma settleDownloads_settled (arrivals : list (Filter * Filter))
    (loadedFilters : list Z) (w : World) :
  exists w',
    (forall callback,
       settleDownloads E arrivals loadedFilters true callback w = Ok tt w') /\
    emits w w' [].
Proof.
  revert loadedFilters w. induction arrivals as [|[f m] rest IH]; intros loaded w.
  - exists w. split; [reflexivity|apply emits_refl].
  - destruct (loadFilterRules_answer_ret f m true w) as (w1 & Hans & Hem & _).
    destruct (rulesAnswer E (filterId f) true) as [rules|].
    + destruct (IH (loaded ++ [filterId m]) w1) as (w2 & Hrest & Hem2).
      exists w2. split; [|exact (emits_quiet_l _ _ _ _ Hem Hem2)].
      intros cb. rewrite settleDownloads_cons, Hans. apply Hrest.
    + destruct (IH loaded w1) as (w2 & Hrest & Hem2).
      exists w2. split; [|exact (emits_quiet_l _ _ _ _ Hem Hem2)].
      intros cb. rewrite settleDownloads_cons, Hans. apply Hrest.
Qed.

(** When every answer brings rules, the callback is called once, last,
    with the ids in the order of the answers. *)
Lemma settleDownloads_all_ok (arrivals : list (Filter * Filter))
    (loadedFilters : list Z) (w : World) :
  forallb (answer_ok E) arrivals = true ->
  exists w1,
    emits w w1 [] /\
    forall callback,
      settleDownloads E arrivals loadedFilters false callback w =
      callback true
        (Some (loadedFilters ++ List.map (fun r => filterId (snd r)) arrivals)) w1.
Proof.
  revert loadedFilters w. induction arrivals as [|[f m] rest IH];
    intros loaded w Hok.
  - exists w. split; [apply emits_refl|]. intros cb. cbn. rewrite app_nil_r.
    reflexivity.
  - cbn in Hok. apply andb_true_iff in Hok. destruct Hok as [Hf Hrest].
    unfold answer_ok in Hf. cbn in Hf.
    destruct (loadFilterRules_answer_ret f m true w) as (w1 & Hans & Hem & _).
    destruct (rulesAnswer E (filterId f) true) as [rules|]; [|discriminate].
    destruct (IH (loaded ++ [filterId m]) w1 Hrest) as (w2 & Hem2 & Hrun).
    exists w2. split; [exact (emits_quiet_l _ _ _ _ Hem Hem2)|].
    intros cb. rewrite settleDownloads_cons, Hans.
    rewrite Hrun, <- app_assoc. reflexivity.
Qed.

(** When some answer is an error, the callback is called once, with
    [false] and no list, at the first such answer. *)
Lemma settleDownloads_some_fail (arrivals : list (Filter * Filter))
    (loadedFilters : list Z) (w : World) :
  forallb (answer_ok E) arrivals = false ->
  exists w1 (post : M unit),
    emits w w1 [] /\
    (forall callback,
       settleDownloads E arrivals loadedFilters false callback w =
       bind (callback false None) (fun _ => post) w1) /\
    (forall w2, exists w3, post w2 = Ok tt w3 /\ emits w2 w3 []).
Proof.
  revert loadedFilters w. induction arrivals as [|[f m] rest IH];
    intros loaded w Hok; [discriminate|].
  cbn in Hok. unfold answer_ok at 1 in Hok. cbn in Hok.
  destruct (loadFilterRules_answer_ret f m true w) as (w1 & Hans & Hem & _).
  destruct (rulesAnswer E (filterId f) true) as [rules|].
  - cbn in Hok.
    destruct (IH (loaded ++ [filterId m]) w1 Hok) as (w2 & post & Hem2 & Hrun & Hpost).
    exists w2, post. split; [exact (emits_quiet_l _ _ _ _ Hem Hem2)|].
    split; [|exact Hpost].
    intros cb. rewrite settleDownloads_cons, Hans. apply Hrun.
  - exists w1, (settleDownloads E rest loaded true (fun _ _ => ret tt)).
    split; [exact Hem|]. split.
    + intros cb. rewrite settleDownloads_cons, Hans.
      unfold bind. destruct (cb false None w1) as [[] w2|e w2]; [|reflexivity].
      destruct (settleDownloads_settled rest loaded w2) as (w3 & Hs & _).
      rewrite !Hs. reflexivity.
    + intros w2. destruct (settleDownloads_settled rest loaded w2) as (w3 & Hs & Hem3).
      exists w3. split; [apply Hs|exact Hem3].
Qed.

(** *** loadFiltersFromBackend *)

Lemma request_of_ids (w : World) (l : list Filter) :
  forall started,
    Forall2 (request_of w) started (List.filter (present w) l) ->
    List.map (fun r => filterId (fst r)) started = omap (requested_id w) l.
Proof.
  induction l as [|m l IH]; intros started H; cbn in *.
  - inversion H. reflexivity.
  - unfold present at 1 in H. unfold requested_id at 1.
    destruct (cache_getFilter (filterId m) w) as [f|] eqn:Hm; cbn.
    + inversion H as [|r ? started' ? [_ Hr] Hrest]; subst. cbn.
      unfold requested_id in Hr. rewrite Hm in Hr. cbn in Hr.
      injection Hr as Hr. rewrite <- Hr. f_equal. apply IH, Hrest.
    + apply IH, H.
Qed.

Lemma request_of_outcome (w : World) (started : list (Filter * Filter))
    (l : list Filter) :
  Forall2 (request_of w) started l ->
  forallb (answer_ok E) started = forallb (download_succeeds E w) l /\
  List.map (fun r => filterId (snd r)) started = List.map filterId l.
Proof.
  induction 1 as [|r m started l [Hs Hr] _ [IH1 IH2]]; cbn; [auto|].
  rewrite IH1, IH2, Hs. split; [|reflexivity]. f_equal.
  unfold answer_ok, download_succeeds. unfold requested_id in Hr.
  destruct (cache_getFilter (filterId m) w) as [f|]; [|discriminate].
  cbn in Hr. injection Hr as Hr. rewrite Hr. reflexivity.
Qed.

Lemma download_succeeds_present (w : World) (l : list Filter) :
  forallb (download_succeeds E w) l = true -> forallb (present w) l = true.
Proof.
  rewrite !forallb_forall. intros H m Hm. specialize (H m Hm).
  unfold download_succeeds in H. unfold present.
  destruct (cache_getFilter (filterId m) w); [reflexivity|discriminate].
Qed.

Lemma filter_all {A} (p : A -> bool) (l : list A) :
  forallb p l = true -> List.filter p l = l.
Proof.
  induction l as [|x l IH]; cbn; [reflexivity|].
  intros H. apply andb_true_iff in H. destruct H as [Hx Hl].
  rewrite Hx, IH by exact Hl. reflexivity.
Qed.

(** The run of [loadFiltersFromBackend], up to the call of its callback.
    All requests are made first, one for every entry whose filter the
    cache holds; then the callback is called once: with [true] and the
    loaded ids when every download succeeds, with [false] and nothing at
    the first failure.  What follows a failure ([post]) is the handling of
    the answers still to come. *)
Lemma loadFiltersFromBackend_run (filterMetadataList : list Filter) (w : World) :
  exists w1,
    emits w w1
      (List.map (fun id => RequestRules id true)
         (omap (requested_id w) filterMetadataList)) /\
    if forallb (download_succeeds E w) filterMetadataList then
      exists ids,
        ids ≡ₚ List.map filterId filterMetadataList /\
        forall callback,
          loadFiltersFromBackend E filterMetadataList callback w =
          callback true (Some ids) w1
    else
      exists post : M unit,
        (forall callback,
           loadFiltersFromBackend E filterMetadataList callback w =
           bind (callback false None) (fun _ => post) w1) /\
        (forall w2, exists w3, post w2 = Ok tt w3 /\ emits w2 w3 []).
Proof.
  destruct (startDownloads_run filterMetadataList w)
    as (started & thrown & ws & Hstart & Hem & _ & Hth & Hrel).
  pose proof (request_of_ids w filterMetadataList started Hrel) as Hreq.
  assert (Hobs : List.map (fun r => RequestRules (filterId (fst r)) true) started =
                 List.map (fun id => RequestRules id true)
                   (omap (requested_id w) filterMetadataList)).
  { rewrite <- Hreq, List.map_map. reflexivity. }
  rewrite Hobs in Hem. clear Hobs Hreq.
  set (arrivals :=
         by_answer_time (fun r => rulesAnswerTime E (filterId (fst r))) started).
  assert (Hperm : arrivals ≡ₚ started) by apply merge_sort_Permutation.
  assert (Hunfold : forall cb,
            loadFiltersFromBackend E filterMetadataList cb w =
            bind (if thrown then cb false None else ret tt)
              (fun _ => settleDownloads E arrivals [] thrown cb) ws).
  { intros cb. unfold loadFiltersFromBackend. unfold bind at 1.
    rewrite Hstart. reflexivity. }
  destruct (forallb (present w) filterMetadataList) eqn:Hpres; cbn in Hth; subst thrown.
  - (* every promise has made its request *)
    rewrite (filter_all _ _ Hpres) in Hrel.
    destruct (request_of_outcome w started filterMetadataList Hrel) as [Hout Hids].
    rewrite <- Hout, <- (forallb_Permutation _ _ _ Hperm).
    destruct (forallb (answer_ok E) arrivals) eqn:Hok.
    + destruct (settleDownloads_all_ok arrivals [] ws Hok) as (w1 & Hem1 & Hrun).
      exists w1. split; [exact (emits_quiet_r _ _ _ _ Hem Hem1)|].
      exists (List.map (fun r => filterId (snd r)) arrivals). split.
      * rewrite <- Hids. apply Permutation_map, Hperm.
      * intros cb. rewrite Hunfold. cbn. apply Hrun.
    + destruct (settleDownloads_some_fail arrivals [] ws Hok)
        as (w1 & post & Hem1 & Hrun & Hpost).
      exists w1. split; [exact (emits_quiet_r _ _ _ _ Hem Hem1)|].
      exists post. split; [|exact Hpost].
      intros cb. rewrite Hunfold. cbn. apply Hrun.
  - (* the executor of some promise has thrown *)
    destruct (forallb (download_succeeds E w) filterMetadataList) eqn:Hsucc.
    { apply download_succeeds_present in Hsucc. congruence. }
    exists ws. split; [exact Hem|].
    exists (settleDownloads E arrivals [] true (fun _ _ => ret tt)). split.
    + intros cb. rewrite Hunfold. unfold bind.
      destruct (cb false None ws) as [[] w2|e w2]; [|reflexivity].
      destruct (settleDownloads_settled arrivals [] w2) as (w3 & Hs & _).
      rewrite !Hs. reflexivity.
    + intros w2. destruct (settleDownloads_settled arrivals [] w2) as (w3 & Hs & Hem3).
      exists w3. split; [apply Hs|exact Hem3].
Qed.

Lemma filter_request_watch (ev : list Effect) :
  List.filter is_request (List.filter watch ev) = List.filter is_request ev.
Proof.
  induction ev as [|e ev IH]; cbn; [reflexivity|].
  destruct e as [k p| | | |]; cbn; rewrite ?IH; try reflexivity.
  destruct k; cbn; exact IH.
Qed.

Lemma filter_request_rules (ids : list Z) :
  List.filter is_request (List.map (fun id => RequestRules id true) ids) =
  List.map (fun id => RequestRules id true) ids.
Proof. induction ids as [|id ids IH]; cbn; [|rewrite IH]; reflexivity. Qed.

Lemma length_requested (w : World) (l : list Filter) :
  List.length (omap (requested_id w) l) = List.length (List.filter (present w) l).
Proof.
  induction l as [|m l IH]; cbn; [reflexivity|].
  unfold requested_id at 1, present at 1.
  destruct (cache_getFilter (filterId m) w); cbn; rewrite IH; reflexivity.
Qed.

(** C3. [loadFiltersFromBackend] is all or nothing.  It requests the rules
    of every metadata entry, one request per entry whose filter the cache
    holds, all of them before the callback is called.  When every download
    succeeds the callback is called once, last, with [true] and the ids of
    the entries (in the order of the answers); when some download fails it
    is called once with [false] and no list of ids, whatever was loaded,
    and what runs after it does not depend on it. *)
Theorem loadFiltersFromBackend_all_or_nothing (filterMetadataList : list Filter)
    (w : World) :
  exists w1 new,
    trace w1 = trace w ++ new /\
    List.filter is_request new =
      List.map (fun id => RequestRules id true)
        (omap (requested_id w) filterMetadataList) /\
    List.length (List.filter is_request new) =
      List.length (List.filter (present w) filterMetadataList) /\
    if forallb (download_succeeds E w) filterMetadataList then
      exists ids,
        ids ≡ₚ List.map filterId filterMetadataList /\
        forall callback,
          loadFiltersFromBackend E filterMetadataList callback w =
          callback true (Some ids) w1
    else
      exists post : M unit,
        forall callback,
          loadFiltersFromBackend E filterMetadataList callback w =
          bind (callback false None) (fun _ => post) w1.
Proof.
  destruct (loadFiltersFromBackend_run filterMetadataList w)
    as (w1 & [_ (new & Htrace & Hobs)] & Hcall).
  assert (Hreq : List.filter is_request new =
                 List.map (fun id => RequestRules id true)
                   (omap (requested_id w) filterMetadataList)).
  { rewrite <- filter_request_watch, Hobs. apply filter_request_rules. }
  exists w1, new. split; [exact Htrace|]. split; [exact Hreq|]. split.
  - rewrite Hreq, length_map. apply length_requested.
  - destruct (forallb (download_succeeds E w) filterMetadataList).
    + exact Hcall.
    + destruct Hcall as (post & Hpost & _). exists post. exact Hpost.
Qed.

End Downloads.

(** ** Updates of custom filters *)

Section CustomUpdates.

Import FiltersUpdate.

Variable E : Env.

Lemma filter_Permutation_list {A} (p : A -> bool) (l l' : list A) :
  l ≡ₚ l' -> List.filter p l ≡ₚ List.filter p l'.
Proof.
  induction 1 as [|x l l' _ IH|x y l|l l' l'' _ IH1 _ IH2]; cbn.
  - reflexivity.
  - destruct (p x); [constructor|]; exact IH.
  - destruct (p x), (p y); try reflexivity. constructor.
  - etransitivity; eassumption.
Qed.

Lemma with_trace_emit2 (a b : Effect) (ev : list Effect) (w : World) :
  with_trace (trace (emit b (emit a w)) ++ ev) (emit b (emit a w)) =
  with_trace (trace w ++ a :: b :: ev) w.
Proof. destruct w. unfold emit, with_trace. cbn. rewrite <- !app_assoc. reflexivity. Qed.

Lemma startCustomUpdates_run (customFilterIds : list Z) (w : World) :
  startCustomUpdates customFilterIds w =
  Ok (List.map (fun id => cache_getFilter id w) customFilterIds)
     (with_trace (trace w ++ flat_map (custom_update_started w) customFilterIds) w).
Proof.
  revert w. induction customFilterIds as [|id rest IH]; intros w.
  - cbn. rewrite app_nil_r, with_trace_id. reflexivity.
  - cbn [startCustomUpdates]. unfold_monad. rewrite IH.
    rewrite with_trace_emit2. reflexivity.
Qed.

Lemma settleCustomUpdates_filter (arrivals filters : list (option Filter)) :
  settleCustomUpdates E arrivals filters =
  filters ++ List.filter (custom_update_ok E) arrivals.
Proof.
  revert filters. induction arrivals as [|f rest IH]; intros filters; cbn.
  - rewrite app_nil_r. reflexivity.
  - rewrite IH. unfold custom_update_ok at 2.
    destruct (truthy_num (customAnswer E f)); [|reflexivity].
    rewrite <- app_assoc. reflexivity.
Qed.

(** The run of [updateCustomFilters], up to the call of its callback. *)
Lemma updateCustomFilters_run (customFilterIds : list Z)
    (w : World) :
  exists w1 filters,
    (forall callback,
       updateCustomFilters E customFilterIds callback w = callback filters w1) /\
    filters ≡ₚ
      List.filter (custom_update_ok E)
        (List.map (fun id => cache_getFilter id w) customFilterIds) /\
    trace w1 = trace w ++ flat_map (custom_update_started w) customFilterIds /\
    List.filter (is_notify FILTER_ADD_REMOVE) (trace w1) =
      List.filter (is_notify FILTER_ADD_REMOVE) (trace w) ++
      List.map (fun id => Notify FILTER_ADD_REMOVE (PFilter (cache_getFilter id w)))
        customFilterIds /\
    cacheFilters w1 = cacheFilters w /\
    emits w w1
      (List.map (fun id => RequestCustomUpdate (cache_getFilter id w))
         customFilterIds).
Proof.
  set (dfds := List.map (fun id => cache_getFilter id w) customFilterIds).
  exists (with_trace (trace w ++ flat_map (custom_update_started w) customFilterIds) w),
    (List.filter (custom_update_ok E) (by_answer_time (customAnswerTime E) dfds)).
  split; [|split; [|split; [|split; [|split]]]].
  - intros cb. unfold updateCustomFilters.
    destruct customFilterIds as [|id rest].
    + cbn. rewrite app_nil_r, with_trace_id. reflexivity.
    + replace (Z.of_nat (List.length (id :: rest)) =? 0) with false
        by reflexivity.
      unfold bind. rewrite startCustomUpdates_run.
      rewrite settleCustomUpdates_filter. reflexivity.
  - apply filter_Permutation_list, merge_sort_Permutation.
  - reflexivity.
  - cbn [trace with_trace]. rewrite List.filter_app. f_equal.
    clear. induction customFilterIds as [|id rest IH]; cbn; [reflexivity|].
    rewrite IH. reflexivity.
  - reflexivity.
  - split; [reflexivity|]. eexists. split; [reflexivity|].
    clear. induction customFilterIds as [|id rest IH]; cbn; [reflexivity|].
    rewrite IH. reflexivity.
Qed.

(** C4. [updateCustomFilters] tries every custom filter on its own.  For
    every list of ids and whatever the outcomes, the update of each filter
    is requested and a [FILTER_ADD_REMOVE] event is emitted for it, in the
    order of the ids; then the callback is called, once and last, with the
    filters whose update succeeded (in the order of the answers) and
    without the others. *)
Theorem updateCustomFilters_isolates_failures (customFilterIds : list Z)
    (w : World) :
  exists w1 filters,
    (forall callback,
       updateCustomFilters E customFilterIds callback w = callback filters w1) /\
    filters ≡ₚ
      List.filter (custom_update_ok E)
        (List.map (fun id => cache_getFilter id w) customFilterIds) /\
    trace w1 = trace w ++ flat_map (custom_update_started w) customFilterIds /\
    List.filter (is_notify FILTER_ADD_REMOVE) (trace w1) =
      List.filter (is_notify FILTER_ADD_REMOVE) (trace w) ++
      List.map (fun id => Notify FILTER_ADD_REMOVE (PFilter (cache_getFilter id w)))
        customFilterIds /\
    cacheFilters w1 = cacheFilters w.
Proof.
  destruct (updateCustomFilters_run customFilterIds w)
    as (w1 & filters & Hcall & Hperm & Htrace & Hevents & Hcache & _).
  exists w1, filters. auto.
Qed.

End CustomUpdates.

(** ** The update check *)

Section UpdateCheck.

Import FiltersUpdate.

Variable E : Env.

Lemma metadataToUpdate_In (l : list Filter) (w : World) (m : Filter) :
  In m (metadataToUpdate E l w) ->
  exists json filter,
    In json l /\ m = createSubscriptionFilterFromJSON E json /\
    cache_getFilter (filterId m) w = Some filter /\
    truthy_str (version m) = true /\
    isGreaterVersion E (version m) (version filter) = true.
Proof.
  induction l as [|json l IH]; cbn; [tauto|].
  destruct (cache_getFilter (filterId (createSubscriptionFilterFromJSON E json)) w)
    as [filter|] eqn:Hf.
  - destruct (truthy_str (version (createSubscriptionFilterFromJSON E json))) eqn:Hv;
      cbn [andb].
    + destruct (isGreaterVersion E (version (createSubscriptionFilterFromJSON E json))
                  (version filter)) eqn:Hg.
      * intros [<-|Hin].
        -- exists json, filter. auto.
        -- destruct (IH Hin) as (j & f & Hj & H). exists j, f. auto.
      * intros Hin. destruct (IH Hin) as (j & f & Hj & H). exists j, f. auto.
    + intros Hin. destruct (IH Hin) as (j & f & Hj & H). exists j, f. auto.
  - intros Hin. destruct (IH Hin) as (j & f & Hj & H). exists j, f. auto.
Qed.

Lemma metadataToUpdate_present (l : list Filter) (w : World) :
  forallb (present w) (metadataToUpdate E l w) = true.
Proof.
  apply forallb_forall. intros m Hm.
  destruct (metadataToUpdate_In _ _ _ Hm) as (_ & f & _ & _ & Hf & _).
  unfold present. rewrite Hf. reflexivity.
Qed.

Lemma metadataToUpdate_cache (l : list Filter) (w1 w2 : World) :
  cacheFilters w1 = cacheFilters w2 ->
  metadataToUpdate E l w1 = metadataToUpdate E l w2.
Proof.
  intros H. induction l as [|json l IH]; cbn; [reflexivity|].
  unfold cache_getFilter. rewrite H, IH. reflexivity.
Qed.

Lemma requested_id_cache (w1 w2 : World) (m : Filter) :
  cacheFilters w1 = cacheFilters w2 -> requested_id w1 m = requested_id w2 m.
Proof. intros H. unfold requested_id, cache_getFilter. rewrite H. reflexivity. Qed.

Lemma download_succeeds_cache (w1 w2 : World) (m : Filter) :
  cacheFilters w1 = cacheFilters w2 ->
  download_succeeds E w1 m = download_succeeds E w2 m.
Proof. intros H. unfold download_succeeds, cache_getFilter. rewrite H. reflexivity. Qed.

Lemma omap_pointwise {A B} (f g : A -> option B) (l : list A) :
  (forall x, f x = g x) -> omap f l = omap g l.
Proof.
  intros H. induction l as [|x l IH]; cbn; [reflexivity|].
  rewrite H, IH. reflexivity.
Qed.

Lemma In_omap {A B} (f : A -> option B) (l : list A) (y : B) :
  In y (omap f l) -> exists x, In x l /\ f x = Some y.
Proof.
  induction l as [|x l IH]; cbn; [tauto|].
  destruct (f x) as [b|] eqn:Hx; cbn.
  - intros [<-|Hin]; [eauto|]. destruct (IH Hin) as (x' & Hx' & Hy). eauto.
  - intros Hin. destruct (IH Hin) as (x' & Hx' & Hy). eauto.
Qed.

Lemma emits_popup (p : Popup) (w : World) : emits w (emit (popup p) w) [popup p].
Proof. exact (emits_emit (popup p) w). Qed.

(** The part of the check that follows the metadata: the downloads of the
    built-in batch, then the custom updates, then the notification. *)
Lemma downloads_then_notify (force : option bool) (currentDate : Z)
    (customIds : list Z) (l : list Filter) (w : World) :
  exists w' reqs p,
    loadFiltersFromBackend E l
      (fun success filterIds =>
         if success then
           match filterIds with
           | None => throw TypeError
           | Some filterIds =>
               let* filters := gets (loadedFiltersOf filterIds) in
               updateCustomFilters E customIds (fun customFilters =>
                 notifyListeners UPDATE_FILTERS_SHOW_POPUP
                   (PPopup (mkPopup true
                      (Some (List.map Some filters ++ customFilters))
                      force currentDate)))
           end
         else
           notifyListeners UPDATE_FILTERS_SHOW_POPUP
             (PPopup (mkPopup false None force currentDate))) w
    = Ok tt w' /\
    emits w w'
      (List.map (fun id => RequestRules id true) (omap (requested_id w) l)
       ++ reqs ++ [popup p]) /\
    forallb is_request reqs = true /\
    (forall id fr, ~ In (RequestRules id fr) reqs) /\
    if forallb (download_succeeds E w) l
    then exists updated, p = mkPopup true (Some updated) force currentDate
    else p = mkPopup false None force currentDate.
Proof.
  destruct (loadFiltersFromBackend_run E l w) as (w1 & Hem & Hcall).
  destruct (forallb (download_succeeds E w) l).
  - destruct Hcall as (ids & _ & Hrun). rewrite Hrun. cbn beta iota.
    unfold bind at 1, gets at 1.
    destruct (updateCustomFilters_run E customIds w1)
      as (w2 & filters & Hcb & _ & _ & _ & _ & Hem2).
    rewrite Hcb.
    eexists _, _, _. split; [reflexivity|].
    split; [|split; [|split]].
    + eapply emits_trans; [exact Hem|]. eapply emits_trans; [exact Hem2|].
      apply emits_popup.
    + clear. induction customIds; cbn; auto.
    + intros id fr. clear. induction customIds as [|c cs IH]; cbn; [tauto|].
      intros [H|H]; [discriminate|exact (IH H)].
    + eexists. reflexivity.
  - destruct Hcall as (post & Hrun & Hpost). rewrite Hrun.
    unfold bind, notifyListeners, modify.
    destruct (Hpost (emit (popup (mkPopup false None force currentDate)) w1))
      as (w3 & Hp & Hem3).
    unfold popup in Hp. rewrite Hp.
    exists w3, [], (mkPopup false None force currentDate).
    split; [reflexivity|]. split; [|split; [|split]]; auto.
    eapply emits_trans; [exact Hem|]. cbn [app].
    eapply emits_quiet_r; [apply emits_popup|exact Hem3].
Qed.

Lemma filter_popup_watch (ev : list Effect) :
  List.filter (is_notify UPDATE_FILTERS_SHOW_POPUP) (List.filter watch ev) =
  List.filter (is_notify UPDATE_FILTERS_SHOW_POPUP) ev.
Proof.
  induction ev as [|e ev IH]; cbn; [reflexivity|].
  destruct e as [k q| | | |]; cbn; rewrite ?IH; try reflexivity.
  destruct k; cbn; rewrite ?IH; reflexivity.
Qed.

Lemma filter_popup_requests (reqs : list Effect) :
  forallb is_request reqs = true ->
  List.filter (is_notify UPDATE_FILTERS_SHOW_POPUP) reqs = [].
Proof.
  induction reqs as [|e reqs IH]; cbn; [reflexivity|].
  intros H. apply andb_true_iff in H. destruct H as [He Hr].
  destruct e; try discriminate; cbn; exact (IH Hr).
Qed.

(** The effects of a run, put together: the write to the storage, the
    requests made up to the world [w0], and what is observed from [w0]
    on. *)
Lemma check_assemble (w w0 w' : World) (before pre reqs : list Effect) (p : Popup) :
  trace w0 =
    trace w ++ StorageSetItem FILTERS_UPDATE_LAST_CHECK_KEY (clock w) :: before ->
  List.filter watch before = pre ->
  forallb is_request pre = true ->
  storage w0 = <[FILTERS_UPDATE_LAST_CHECK_KEY := clock w]> (storage w) ->
  emits w0 w' (reqs ++ [popup p]) ->
  forallb is_request reqs = true ->
  exists rest,
    trace w' =
      trace w ++ StorageSetItem FILTERS_UPDATE_LAST_CHECK_KEY (clock w) :: rest /\
    getFiltersUpdateLastCheck w' = Some (clock w) /\
    List.filter watch rest = (pre ++ reqs) ++ [popup p] /\
    forallb is_request (pre ++ reqs) = true /\
    List.filter (is_notify UPDATE_FILTERS_SHOW_POPUP) rest = [popup p].
Proof.
  intros Ht0 Hpre Hpr Hs0 [Hs (ev & Ht & Hobs)] Hr.
  assert (Hw : List.filter watch (before ++ ev) = (pre ++ reqs) ++ [popup p]).
  { rewrite List.filter_app, Hpre, Hobs, app_assoc. reflexivity. }
  assert (Hall : forallb is_request (pre ++ reqs) = true).
  { rewrite forallb_app, Hpr, Hr. reflexivity. }
  exists (before ++ ev). split; [|split; [|split; [|split]]].
  - rewrite Ht, Ht0, <- app_assoc. reflexivity.
  - unfold getFiltersUpdateLastCheck. rewrite Hs, Hs0. apply lookup_insert_eq.
  - exact Hw.
  - exact Hall.
  - rewrite <- filter_popup_watch, Hw, List.filter_app.
    rewrite (filter_popup_requests _ Hall). reflexivity.
Qed.

(** One run of [checkAntiBannerFiltersUpdate]: what it emits, what it
    reports, and the metadata entry behind every request for rules. *)
Lemma checkAntiBannerFiltersUpdate_run_once (force : option bool)
    (filters : option (list Filter)) (w : World) :
  exists w' rest reqs p,
    checkAntiBannerFiltersUpdate E force filters w = Ok tt w' /\
    trace w' =
      trace w ++ StorageSetItem FILTERS_UPDATE_LAST_CHECK_KEY (clock w) :: rest /\
    getFiltersUpdateLastCheck w' = Some (clock w) /\
    List.filter watch rest = reqs ++ [popup p] /\
    forallb is_request reqs = true /\
    List.filter (is_notify UPDATE_FILTERS_SHOW_POPUP) rest = [popup p] /\
    (if fetch_stage_ok E force filters w
     then exists updated, p = mkPopup true (Some updated) force (clock w)
     else p = mkPopup false None force (clock w)) /\
    (forall id fr, In (RequestRules id fr) reqs ->
       exists l json filter,
         metadataAnswer E (filterIds (selectFilterIdsToUpdate force filters w))
           = Some l /\
         In json l /\
         cache_getFilter (filterId (createSubscriptionFilterFromJSON E json)) w
           = Some filter /\
         filterId filter = id /\
         isGreaterVersion E
           (version (createSubscriptionFilterFromJSON E json)) (version filter)
           = true).
Proof.
  unfold checkAntiBannerFiltersUpdate, fetch_stage_ok.
  unfold bind at 1, gets at 1. unfold bind at 1, setFiltersUpdateLastCheck, modify.
  unfold bind at 1, gets at 1.
  set (w0 := emit (StorageSetItem FILTERS_UPDATE_LAST_CHECK_KEY (clock w))
               (with_storage
                  (<[FILTERS_UPDATE_LAST_CHECK_KEY := clock w]> (storage w)) w)).
  change (selectFilterIdsToUpdate force filters w0)
    with (selectFilterIdsToUpdate force filters w).
  set (sel := selectFilterIdsToUpdate force filters w).
  assert (Ht0 : trace w0 =
            trace w ++ StorageSetItem FILTERS_UPDATE_LAST_CHECK_KEY (clock w) :: [])
    by reflexivity.
  assert (Hs0 : storage w0 =
            <[FILTERS_UPDATE_LAST_CHECK_KEY := clock w]> (storage w))
    by reflexivity.
  destruct (Z.of_nat (List.length (filterIds sel))
            + Z.of_nat (List.length (customFilterIds sel)) =? 0) eqn:Htotal.
  - (* nothing is due *)
    destruct (check_assemble w w0 (emit (popup (mkPopup true (Some []) force (clock w))) w0)
                [] [] [] (mkPopup true (Some []) force (clock w)) Ht0 eq_refl eq_refl Hs0
                (emits_popup _ w0) eq_refl)
      as (rest & H1 & H2 & H3 & H4 & H5).
    exists (emit (popup (mkPopup true (Some []) force (clock w))) w0), rest, [],
      (mkPopup true (Some []) force (clock w)).
    split; [reflexivity|]. repeat (split; [assumption|]).
    split; [eexists; reflexivity|]. intros id fr [].
  - unfold loadFiltersMetadataFromBackend, fetched_metadata.
    destruct (Z.of_nat (List.length (filterIds sel)) =? 0) eqn:Hids.
    + (* only custom filters are due: no metadata is requested *)
      unfold bind at 1, gets at 1.
      destruct (downloads_then_notify force (clock w) (customFilterIds sel)
                  (metadataToUpdate E [] w0) w0)
        as (w' & reqs & p & Hrun & Hem & Hreqs & Hnorules & Hp).
      cbn [metadataToUpdate] in *. cbn [omap list_omap List.map app forallb] in *.
      destruct (check_assemble w w0 w' [] [] reqs p Ht0 eq_refl eq_refl Hs0 Hem Hreqs)
        as (rest & H1 & H2 & H3 & H4 & H5).
      exists w', rest, reqs, p. split; [exact Hrun|].
      split; [exact H1|]. split; [exact H2|]. split; [exact H3|].
      split; [exact H4|]. split; [exact H5|]. split; [exact Hp|].
      intros id fr Hin. destruct (Hnorules id fr Hin).
    + unfold bind at 1, modify at 1.
      set (w1 := emit (RequestMetadata (filterIds sel)) w0).
      assert (Ht1 : trace w1 =
                trace w ++ StorageSetItem FILTERS_UPDATE_LAST_CHECK_KEY (clock w)
                  :: [RequestMetadata (filterIds sel)]).
      { unfold w1. cbn. rewrite <- app_assoc. reflexivity. }
      assert (Hs1 : storage w1 =
                <[FILTERS_UPDATE_LAST_CHECK_KEY := clock w]> (storage w))
        by reflexivity.
      destruct (metadataAnswer E (filterIds sel)) as [l|] eqn:Hmeta.
      * (* the metadata is fetched *)
        unfold bind at 1, gets at 1.
        destruct (downloads_then_notify force (clock w) (customFilterIds sel)
                    (metadataToUpdate E l w1) w1)
          as (w' & reqs & p & Hrun & Hem & Hreqs & Hnorules & Hp).
        assert (Hcache : cacheFilters w1 = cacheFilters w) by reflexivity.
        rewrite (metadataToUpdate_cache l w1 w Hcache) in Hem, Hp.
        rewrite (omap_pointwise _ (requested_id w)) in Hem
          by (intros x; apply requested_id_cache, Hcache).
        rewrite (forallb_pointwise _ (download_succeeds E w)) in Hp
          by (intros x; apply download_succeeds_cache, Hcache).
        set (rules := List.map (fun id => RequestRules id true)
                        (omap (requested_id w) (metadataToUpdate E l w))) in *.
        rewrite app_assoc in Hem.
        assert (Hrules : forallb is_request (rules ++ reqs) = true).
        { rewrite forallb_app, Hreqs, andb_true_r. unfold rules. clear.
          induction (omap (requested_id w) (metadataToUpdate E l w)); cbn; auto. }
        destruct (check_assemble w w1 w' _ _ (rules ++ reqs) p Ht1 eq_refl eq_refl
                    Hs1 Hem Hrules) as (rest & H1 & H2 & H3 & H4 & H5).
        exists w', rest, ([RequestMetadata (filterIds sel)] ++ rules ++ reqs), p.
        split; [exact Hrun|]. split; [exact H1|]. split; [exact H2|]. split; [exact H3|].
      split; [exact H4|]. split; [exact H5|]. split; [exact Hp|].
        intros id fr [Hin|Hin]; [discriminate|].
        cbn [app] in Hin. apply in_app_or in Hin. destruct Hin as [Hin|Hin'].
        2: { destruct (Hnorules id fr Hin'). }
        unfold rules in Hin. apply in_map_iff in Hin.
        destruct Hin as (id' & Heq & Hin). injection Heq as -> _.
        apply In_omap in Hin. destruct Hin as (m & Hm & Hreq).
        destruct (metadataToUpdate_In _ _ _ Hm) as (json & filter & Hj & -> & Hf & _ & Hg).
        exists l, json, filter. repeat split; auto.
        unfold requested_id in Hreq. rewrite Hf in Hreq. cbn in Hreq. congruence.
      * (* the metadata cannot be fetched *)
        destruct (check_assemble w w1
                    (emit (popup (mkPopup false None force (clock w))) w1)
                    _ _ [] (mkPopup false None force (clock w)) Ht1 eq_refl eq_refl
                    Hs1 (emits_popup _ w1) eq_refl)
          as (rest & H1 & H2 & H3 & H4 & H5).
        exists (emit (popup (mkPopup false None force (clock w))) w1), rest,
          [RequestMetadata (filterIds sel)], (mkPopup false None force (clock w)).
        split; [reflexivity|]. rewrite app_nil_r in H3, H4.
        split; [exact H1|]. split; [exact H2|]. split; [exact H3|].
      split; [exact H4|]. split; [exact H5|]. split; [reflexivity|].
        intros id fr [Hin|[]]. discriminate.
Qed.

(** C2. One run of [checkAntiBannerFiltersUpdate], for every flag, every
    optional list of filters, every state and every behaviour of the
    network.  The call returns.  Its first effect is the write of the
    current time under the last-check key of the storage, so that every
    request to the network comes after it, and the storage holds this time
    at the end.  Of the effects that follow, the observed ones are requests
    and then one [UPDATE_FILTERS_SHOW_POPUP] notification, the only one of
    the run.  When the metadata cannot be fetched or a download of the
    built-in batch fails, the notification carries [success: false], the
    flag and the time of the check, and no list of updated filters;
    otherwise it carries [success: true] and a list.  The rules of a filter
    are requested only when the fetched metadata has an entry for a filter
    of the cache whose version is greater than the version the cache has;
    and when the cache is keyed by id and the metadata client answers with
    records of the ids it was asked for, such a filter is one of the
    filters that the check has selected. *)
Theorem checkAntiBannerFiltersUpdate_reports_once (force : option bool)
    (filters : option (list Filter)) (w : World) :
  exists w' rest reqs p,
    checkAntiBannerFiltersUpdate E force filters w = Ok tt w' /\
    trace w' =
      trace w ++ StorageSetItem FILTERS_UPDATE_LAST_CHECK_KEY (clock w) :: rest /\
    getFiltersUpdateLastCheck w' = Some (clock w) /\
    List.filter watch rest = reqs ++ [popup p] /\
    forallb is_request reqs = true /\
    List.filter (is_notify UPDATE_FILTERS_SHOW_POPUP) rest = [popup p] /\
    (if fetch_stage_ok E force filters w
     then exists updated, p = mkPopup true (Some updated) force (clock w)
     else p = mkPopup false None force (clock w)) /\
    (forall id fr, In (RequestRules id fr) reqs ->
       (exists l json filter,
          metadataAnswer E (filterIds (selectFilterIdsToUpdate force filters w))
            = Some l /\
          In json l /\
          cache_getFilter (filterId (createSubscriptionFilterFromJSON E json)) w
            = Some filter /\
          filterId filter = id /\
          isGreaterVersion E
            (version (createSubscriptionFilterFromJSON E json)) (version filter)
            = true) /\
       (keyed w -> answers_for_asked E ->
        In id (filterIds (selectFilterIdsToUpdate force filters w)))).
Proof.
  destruct (checkAntiBannerFiltersUpdate_run_once force filters w)
    as (w' & rest & reqs & p & Hrun & Htrace & Hstored & Hwatch & Hreqs & Hpopup
        & Hp & Hrules).
  exists w', rest, reqs, p.
  split; [exact Hrun|]. split; [exact Htrace|]. split; [exact Hstored|].
  split; [exact Hwatch|]. split; [exact Hreqs|]. split; [exact Hpopup|].
  split; [exact Hp|].
  intros id fr Hin.
  destruct (Hrules id fr Hin) as (l & json & filter & Hl & Hjson & Hf & Hid & Hgt).
  split; [exists l, json, filter; auto|].
  intros Hkeyed Hasked.
  rewrite <- Hid, (Hkeyed _ _ Hf).
  exact (Hasked _ l json Hl Hjson).
Qed.

End UpdateCheck.

(** ** Installing and enabling a batch of filters *)

Section AddAndEnable.

Import FiltersManager.

Variable E : Env.

(** What a step of the batch leaves of the rest of the world: the filters
    under other ids, the groups up to their flags, and no enable event
    other than its own. *)
Lemma loadFilterRules_run (filter : Filter) (forceRemote : bool) (w : World) :
  cache_getFilter (filterId filter) w = Some filter ->
  exists w1 f1 ev,
    (forall callback : bool -> M unit,
       FiltersUpdate.loadFilterRules E filter forceRemote callback w =
       callback (match rulesAnswer E (filterId filter) forceRemote with
                 | Some _ => true
                 | None => false
                 end) w1) /\
    cache_getFilter (filterId filter) w1 = Some f1 /\
    filterId f1 = filterId filter /\
    groupId f1 = groupId filter /\
    enabled f1 = enabled filter /\
    installed f1 = installed filter /\
    (forall k, k <> filterId filter -> cache_getFilter k w1 = cache_getFilter k w) /\
    cacheGroups w1 = cacheGroups w /\
    trace w1 = trace w ++ ev /\
    omap enabled_id ev = [] /\
    forallb (about (filterId filter)) ev = true.
Proof.
  intros Hf. unfold cache_getFilter in Hf.
  unfold FiltersUpdate.loadFilterRules, FiltersUpdate.loadFilterRules_request,
    FiltersUpdate.loadFilterRules_answer, FiltersUpdate.successCallback,
    FiltersUpdate.errorCallback.
  unfold_monad. unfold cache_getFilter. rewrite Hf.
  destruct (rulesAnswer E (filterId filter) forceRemote) as [rules|]; cbn;
    rewrite !lookup_alter_eq, Hf; cbn;
    (eexists _, _, _; split; [intros cb; reflexivity|]; cbn;
     rewrite !lookup_alter_eq, Hf; cbn;
     split; [reflexivity|]; split; [reflexivity|]; split; [reflexivity|];
     split; [reflexivity|]; split; [reflexivity|];
     split; [intros k Hk; rewrite !lookup_alter_ne by congruence; reflexivity|];
     split; [reflexivity|];
     split; [rewrite <- !app_assoc; reflexivity|];
     split; [reflexivity|]; cbn; rewrite !Z.eqb_refl; reflexivity).
Qed.

Lemma getFilterById_present (id : Z) (filter : Filter) (w : World) :
  cache_getFilter id w = Some filter -> getFilterById id w = Ok filter w.
Proof. intros H. unfold getFilterById. unfold_monad. rewrite H. reflexivity. Qed.

Lemma getFilterById_absent (id : Z) (w : World) :
  cache_getFilter id w = None -> getFilterById id w = Throw (FilterNotFound id) w.
Proof. intros H. unfold getFilterById. unfold_monad. rewrite H. reflexivity. Qed.

Lemma addAntiBannerFilter_run (id : Z) (filter : Filter) (w : World) :
  keyed w ->
  cache_getFilter id w = Some filter ->
  exists w1 f1 ev,
    (forall callback : bool -> M unit,
       addAntiBannerFilter E id callback w = callback (installs E w id) w1) /\
    cache_getFilter id w1 = Some f1 /\
    filterId f1 = id /\
    groupId f1 = groupId filter /\
    enabled f1 = enabled filter /\
    (if installs E w id then truthy_bool (installed f1) = true
     else installed f1 = installed filter) /\
    (forall k, k <> id -> cache_getFilter k w1 = cache_getFilter k w) /\
    cacheGroups w1 = cacheGroups w /\
    trace w1 = trace w ++ ev /\
    omap enabled_id ev = [] /\
    forallb (about id) ev = true.
Proof.
  intros Hkeyed Hf. pose proof (Hkeyed _ _ Hf) as Hid.
  unfold addAntiBannerFilter, installs. rewrite Hf.
  unfold bind at 1. rewrite (getFilterById_present _ _ _ Hf).
  destruct (truthy_bool (installed filter)) eqn:Hinst; cbn [orb].
  - exists w, filter, []. rewrite app_nil_r. repeat split; auto.
  - destruct (truthy_bool (loaded filter)) eqn:Hload; cbn [orb].
    + unfold_monad. unfold cache_getFilter in *. cbn.
      rewrite lookup_alter_eq, Hf. cbn.
      eexists _, _, _. split; [intros cb; reflexivity|]. cbn.
      rewrite lookup_alter_eq, Hf. cbn.
      split; [reflexivity|]. repeat (split; [first [exact Hid|reflexivity]|]).
      split; [intros k Hk; rewrite lookup_alter_ne by congruence; reflexivity|].
      split; [reflexivity|]. split; [reflexivity|]. split; [reflexivity|].
      cbn. rewrite Hid, Z.eqb_refl. reflexivity.
    + assert (Hf' : cache_getFilter (filterId filter) w = Some filter)
        by (rewrite Hid; exact Hf).
      destruct (loadFilterRules_run filter false w Hf')
        as (w1 & f1 & ev & Hrun & Hf1 & Hid1 & Hg1 & He1 & Hi1 & Hframe
            & Hgroups & Htr & Hev & Hab).
      rewrite Hid in Hf1, Hframe, Hab. unfold cache_getFilter in Hf1.
      destruct (rulesAnswer E (filterId filter) false) as [rules|].
      * eexists _, _, _. split.
        { intros cb. rewrite Hrun. unfold_monad. unfold cache_getFilter. cbn.
          rewrite lookup_alter_eq, Hf1. cbn. reflexivity. }
        unfold cache_getFilter. cbn. rewrite lookup_alter_eq, Hf1. cbn.
        split; [reflexivity|]. split; [cbn; congruence|]. split; [exact Hg1|].
        split; [exact He1|]. split; [reflexivity|].
        split; [intros k Hk; rewrite lookup_alter_ne by congruence;
                apply Hframe, Hk|].
        split; [exact Hgroups|]. split; [|split].
        -- rewrite Htr, <- app_assoc. reflexivity.
        -- rewrite omap_app, Hev. reflexivity.
        -- rewrite forallb_app, Hab. cbn. rewrite Hid1, Hid, Z.eqb_refl. reflexivity.
      * exists w1, f1, ev. split.
        { intros cb. rewrite Hrun. reflexivity. }
        split; [exact Hf1|]. split; [congruence|]. split; [exact Hg1|].
        split; [exact He1|]. split; [exact Hi1|]. auto.
Qed.

Lemma enableGroup_frame (id groupId : Z) (w : World) :
  exists w' ev,
    enableGroup groupId w = Ok tt w' /\
    cacheFilters w' = cacheFilters w /\
    trace w' = trace w ++ ev /\
    omap enabled_id ev = [] /\
    forallb (about id) ev = true.
Proof.
  unfold enableGroup. unfold_monad.
  destruct (cache_getGroup groupId w) as [group|].
  - destruct (truthy_bool (g_enabled group)).
    + exists w, []. rewrite app_nil_r. auto.
    + eexists _, _. split; [reflexivity|]. cbn. auto.
  - exists w, []. rewrite app_nil_r. auto.
Qed.

Lemma enableFilter_run (id : Z) (filter : Filter) (w : World) :
  cache_getFilter id w = Some filter ->
  exists w' ev,
    enableFilter E id w = Ok tt w' /\
    cache_getFilter id w' = Some (set_enabled true filter) /\
    (forall k, k <> id -> cache_getFilter k w' = cache_getFilter k w) /\
    trace w' = trace w ++ ev /\
    omap enabled_id ev = [filterId filter] /\
    forallb (about (filterId filter)) ev = true.
Proof.
  intros Hf. unfold enableFilter. unfold bind at 1, gets at 1. rewrite Hf.
  unfold bind at 1, assign_filter at 1, modify at 1.
  set (w1 := with_cacheFilters (alter (set_enabled true) id (cacheFilters w)) w).
  unfold bind at 1, gets at 1. unfold bind at 1.
  assert (Hg : exists w2 ev,
             (if negb (groupHasEnabledStatus (groupId filter) w1)
              then enableGroup (groupId filter)
              else if (id =? SEARCH_AND_SELF_PROMO_FILTER_ID E)
                      || (groupId filter =? CUSTOM_FILTERS_GROUP_ID E)
                   then enableGroup (groupId filter)
                   else ret tt) w1 = Ok tt w2 /\
             cacheFilters w2 = cacheFilters w1 /\
             trace w2 = trace w1 ++ ev /\ omap enabled_id ev = [] /\
             forallb (about (filterId filter)) ev = true).
  { destruct (negb (groupHasEnabledStatus (groupId filter) w1));
      [apply enableGroup_frame|].
    destruct ((id =? SEARCH_AND_SELF_PROMO_FILTER_ID E)
              || (groupId filter =? CUSTOM_FILTERS_GROUP_ID E));
      [apply enableGroup_frame|].
    exists w1, []. rewrite app_nil_r. auto. }
  destruct Hg as (w2 & ev & Hrun & Hcache & Htr & Hev & Hab). rewrite Hrun.
  unfold notifyListeners, modify.
  eexists _, _. split; [reflexivity|]. unfold cache_getFilter in *. cbn.
  rewrite Hcache. unfold w1. cbn.
  split; [rewrite lookup_alter_eq, Hf; reflexivity|].
  split; [intros k Hk; rewrite lookup_alter_ne by congruence; reflexivity|].
  split; [rewrite Htr, <- app_assoc; reflexivity|].
  split; [rewrite omap_app, Hev; reflexivity|].
  rewrite forallb_app, Hab. cbn. rewrite Z.eqb_refl. reflexivity.
Qed.

Lemma installs_cache (w1 w2 : World) (id : Z) :
  cache_getFilter id w1 = cache_getFilter id w2 ->
  installs E w1 id = installs E w2 id.
Proof. intros H. unfold installs. rewrite H. reflexivity. Qed.

(** One step of [loadNextFilter]: the first id is installed and, when the
    installation has succeeded, enabled; then the function goes on with
    the ids that are left, whatever the outcome. *)
Lemma loadNextFilter_step (id : Z) (rest : list Z) (filter : Filter) (w : World) :
  keyed w ->
  cache_getFilter id w = Some filter ->
  exists w2 f2 ev,
    loadNextFilter E (id :: rest) w = loadNextFilter E rest w2 /\
    cache_getFilter id w2 = Some f2 /\
    filterId f2 = id /\
    enabled f2 = (if installs E w id then Some true else enabled filter) /\
    (if installs E w id then truthy_bool (installed f2) = true
     else installed f2 = installed filter) /\
    (forall k, k <> id -> cache_getFilter k w2 = cache_getFilter k w) /\
    trace w2 = trace w ++ ev /\
    omap enabled_id ev = (if installs E w id then [id] else []) /\
    forallb (about id) ev = true.
Proof.
  intros Hkeyed Hf.
  destruct (addAntiBannerFilter_run id filter w Hkeyed Hf)
    as (w1 & f1 & ev & Hrun & Hf1 & Hid1 & _ & He1 & Hi1 & Hframe & _ & Htr
        & Hev & Hab).
  cbn [loadNextFilter]. rewrite Hrun.
  destruct (installs E w id).
  - destruct (enableFilter_run id f1 w1 Hf1)
      as (w2 & ev2 & Hen & Hf2 & Hframe2 & Htr2 & Hev2 & Hab2).
    unfold bind at 1. rewrite Hen.
    exists w2, (set_enabled true f1), (ev ++ ev2).
    split; [reflexivity|]. split; [exact Hf2|]. split; [exact Hid1|].
    split; [reflexivity|]. split; [exact Hi1|].
    split; [intros k Hk; rewrite (Hframe2 k Hk); apply Hframe, Hk|].
    split; [rewrite Htr2, Htr, <- app_assoc; reflexivity|].
    split; [rewrite omap_app, Hev, Hev2, Hid1; reflexivity|].
    rewrite forallb_app, Hab. rewrite Hid1 in Hab2. exact Hab2.
  - exists w1, f1, ev. split; [reflexivity|]. auto 10.
Qed.

Lemma loadNextFilter_run (l : list Z) :
  List.NoDup l ->
  forall w,
    keyed w ->
    (forall id, In id l -> is_Some (cache_getFilter id w)) ->
    exists w' blocks,
      loadNextFilter E l w = Ok tt w' /\
      keyed w' /\
      (forall k, ~ In k l -> cache_getFilter k w' = cache_getFilter k w) /\
      (forall id, In id l ->
         exists f f',
           cache_getFilter id w = Some f /\ cache_getFilter id w' = Some f' /\
           enabled f' = (if installs E w id then Some true else enabled f) /\
           (if installs E w id then truthy_bool (installed f') = true
            else installed f' = installed f)) /\
      trace w' = trace w ++ List.concat blocks /\
      Forall2 (fun id block => forallb (about id) block = true) l blocks /\
      omap enabled_id (List.concat blocks) = List.filter (installs E w) l.
Proof.
  induction 1 as [|id rest Hnotin Hnodup IH]; intros w Hkeyed Hpres.
  - exists w, []. cbn. rewrite app_nil_r.
    repeat split; auto. intros id [].
  - destruct (Hpres id (or_introl eq_refl)) as [filter Hf].
    destruct (loadNextFilter_step id rest filter w Hkeyed Hf)
      as (w2 & f2 & ev & Hstep & Hf2 & Hid2 & He2 & Hi2 & Hframe & Htr & Hev & Hab).
    assert (Hkeyed2 : keyed w2).
    { intros k f Hk. destruct (Z.eq_dec k id) as [->|Hne].
      - rewrite Hf2 in Hk. congruence.
      - rewrite (Hframe k Hne) in Hk. exact (Hkeyed k f Hk). }
    assert (Hrest : forall x, In x rest -> x <> id)
      by (intros x Hx ->; contradiction).
    assert (Hpres2 : forall x, In x rest -> is_Some (cache_getFilter x w2)).
    { intros x Hx. rewrite (Hframe x (Hrest x Hx)). apply Hpres. right. exact Hx. }
    destruct (IH w2 Hkeyed2 Hpres2)
      as (w' & blocks & Hrun & Hkeyed' & Hframe' & Hall & Htr' & Hblocks & Hev').
    exists w', (ev :: blocks). rewrite Hstep.
    split; [exact Hrun|]. split; [exact Hkeyed'|].
    split; [|split; [|split; [|split]]].
    + intros k Hk. rewrite Hframe' by (intros Hin; apply Hk; right; exact Hin).
      apply Hframe. intros ->. apply Hk. left. reflexivity.
    + intros x [<-|Hx].
      * exists filter, f2. rewrite (Hframe' id Hnotin). auto.
      * destruct (Hall x Hx) as (f & f' & Hfx & Hfx' & Hen & Hin).
        pose proof (Hframe x (Hrest x Hx)) as Hsame.
        rewrite (installs_cache w2 w x Hsame) in Hen, Hin.
        exists f, f'. rewrite <- Hsame. auto.
    + cbn [List.concat]. rewrite Htr', Htr, <- app_assoc. reflexivity.
    + constructor; assumption.
    + cbn [List.concat List.filter]. rewrite omap_app, Hev, Hev'.
      assert (Hfil : List.filter (installs E w2) rest = List.filter (installs E w) rest).
      { apply List.filter_ext_in. intros x Hx.
        apply installs_cache, Hframe, Hrest, Hx. }
      rewrite Hfil. destruct (installs E w id); reflexivity.
Qed.

Lemma known_prefix_cache (l : list Z) (w1 w2 : World) :
  (forall x, In x l -> cache_getFilter x w1 = cache_getFilter x w2) ->
  known_prefix l w1 = known_prefix l w2.
Proof.
  induction l as [|x l IH]; intros H; cbn; [reflexivity|].
  rewrite (H x (or_introl eq_refl)), IH; [reflexivity|].
  intros y Hy. apply H. right. exact Hy.
Qed.

Lemma first_unknown_cache (l : list Z) (w1 w2 : World) :
  (forall x, In x l -> cache_getFilter x w1 = cache_getFilter x w2) ->
  first_unknown l w1 = first_unknown l w2.
Proof.
  induction l as [|x l IH]; intros H; cbn; [reflexivity|].
  rewrite (H x (or_introl eq_refl)), IH; [reflexivity|].
  intros y Hy. apply H. right. exact Hy.
Qed.

(** The ids of a batch are those of its known prefix when the cache holds
    them all; otherwise the first unknown id follows the known prefix. *)
Lemma known_prefix_first_unknown (l : list Z) (w : World) :
  match first_unknown l w with
  | None => known_prefix l w = l
  | Some unknown =>
      cache_getFilter unknown w = None /\
      exists post, l = known_prefix l w ++ unknown :: post
  end.
Proof.
  induction l as [|x l IH]; cbn; [reflexivity|].
  destruct (cache_getFilter x w) eqn:Hx.
  - destruct (first_unknown l w) as [u|].
    + destruct IH as (Hu & post & Hl). split; [exact Hu|].
      exists post. cbn. rewrite <- Hl. reflexivity.
    + rewrite IH. reflexivity.
  - split; [exact Hx|]. exists l. reflexivity.
Qed.

Lemma In_known_prefix (l : list Z) (w : World) (x : Z) :
  In x (known_prefix l w) -> In x l.
Proof.
  induction l as [|a l IH]; cbn; [tauto|].
  destruct (cache_getFilter a w); [|intros []].
  intros [->|H]; [left; reflexivity|right; apply IH, H].
Qed.

(** [loadNextFilter] on any list without repetition: the ids of the known
    prefix are handled one after the other, and the first unknown id, if
    there is one, ends the run with the exception of [getFilterById]. *)
Lemma loadNextFilter_run_any (l : list Z) :
  List.NoDup l ->
  forall w,
    keyed w ->
    exists w' blocks,
      loadNextFilter E l w =
        match first_unknown l w with
        | None => Ok tt w'
        | Some unknown => Throw (FilterNotFound unknown) w'
        end /\
      (forall k, ~ In k (known_prefix l w) ->
         cache_getFilter k w' = cache_getFilter k w) /\
      (forall id, In id (known_prefix l w) ->
         exists f f',
           cache_getFilter id w = Some f /\ cache_getFilter id w' = Some f' /\
           enabled f' = (if installs E w id then Some true else enabled f) /\
           (if installs E w id then truthy_bool (installed f') = true
            else installed f' = installed f)) /\
      trace w' = trace w ++ List.concat blocks /\
      Forall2 (fun id block => forallb (about id) block = true)
        (known_prefix l w) blocks /\
      omap enabled_id (List.concat blocks) =
        List.filter (installs E w) (known_prefix l w).
Proof.
  induction 1 as [|id rest Hnotin Hnodup IH]; intros w Hkeyed.
  - exists w, []. cbn. rewrite app_nil_r.
    repeat split; auto. intros id [].
  - cbn [known_prefix first_unknown].
    destruct (cache_getFilter id w) as [filter|] eqn:Hf.
    + destruct (loadNextFilter_step id rest filter w Hkeyed Hf)
        as (w2 & f2 & ev & Hstep & Hf2 & Hid2 & He2 & Hi2 & Hframe & Htr & Hev & Hab).
      assert (Hkeyed2 : keyed w2).
      { intros k f Hk. destruct (Z.eq_dec k id) as [->|Hne].
        - rewrite Hf2 in Hk. congruence.
        - rewrite (Hframe k Hne) in Hk. exact (Hkeyed k f Hk). }
      assert (Hrest : forall x, In x rest -> x <> id)
        by (intros x Hx ->; contradiction).
      assert (Hsame : forall x, In x rest ->
                cache_getFilter x w2 = cache_getFilter x w)
        by (intros x Hx; apply Hframe, Hrest, Hx).
      destruct (IH w2 Hkeyed2)
        as (w' & blocks & Hrun & Hframe' & Hall & Htr' & Hblocks & Hev').
      rewrite (first_unknown_cache rest w2 w Hsame) in Hrun.
      rewrite (known_prefix_cache rest w2 w Hsame) in Hframe', Hall, Hblocks, Hev'.
      assert (Hnotin' : ~ In id (known_prefix rest w))
        by (intros Hin; apply Hnotin, (In_known_prefix rest w id Hin)).
      exists w', (ev :: blocks). rewrite Hstep.
      split; [exact Hrun|]. split; [|split; [|split; [|split]]].
      * intros k Hk. rewrite Hframe' by (intros Hin; apply Hk; right; exact Hin).
        apply Hframe. intros ->. apply Hk. left. reflexivity.
      * intros x [<-|Hx].
        -- exists filter, f2. rewrite (Hframe' id Hnotin'). auto.
        -- destruct (Hall x Hx) as (f & f' & Hfx & Hfx' & Hen & Hin).
           pose proof (Hsame x (In_known_prefix rest w x Hx)) as Hx2.
           rewrite (installs_cache w2 w x Hx2) in Hen, Hin.
           exists f, f'. rewrite <- Hx2. auto.
      * cbn [List.concat]. rewrite Htr', Htr, <- app_assoc. reflexivity.
      * constructor; assumption.
      * cbn [List.concat List.filter]. rewrite omap_app, Hev, Hev'.
        assert (Hfil : List.filter (installs E w2) (known_prefix rest w) =
                       List.filter (installs E w) (known_prefix rest w)).
        { apply List.filter_ext_in. intros x Hx.
          apply installs_cache, Hsame, (In_known_prefix rest w x Hx). }
        rewrite Hfil. destruct (installs E w id); reflexivity.
    + exists w, []. split.
      * cbn [loadNextFilter]. unfold addAntiBannerFilter. unfold bind at 1.
        rewrite (getFilterById_absent id w Hf). reflexivity.
      * cbn. rewrite app_nil_r. repeat split; auto. intros x [].
Qed.

(** C10. [addAndEnableFilters] on a batch of ids, in a cache keyed by id.
    For [null] and for an empty list it does nothing.  Otherwise the ids
    of the de-duplicated batch are handled one after the other, in the
    order given, up to the first id that the cache does not hold: the
    effects of the run are one block of effects per handled id, each block
    being about its filter only; the filters that get enabled, in this
    order, are exactly the handled ones whose installation succeeds; and
    where the installation of a filter fails the filter is left with the
    [enabled] state it had, while every handled filter after it whose
    installation succeeds is installed and enabled all the same.  When the
    cache holds the filter of every id, every id is handled and the call
    returns.  An id that the cache does not hold ends the batch: the call
    throws the exception of [getFilterById] for it, and the filters of the
    ids after it are as they were. *)
Theorem addAndEnableFilters_continues_after_failure (filterIds : list Z)
    (w : World) :
  keyed w ->
  addAndEnableFilters E None w = Ok tt w /\
  addAndEnableFilters E (Some []) w = Ok tt w /\
  exists w' blocks,
    addAndEnableFilters E (Some filterIds) w =
      match first_unknown (removeDuplicates filterIds) w with
      | None => Ok tt w'
      | Some unknown => Throw (FilterNotFound unknown) w'
      end /\
    match first_unknown (removeDuplicates filterIds) w with
    | None =>
        known_prefix (removeDuplicates filterIds) w = removeDuplicates filterIds
    | Some unknown =>
        cache_getFilter unknown w = None /\
        exists post,
          removeDuplicates filterIds =
          known_prefix (removeDuplicates filterIds) w ++ unknown :: post
    end /\
    trace w' = trace w ++ List.concat blocks /\
    Forall2 (fun id block => forallb (about id) block = true)
      (known_prefix (removeDuplicates filterIds) w) blocks /\
    omap enabled_id (List.concat blocks) =
      List.filter (installs E w) (known_prefix (removeDuplicates filterIds) w) /\
    (forall id, In id (known_prefix (removeDuplicates filterIds) w) ->
       exists f f',
         cache_getFilter id w = Some f /\ cache_getFilter id w' = Some f' /\
         enabled f' = (if installs E w id then Some true else enabled f) /\
         (if installs E w id then truthy_bool (installed f') = true
          else installed f' = installed f)) /\
    (forall id, ~ In id (known_prefix (removeDuplicates filterIds) w) ->
       cache_getFilter id w' = cache_getFilter id w).
Proof.
  intros Hkeyed. split; [reflexivity|]. split; [reflexivity|].
  destruct (loadNextFilter_run_any _ (NoDup_removeDuplicates filterIds) w Hkeyed)
    as (w' & blocks & Hrun & Hframe & Hall & Htr & Hblocks & Hev).
  exists w', blocks. split.
  - unfold addAndEnableFilters. destruct filterIds as [|a l]; [|exact Hrun].
    cbn in Hrun. exact Hrun.
  - split; [apply known_prefix_first_unknown|].
    split; [exact Htr|]. split; [exact Hblocks|]. split; [exact Hev|].
    split; [exact Hall|exact Hframe].
Qed.

End AddAndEnable.

(** ** The properties on the sample installation *)

Section OnSample.

Import Sample.

Lemma keyed_world0 : keyed world0.
Proof.
  intros k f H. unfold cache_getFilter in H.
  apply elem_of_map_to_list, list_elem_of_In in H. vm_compute in H.
  repeat (destruct H as [H|H]; [injection H as <- <-; reflexivity|]).
  destruct H.
Qed.

(** The batch [1; 3; 2]: filter 1 is enabled, filter 3 is not, filter 2 is
    enabled and comes after it. *)
Lemma disableFilters_stops_witness :
  removeDuplicates [1; 3; 2] = [1] ++ 3 :: [2] /\
  FiltersManager.isFilterEnabled 2 world0 = true /\
  exists w',
    FiltersManager.disableFilters [1; 3; 2] world0 = Ok tt w' /\
    trace w' =
      trace world0 ++
      List.map (fun x => Notify FILTER_ENABLE_DISABLE
                  (PFilter (set_enabled false <$> cache_getFilter x world0))) [1] /\
    (forall x, In x [1] ->
       cache_getFilter x w' = set_enabled false <$> cache_getFilter x world0) /\
    (forall x, In x [3; 2] ->
       ~ In x [1] /\ cache_getFilter x w' = cache_getFilter x world0).
Proof.
  split; [reflexivity|]. split; [reflexivity|].
  apply (disableFilters_stops_at_first_not_enabled [1; 3; 2] [1] [2] 3 world0).
  - reflexivity.
  - repeat constructor.
  - reflexivity.
Defined.

(** A filter checked 30 minutes ago, under the period of one hour of
    [world0]. *)
Lemma selectFilterIdsToUpdate_witness :
  FiltersUpdate.filterIds
    (FiltersUpdate.selectFilterIdsToUpdate (Some false) (Some [f_half_hour]) world0)
    = [] /\
  FiltersUpdate.filterIds
    (FiltersUpdate.selectFilterIdsToUpdate (Some true) (Some [f_half_hour]) world0)
    = [6].
Proof.
  apply (proj2 (proj2 (selectFilterIdsToUpdate_spec None None world0))
           f_half_hour (10000000 - 30 * 60 * 1000)).
  - reflexivity.
  - discriminate.
  - reflexivity.
  - reflexivity.
  - reflexivity.
  - reflexivity.
  - reflexivity.
Defined.

(** A filter checked 2 minutes ago. *)
Lemma checkFilterUpdate_witness :
  FiltersUpdate.checkFilterUpdate env_ok f_recent world0 = Ok tt world0.
Proof.
  apply (proj2 (proj2 (checkFilterUpdate_skip_window env_ok f_recent world0))
           (10000000 - 2 * 60 * 1000)).
  - reflexivity.
  - reflexivity.
Defined.

(** The forced check of [world0] requests the rules of filter 2: the
    metadata that was fetched has a greater version for it, and filter 2
    is one of the filters that the check has selected. *)
Lemma checkAntiBannerFiltersUpdate_witness :
  keyed world0 /\
  answers_for_asked env_ok /\
  (exists l json filter,
     metadataAnswer env_ok
       (FiltersUpdate.filterIds
          (FiltersUpdate.selectFilterIdsToUpdate (Some true) None world0)) = Some l /\
     In json l /\
     cache_getFilter (filterId (createSubscriptionFilterFromJSON env_ok json)) world0
       = Some filter /\
     filterId filter = 2 /\
     isGreaterVersion env_ok
       (version (createSubscriptionFilterFromJSON env_ok json)) (version filter)
       = true) /\
  In 2 (FiltersUpdate.filterIds
          (FiltersUpdate.selectFilterIdsToUpdate (Some true) None world0)).
Proof.
  assert (Hasked : answers_for_asked env_ok).
  { intros ids l json Hl Hjson. cbn in Hl. injection Hl as <-.
    apply in_map_iff in Hjson. destruct Hjson as (x & <- & Hx). exact Hx. }
  split; [exact keyed_world0|]. split; [exact Hasked|].
  destruct (checkAntiBannerFiltersUpdate_reports_once env_ok (Some true) None world0)
    as (w' & rest & reqs & p & Hrun & Htr & _ & Hw & _ & _ & _ & Hd).
  assert (Hin : In (RequestRules 2 true) reqs).
  { pose proof (f_equal (fun r => trace (world_of r)) Hrun) as Ht.
    cbn [world_of] in Ht. rewrite Htr in Ht. vm_compute in Ht.
    injection Ht as Hrest. subst rest.
    assert (Hin : In (RequestRules 2 true) (reqs ++ [popup p])).
    { rewrite <- Hw. vm_compute. right. left. reflexivity. }
    apply in_app_or in Hin. destruct Hin as [Hin|[Hin|[]]]; [exact Hin|discriminate]. }
  destruct (Hd 2 true Hin) as [Hentry Hselected].
  split; [exact Hentry|]. exact (Hselected keyed_world0 Hasked).
Defined.

(** The batch [3; 4; 3; 1] when the rules of filter 3 cannot be
    downloaded: the cache holds every filter of the batch, filter 3 stays
    as it was, filters 4 and 1 are enabled. *)
Lemma addAndEnableFilters_witness :
  keyed world0 /\
  installs env_fail3 world0 3 = false /\
  installs env_fail3 world0 4 = true /\
  first_unknown (removeDuplicates [3; 4; 3; 1]) world0 = None /\
  FiltersManager.addAndEnableFilters env_fail3 None world0 = Ok tt world0 /\
  FiltersManager.addAndEnableFilters env_fail3 (Some []) world0 = Ok tt world0 /\
  exists w' blocks,
    FiltersManager.addAndEnableFilters env_fail3 (Some [3; 4; 3; 1]) world0 =
      match first_unknown (removeDuplicates [3; 4; 3; 1]) world0 with
      | None => Ok tt w'
      | Some unknown => Throw (FilterNotFound unknown) w'
      end /\
    match first_unknown (removeDuplicates [3; 4; 3; 1]) world0 with
    | None =>
        known_prefix (removeDuplicates [3; 4; 3; 1]) world0 =
        removeDuplicates [3; 4; 3; 1]
    | Some unknown =>
        cache_getFilter unknown world0 = None /\
        exists post,
          removeDuplicates [3; 4; 3; 1] =
          known_prefix (removeDuplicates [3; 4; 3; 1]) world0 ++ unknown :: post
    end /\
    trace w' = trace world0 ++ List.concat blocks /\
    Forall2 (fun id block => forallb (about id) block = true)
      (known_prefix (removeDuplicates [3; 4; 3; 1]) world0) blocks /\
    omap enabled_id (List.concat blocks) =
      List.filter (installs env_fail3 world0)
        (known_prefix (removeDuplicates [3; 4; 3; 1]) world0) /\
    (forall id, In id (known_prefix (removeDuplicates [3; 4; 3; 1]) world0) ->
       exists f f',
         cache_getFilter id world0 = Some f /\ cache_getFilter id w' = Some f' /\
         enabled f' = (if installs env_fail3 world0 id then Some true else enabled f) /\
         (if installs env_fail3 world0 id then truthy_bool (installed f') = true
          else installed f' = installed f)) /\
    (forall id, ~ In id (known_prefix (removeDuplicates [3; 4; 3; 1]) world0) ->
       cache_getFilter id w' = cache_getFilter id world0).
Proof.
  split; [exact keyed_world0|].
  split; [vm_compute; reflexivity|]. split; [vm_compute; reflexivity|].
  split; [vm_compute; reflexivity|].
  apply (addAndEnableFilters_continues_after_failure env_fail3 [3; 4; 3; 1] world0).
  exact keyed_world0.
Defined.

(** Runs of the model on the sample installation. *)

(** The group 2 has never been enabled: two calls of [enableGroup] leave
    one event in the trace. *)
Example enableGroup_twice :
  exists w1,
    FiltersManager.enableGroup 2 world0 = Ok tt w1 /\
    FiltersManager.enableGroup 2 w1 = Ok tt w1 /\
    trace w1 = [Notify FILTER_GROUP_ENABLE_DISABLE (PGroup (mkGroup 2 (Some true)))].
Proof.
  exists (world_of (FiltersManager.enableGroup 2 world0)).
  split; [|split]; vm_compute; reflexivity.
Qed.

(** The update of the custom filter 1000 succeeds and the update of 1001
    fails: the callback gets filter 1000 only, and both filters have their
    [FILTER_ADD_REMOVE] event. *)
Example custom_batch_one_fails :
  forall callback,
    FiltersUpdate.updateCustomFilters env_fail2 [1000; 1001] callback world0 =
    callback [Some c1000]
      (with_trace
         [RequestCustomUpdate (Some c1000);
          Notify FILTER_ADD_REMOVE (PFilter (Some c1000));
          RequestCustomUpdate (Some c1001);
          Notify FILTER_ADD_REMOVE (PFilter (Some c1001))] world0).
Proof. intros callback. vm_compute. reflexivity. Qed.

(** A forced check in which the rules of filter 2 cannot be downloaded:
    one notification, without list, although filter 1 is updated. *)
Example check_with_failed_download :
  omap (fun e => match e with
                 | Notify UPDATE_FILTERS_SHOW_POPUP (PPopup p) => Some p
                 | _ => None
                 end)
    (trace (world_of (FiltersUpdate.checkAntiBannerFiltersUpdate env_fail2
                        (Some true) None world0)))
  = [mkPopup false None (Some true) 10000000] /\
  version <$> cache_getFilter 1
    (world_of (FiltersUpdate.checkAntiBannerFiltersUpdate env_fail2
                 (Some true) None world0))
  = Some (Some "3.0.0"%string).
Proof. split; vm_compute; reflexivity. Qed.

(** A check in which the metadata cannot be fetched: the time of the check
    is in the storage all the same. *)
Example check_without_metadata :
  List.filter watch
    (trace (world_of (FiltersUpdate.checkAntiBannerFiltersUpdate env_nometa
                        None None world0)))
  = [StorageSetItem FiltersUpdate.FILTERS_UPDATE_LAST_CHECK_KEY 10000000;
     RequestMetadata [2; 1];
     popup (mkPopup false None None 10000000)] /\
  FiltersUpdate.getFiltersUpdateLastCheck
    (world_of (FiltersUpdate.checkAntiBannerFiltersUpdate env_nometa
                 None None world0))
  = Some 10000000.
Proof. split; vm_compute; reflexivity. Qed.

(** An id that the cache does not hold ends the batch.  In [3; 99; 4] the
    cache holds the filters 3 and 4, and the installation of both would
    succeed; the call throws the exception of [getFilterById] for 99 after
    it has enabled filter 3, and filter 4 is neither requested nor enabled:
    the remainder of the batch is not processed. *)
Lemma addAndEnableFilters_unknown_id_aborts :
  removeDuplicates [3; 99; 4] = [3; 99; 4] /\
  is_Some (cache_getFilter 4 world0) /\
  installs env_ok world0 4 = true /\
  exists w',
    FiltersManager.addAndEnableFilters env_ok (Some [3; 99; 4]) world0
      = Throw (FilterNotFound 99) w' /\
    omap enabled_id (trace w') = [3] /\
    List.filter is_request (trace w') = [RequestRules 3 false] /\
    cache_getFilter 4 w' = cache_getFilter 4 world0.
Proof.
  split; [vm_compute; reflexivity|].
  split; [eexists; vm_compute; reflexivity|].
  split; [vm_compute; reflexivity|].
  exists (world_of (FiltersManager.addAndEnableFilters env_ok (Some [3; 99; 4]) world0)).
  split; [|split; [|split]]; vm_compute; reflexivity.
Qed.

End OnSample.

(** * Further properties of the code *)

(** ** disableFilters on any batch *)

Section DisableAny.

Import FiltersManager.

Lemma enabled_prefix_disabled_one (l : list Z) (id : Z) (w : World) :
  enabled_prefix l (disabled_one id w) = enabled_prefix l w.
Proof.
  induction l as [|x l IH]; cbn; [reflexivity|].
  rewrite isFilterEnabled_disabled_one, IH. reflexivity.
Qed.

Lemma disableLoop_enabled_prefix (l : list Z) (w : World) :
  disableLoop l w = Ok tt (disabled_all (enabled_prefix l w) w).
Proof.
  revert w. induction l as [|x l IH]; intros w; [reflexivity|].
  cbn [enabled_prefix]. destruct (isFilterEnabled x w) eqn:Hx.
  - rewrite (disableLoop_step _ _ _ Hx), IH, enabled_prefix_disabled_one.
    reflexivity.
  - apply disableLoop_stop, Hx.
Qed.

Lemma enabled_prefix_sublist (l : list Z) (w : World) :
  exists rest, l = enabled_prefix l w ++ rest.
Proof.
  induction l as [|x l [rest IH]]; cbn; [exists []; reflexivity|].
  destruct (isFilterEnabled x w).
  - exists rest. cbn. f_equal. exact IH.
  - exists (x :: l). reflexivity.
Qed.

Lemma NoDup_enabled_prefix (l : list Z) (w : World) :
  List.NoDup l -> List.NoDup (enabled_prefix l w).
Proof.
  intros H. destruct (enabled_prefix_sublist l w) as [rest Heq].
  rewrite Heq in H. apply NoDup_app_parts in H. tauto.
Qed.

(** X1. [disableFilters] returns on every batch of ids and in every state:
    the assignment to [filter.enabled] is never reached with a filter the
    cache does not hold.  It disables the ids at the head of the
    de-duplicated batch whose filters are enabled, emits one
    [FILTER_ENABLE_DISABLE] event for each, in this order, and nothing
    else; the filters under all other ids and the groups are left as they
    were. *)
Theorem disableFilters_always_returns (filterIds : list Z) (w : World) :
  let done := enabled_prefix (removeDuplicates filterIds) w in
  exists w',
    disableFilters filterIds w = Ok tt w' /\
    trace w' =
      trace w ++
      List.map (fun x => Notify FILTER_ENABLE_DISABLE
                  (PFilter (set_enabled false <$> cache_getFilter x w))) done /\
    (forall x, In x done ->
       is_Some (cache_getFilter x w) /\
       cache_getFilter x w' = set_enabled false <$> cache_getFilter x w) /\
    (forall x, ~ In x done -> cache_getFilter x w' = cache_getFilter x w) /\
    cacheGroups w' = cacheGroups w.
Proof.
  cbn zeta. set (done := enabled_prefix (removeDuplicates filterIds) w).
  assert (Hnd : List.NoDup done)
    by apply NoDup_enabled_prefix, NoDup_removeDuplicates.
  exists (disabled_all done w). split; [apply disableLoop_enabled_prefix|].
  split; [apply trace_disabled_all, Hnd|]. split; [|split].
  - intros x Hx. split; [|apply cache_getFilter_disabled_all_in; assumption].
    apply isFilterEnabled_present.
    clear Hnd. subst done. revert Hx.
    induction (removeDuplicates filterIds) as [|y l IH]; cbn; [tauto|].
    destruct (isFilterEnabled y w) eqn:Hy; [|intros []].
    intros [<-|Hx]; [exact Hy|exact (IH Hx)].
  - intros x Hx. apply cache_getFilter_disabled_all_other, Hx.
  - clear. generalize done. clear done. intros done. revert w.
    induction done as [|y l IH]; intros w; [reflexivity|].
    cbn. rewrite IH. reflexivity.
Qed.

End DisableAny.

(** ** getFilters, getEnabledFilters and the persisted state *)

Section ReadingFilters.

Import FiltersManager.

Lemma filterId_merge_filter (w : World) (f : Filter) :
  filterId (merge_filter w f) = filterId f.
Proof.
  unfold merge_filter.
  destruct (filtersVersionInfo w !! filterId f); cbn;
    destruct (filtersStateInfo w !! filterId f); reflexivity.
Qed.

Lemma merge_filter_idem (w : World) (f : Filter) :
  merge_filter w (merge_filter w f) = merge_filter w f.
Proof.
  unfold merge_filter.
  destruct (filtersVersionInfo w !! filterId f) as [vi|] eqn:Hv; cbn;
    destruct (filtersStateInfo w !! filterId f) as [si|] eqn:Hs; cbn;
    rewrite ?Hv, ?Hs; cbn; rewrite ?Hs; reflexivity.
Qed.

Lemma merge_filter_persisted (w w' : World) (f : Filter) :
  persisted w' = persisted w -> merge_filter w' f = merge_filter w f.
Proof.
  unfold persisted. intros H. injection H as Hv Hs _.
  unfold merge_filter. rewrite Hv, Hs. reflexivity.
Qed.

Lemma In_cache_getFilters (w : World) (f : Filter) :
  In f (cache_getFilters w) <-> exists k, cache_getFilter k w = Some f.
Proof.
  unfold cache_getFilters, cache_getFilter.
  rewrite <- list_elem_of_In, list_elem_of_fmap. split.
  - intros ([k g] & -> & H). exists k. apply elem_of_map_to_list in H. exact H.
  - intros (k & H). exists (k, f). split; [reflexivity|].
    apply elem_of_map_to_list. exact H.
Qed.

(** X2. [getFilters] is idempotent and reads the persisted state without
    writing it: a second call right after the first returns the same
    filters and leaves the world as the first call left it; the persisted
    state, the storage and the trace are those from before the first
    call. *)
Theorem getFilters_idempotent (w : World) :
  exists filters w',
    getFilters w = Ok filters w' /\
    getFilters w' = Ok filters w' /\
    persisted w' = persisted w /\
    storage w' = storage w /\
    trace w' = trace w.
Proof.
  exists (cache_getFilters
            (with_cacheFilters (merge_filter w <$> cacheFilters w) w)),
    (with_cacheFilters (merge_filter w <$> cacheFilters w) w).
  split; [reflexivity|]. split; [|repeat split].
  unfold getFilters. unfold_monad.
  set (w' := with_cacheFilters (merge_filter w <$> cacheFilters w) w).
  assert (Hm : merge_filter w' <$> cacheFilters w' = cacheFilters w').
  { unfold w' at 2 3. cbn [cacheFilters with_cacheFilters].
    rewrite <- map_fmap_compose. apply map_fmap_ext. intros k f _. cbn.
    rewrite (merge_filter_persisted w w') by reflexivity.
    apply merge_filter_idem. }
  rewrite Hm. rewrite with_cacheFilters_id. reflexivity.
Qed.

(** X3. [getEnabledFilters] and [isFilterEnabled] agree wherever the
    persisted state knows the filter.  On a cache keyed by id, every filter
    that [getEnabledFilters] returns has its [enabled] flag set and is the
    object the cache holds afterwards; and for an id with an entry in the
    persisted state, [isFilterEnabled] is true exactly when
    [getEnabledFilters] returns a filter with this id. *)
Theorem getEnabledFilters_agrees_with_isFilterEnabled (w : World) :
  keyed w ->
  exists filters w',
    getEnabledFilters w = Ok filters w' /\
    (forall f, In f filters ->
       truthy_bool (enabled f) = true /\
       cache_getFilter (filterId f) w' = Some f) /\
    (forall id, is_Some (filtersStateInfo w !! id) ->
       (isFilterEnabled id w = true <-> exists f, In f filters /\ filterId f = id)).
Proof.
  intros Hkeyed.
  set (w' := with_cacheFilters (merge_filter w <$> cacheFilters w) w).
  exists (List.filter (fun f => truthy_bool (enabled f)) (cache_getFilters w')), w'.
  split; [reflexivity|].
  assert (Hlook : forall k, cache_getFilter k w' = merge_filter w <$> cache_getFilter k w).
  { intros k. unfold cache_getFilter, w'. cbn. apply lookup_fmap. }
  assert (Hin : forall f, In f (cache_getFilters w') <->
                  exists g, cache_getFilter (filterId f) w = Some g /\
                            f = merge_filter w g).
  { intros f. rewrite In_cache_getFilters. split.
    - intros (k & Hk). rewrite Hlook in Hk.
      destruct (cache_getFilter k w) as [g|] eqn:Hg; [|discriminate].
      cbn in Hk. injection Hk as <-. exists g.
      rewrite filterId_merge_filter, (Hkeyed _ _ Hg). auto.
    - intros (g & Hg & ->). exists (filterId (merge_filter w g)).
      rewrite Hlook, Hg. reflexivity. }
  split.
  - intros f Hf. apply filter_In in Hf. destruct Hf as [Hf He].
    split; [exact He|]. apply Hin in Hf. destruct Hf as (g & Hg & ->).
    rewrite Hlook, Hg. reflexivity.
  - intros id [si Hsi]. unfold isFilterEnabled. rewrite Hsi. split.
    + destruct (cache_getFilter id w) as [g|] eqn:Hg; [|discriminate].
      intros He. exists (merge_filter w g).
      pose proof (Hkeyed _ _ Hg) as Hid.
      split; [|rewrite filterId_merge_filter; exact Hid].
      apply filter_In. split.
      * apply Hin. exists g. rewrite filterId_merge_filter, Hid. auto.
      * destruct (merge_filter_fields w g) as [_ Hst].
        rewrite Hid, Hsi in Hst. injection Hst as -> _ _. exact He.
    + intros (f & Hf & <-). apply filter_In in Hf. destruct Hf as [Hf He].
      apply Hin in Hf. destruct Hf as (g & Hg & ->).
      rewrite filterId_merge_filter in *. rewrite Hg.
      destruct (merge_filter_fields w g) as [_ Hst].
      rewrite Hsi in Hst. injection Hst as Hen _ _. rewrite <- Hen. exact He.
Qed.

End ReadingFilters.

(** ** Removal of filters *)

Section Removal.

Import Lifecycle.

Variable removeCustomFilter : Filter -> M unit.

Lemma removeFilter_absent (id : Z) (w : World) :
  cache_getFilter id w = None -> removeFilter removeCustomFilter id w = Ok tt w.
Proof. intros H. unfold removeFilter. unfold_monad. rewrite H. reflexivity. Qed.

(** The world after the removal of the built-in filter [filter] found
    under [id]. *)
Lemma removeFilter_builtin (id : Z) (filter : Filter) (w : World) :
  cache_getFilter id w = Some filter ->
  truthy_str (customUrl filter) = false ->
  removeFilter removeCustomFilter id w =
  Ok tt
    (with_cacheFilters (delete id (cacheFilters w))
       (with_trace
          (trace w ++
           [Notify FILTER_ENABLE_DISABLE
              (PFilter (Some (set_installed false (set_enabled false filter))));
            Notify FILTER_ADD_REMOVE
              (PFilter (Some (set_installed false (set_enabled false filter))))])
          w)).
Proof.
  intros Hf Hc. unfold removeFilter, cache_removeFilter. unfold_monad.
  rewrite Hf. unfold cache_getFilter in *. cbn.
  rewrite !lookup_alter_eq, Hf. cbn. rewrite Hc. cbn.
  f_equal. destruct w. unfold with_cacheFilters, with_trace. cbn in *.
  f_equal.
  - apply map_eq. intros k. destruct (decide (k = id)) as [->|Hne].
    + rewrite !lookup_delete_eq. reflexivity.
    + rewrite !lookup_delete_ne, !lookup_alter_ne by congruence. reflexivity.
  - rewrite <- app_assoc. reflexivity.
Qed.

(** X4. [removeFilter] on a built-in filter.  The call emits a
    [FILTER_ENABLE_DISABLE] and then a [FILTER_ADD_REMOVE] event, both with
    the filter disabled and not installed, and takes the filter out of the
    cache; the filters under other ids are left as they were.  A second
    [removeFilter] of the same id does nothing, and from then on
    [getFilterById], and with it the installation of this id, fails with
    "filter not found". *)
Theorem removeFilter_builtin_removes (E : Env) (id : Z) (filter : Filter)
    (w : World) :
  cache_getFilter id w = Some filter ->
  truthy_str (customUrl filter) = false ->
  exists w',
    removeFilter removeCustomFilter id w = Ok tt w' /\
    trace w' =
      trace w ++
      [Notify FILTER_ENABLE_DISABLE
         (PFilter (Some (set_installed false (set_enabled false filter))));
       Notify FILTER_ADD_REMOVE
         (PFilter (Some (set_installed false (set_enabled false filter))))] /\
    cache_getFilter id w' = None /\
    (forall k, k <> id -> cache_getFilter k w' = cache_getFilter k w) /\
    removeFilter removeCustomFilter id w' = Ok tt w' /\
    FiltersManager.getFilterById id w' = Throw (FilterNotFound id) w' /\
    (forall callback,
       FiltersManager.addAntiBannerFilter E id callback w'
       = Throw (FilterNotFound id) w').
Proof.
  intros Hf Hc. eexists. split; [apply removeFilter_builtin; eassumption|].
  set (w' := with_cacheFilters _ _).
  assert (Hgone : cache_getFilter id w' = None)
    by (unfold cache_getFilter, w'; cbn; apply lookup_delete_eq).
  split; [reflexivity|]. split; [exact Hgone|].
  split.
  { intros k Hk. unfold cache_getFilter, w'. cbn.
    apply lookup_delete_ne. congruence. }
  split; [apply removeFilter_absent, Hgone|].
  split; [apply getFilterById_absent, Hgone|].
  intros cb. unfold FiltersManager.addAntiBannerFilter. unfold bind.
  rewrite (getFilterById_absent _ _ Hgone). reflexivity.
Qed.

End Removal.

(** ** Removal of obsolete filters *)

Section Obsolete.

Import Lifecycle.

Variable removeCustomFilter : Filter -> M unit.
Variable updateFiltersJson : list FilterMetadata -> M unit.

Lemma name_eqb_eq (a b : option string) : name_eqb a b = true <-> a = b.
Proof.
  destruct a as [x|], b as [y|]; cbn; try (split; congruence).
  rewrite String.eqb_eq. split; congruence.
Qed.

Lemma In_obsoleteFiltersMetadata (localFilters remoteFilters : list FilterMetadata)
    (m : FilterMetadata) :
  In m (obsoleteFiltersMetadata localFilters remoteFilters) <->
  In m localFilters /\ ~ has_remote remoteFilters m.
Proof.
  unfold obsoleteFiltersMetadata, has_remote.
  rewrite filter_In, negb_true_iff, <- not_true_iff_false, existsb_exists.
  split; intros [Hin Hno]; (split; [exact Hin|]); intros (r & Hr & H); apply Hno;
    exists r; (split; [exact Hr|]).
  - destruct H as [Hid Hname]. rewrite andb_true_iff, Z.eqb_eq, name_eqb_eq. auto.
  - rewrite andb_true_iff, Z.eqb_eq, name_eqb_eq in H. exact H.
Qed.

(** One round of the [forEach]: the cache entry of the id is gone, the
    entries of the other ids are as before. *)
Lemma removeEach_step (id : Z) (w : World) :
  (forall f, cache_getFilter id w = Some f -> truthy_str (customUrl f) = false) ->
  exists w1,
    bind (filtersState_removeFilter id)
      (fun _ => removeFilter removeCustomFilter id) w = Ok tt w1 /\
    cache_getFilter id w1 = None /\
    (forall k, k <> id -> cache_getFilter k w1 = cache_getFilter k w).
Proof.
  intros Hb. unfold bind, filtersState_removeFilter, modify.
  set (w0 := with_filtersStateInfo _ _).
  destruct (cache_getFilter id w) as [f|] eqn:Hf.
  - assert (Hf0 : cache_getFilter id w0 = Some f) by exact Hf.
    rewrite (removeFilter_builtin removeCustomFilter id f w0 Hf0 (Hb f eq_refl)).
    eexists. split; [reflexivity|]. unfold cache_getFilter. cbn.
    rewrite lookup_delete_eq. split; [reflexivity|].
    intros k Hk. apply lookup_delete_ne. congruence.
  - assert (Hf0 : cache_getFilter id w0 = None) by exact Hf.
    rewrite (removeFilter_absent removeCustomFilter id w0 Hf0).
    exists w0. split; [reflexivity|]. split; [exact Hf0|]. reflexivity.
Qed.

Lemma removeEach_run (obsolete : list FilterMetadata) (w : World) :
  (forall m f, In m obsolete -> cache_getFilter (md_filterId m) w = Some f ->
     truthy_str (customUrl f) = false) ->
  exists w',
    removeEach removeCustomFilter obsolete w = Ok tt w' /\
    (forall id, In id (List.map md_filterId obsolete) ->
       cache_getFilter id w' = None) /\
    (forall id, ~ In id (List.map md_filterId obsolete) ->
       cache_getFilter id w' = cache_getFilter id w).
Proof.
  revert w. induction obsolete as [|m rest IH]; intros w Hb.
  - exists w. cbn. split; [reflexivity|]. split; [intros ? []|auto].
  - destruct (removeEach_step (md_filterId m) w) as (w1 & Hstep & Hc & Hframe).
    { intros f. apply (Hb m f). left. reflexivity. }
    destruct (IH w1) as (w' & Hrun & Hgone & Hkept).
    { intros m' f Hm' Hf. destruct (Z.eq_dec (md_filterId m') (md_filterId m)) as [He|Hne].
      - rewrite He, Hc in Hf. discriminate.
      - rewrite (Hframe _ Hne) in Hf.
        apply (Hb m' f); [right; exact Hm'|exact Hf]. }
    exists w'. split.
    { cbn [removeEach]. unfold bind in *.
      destruct (filtersState_removeFilter (md_filterId m) w) as [[] w0|e w0];
        [|discriminate].
      rewrite Hstep. exact Hrun. }
    split.
    + intros id Hid. cbn in Hid.
      destruct (in_dec Z.eq_dec id (List.map md_filterId rest)) as [Hin|Hout];
        [exact (Hgone id Hin)|].
      destruct Hid as [<-|Hid]; [|contradiction].
      rewrite (Hkept _ Hout). exact Hc.
    + intros id Hid. cbn in Hid.
      assert (Hne : id <> md_filterId m) by (intros ->; apply Hid; left; reflexivity).
      assert (Hout : ~ In id (List.map md_filterId rest))
        by (intros H; apply Hid; right; exact H).
      rewrite (Hkept _ Hout). apply Hframe, Hne.
Qed.

(** X5. [removeObsoleteFilters].  The remote metadata is written first, and
    when the write throws nothing is removed.  After the write, a filter of
    the local metadata is obsolete when no remote filter has both its id
    and its name: the cache entry of every obsolete built-in filter is
    gone, also when a remote filter of another name has its id, and the
    cache entries of all other ids are as the write left them. *)
Theorem removeObsoleteFilters_removes_unmatched
    (localFilters remoteFilters : list FilterMetadata) (w : World) :
  match updateFiltersJson remoteFilters w with
  | Throw e w1 =>
      removeObsoleteFilters removeCustomFilter updateFiltersJson
        localFilters remoteFilters w = Throw e w1
  | Ok _ w0 =>
      (forall m f, In m localFilters ->
         cache_getFilter (md_filterId m) w0 = Some f ->
         truthy_str (customUrl f) = false) ->
      exists w',
        removeObsoleteFilters removeCustomFilter updateFiltersJson
          localFilters remoteFilters w = Ok tt w' /\
        (forall id, obsolete_id localFilters remoteFilters id ->
           cache_getFilter id w' = None) /\
        (forall id, ~ obsolete_id localFilters remoteFilters id ->
           cache_getFilter id w' = cache_getFilter id w0)
  end.
Proof.
  unfold removeObsoleteFilters, bind.
  destruct (updateFiltersJson remoteFilters w) as [[] w0|e w1]; [|reflexivity].
  intros Hb.
  assert (Hobs : forall id,
            In id (List.map md_filterId
                     (obsoleteFiltersMetadata localFilters remoteFilters)) <->
            obsolete_id localFilters remoteFilters id).
  { intros id. rewrite in_map_iff. unfold obsolete_id. split.
    - intros (m & Hid & Hm). apply In_obsoleteFiltersMetadata in Hm.
      exists m. tauto.
    - intros (m & Hm & Hid & Hno). exists m. split; [exact Hid|].
      apply In_obsoleteFiltersMetadata. auto. }
  destruct (removeEach_run (obsoleteFiltersMetadata localFilters remoteFilters) w0)
    as (w' & Hrun & Hgone & Hkept).
  { intros m f Hm. apply In_obsoleteFiltersMetadata in Hm. apply Hb, Hm. }
  exists w'. split; [exact Hrun|].
  split; intros id Hid; [apply Hgone|apply Hkept]; rewrite Hobs; exact Hid.
Qed.

End Obsolete.

(** ** What a check selects *)

Section Selection.

Import FiltersUpdate.

Lemma sublist_map_filter_impl {A B} (g : A -> B) (p q : A -> bool) (l : list A) :
  (forall x, In x l -> p x = true -> q x = true) ->
  sublist (List.map g (List.filter p l)) (List.map g (List.filter q l)).
Proof.
  induction l as [|a l IH]; intros Himp; cbn; [constructor|].
  assert (IH' : sublist (List.map g (List.filter p l)) (List.map g (List.filter q l))).
  { apply IH. intros x Hx. apply Himp. right. exact Hx. }
  destruct (p a) eqn:Hp.
  - rewrite (Himp a (or_introl eq_refl) Hp). cbn. constructor. exact IH'.
  - destruct (q a); cbn; [constructor|]; exact IH'.
Qed.

Lemma needUpdate_later (forceUpdate : option bool) (period now now' : Z)
    (f : Filter) :
  now <= now' ->
  needUpdate forceUpdate period now f = true ->
  needUpdate forceUpdate period now' f = true.
Proof.
  intros Hle. rewrite !needUpdate_iff.
  intros [H|[H|(t & Ht & Hge)]]; [left; exact H|right; left; exact H|].
  right. right. exists t. split; [exact Ht|lia].
Qed.

Lemma needUpdate_forced (period now : Z) (f : Filter) :
  needUpdate (Some true) period now f = true.
Proof. reflexivity. Qed.

(** X6. [selectFilterIdsToUpdate].  With the cache, the custom filters and
    the period unchanged, the built-in filters selected at an instant are
    selected at every later instant, in the same order, and all of them
    are among those that a forced check selects (whose selection does not
    depend on the instant or on the period); the custom filters selected
    do not depend on the flag, on the instant or on the period: an enabled
    custom filter is selected by every check. *)
Theorem selectFilterIdsToUpdate_monotone (forceUpdate : option bool)
    (filtersToUpdate : option (list Filter)) (w w' : World) :
  cacheFilters w' = cacheFilters w ->
  customStore w' = customStore w ->
  clock w <= clock w' ->
  (updateFiltersPeriod w' = updateFiltersPeriod w ->
   sublist (filterIds (selectFilterIdsToUpdate forceUpdate filtersToUpdate w))
           (filterIds (selectFilterIdsToUpdate forceUpdate filtersToUpdate w'))) /\
  sublist (filterIds (selectFilterIdsToUpdate forceUpdate filtersToUpdate w))
          (filterIds (selectFilterIdsToUpdate (Some true) filtersToUpdate w')) /\
  filterIds (selectFilterIdsToUpdate (Some true) filtersToUpdate w') =
  filterIds (selectFilterIdsToUpdate (Some true) filtersToUpdate w) /\
  customFilterIds (selectFilterIdsToUpdate forceUpdate filtersToUpdate w) =
  customFilterIds (selectFilterIdsToUpdate (Some true) filtersToUpdate w').
Proof.
  intros Hcache Hcustom Hclock.
  assert (Hlist : cache_getFilters w' = cache_getFilters w)
    by (unfold cache_getFilters; rewrite Hcache; reflexivity).
  unfold selectFilterIdsToUpdate. cbn [filterIds customFilterIds].
  rewrite !selectLoop_filter, Hcustom, Hlist. cbn [app].
  split; [|split; [|split]].
  - intros ->. apply sublist_map_filter_impl. intros f _.
    rewrite !andb_true_iff. intros [[Hie Hneed] Hurl].
    split; [split; [exact Hie|]|exact Hurl].
    revert Hneed. apply needUpdate_later, Hclock.
  - apply sublist_map_filter_impl. intros f _.
    rewrite !andb_true_iff. intros [[Hie Hneed] Hurl].
    split; [split; [exact Hie|]|exact Hurl]. apply needUpdate_forced.
  - reflexivity.
  - reflexivity.
Qed.

End Selection.

(** ** What a download changes *)

Section Refreshes.

Import FiltersUpdate.

Variable E : Env.

Lemma same_settings_refl (f : Filter) : same_settings f f.
Proof. repeat split. Qed.

Lemma same_settings_trans (f g h : Filter) :
  same_settings f g -> same_settings g h -> same_settings f h.
Proof.
  unfold same_settings. intros (?&?&?&?&?&?) (?&?&?&?&?&?).
  repeat split; congruence.
Qed.

Lemma refreshes_same_cache (w w' : World) :
  cacheFilters w' = cacheFilters w -> cacheGroups w' = cacheGroups w ->
  refreshes [] w w'.
Proof.
  intros Hf Hg. split; [|split; [exact Hg|]].
  - intros id. unfold cache_getFilter. rewrite Hf.
    destruct (cacheFilters w !! id); [apply same_settings_refl|exact I].
  - intros id (f & Hid & Hd). right. exists f. unfold cache_getFilter in *.
    rewrite <- Hf. auto.
Qed.

Lemma refreshes_refl (w : World) : refreshes [] w w.
Proof. apply refreshes_same_cache; reflexivity. Qed.

Lemma refreshes_trans (S1 S2 : list Z) (w w1 w2 : World) :
  refreshes S1 w w1 -> refreshes S2 w1 w2 -> refreshes (S1 ++ S2) w w2.
Proof.
  intros (Hs1 & Hg1 & Hd1) (Hs2 & Hg2 & Hd2). split; [|split].
  - intros id. specialize (Hs1 id). specialize (Hs2 id).
    destruct (cache_getFilter id w), (cache_getFilter id w1),
      (cache_getFilter id w2); try contradiction; try exact I.
    eapply same_settings_trans; eassumption.
  - congruence.
  - intros id Hd. rewrite in_app_iff.
    destruct (Hd2 id Hd) as [H|H]; [left; right; exact H|].
    destruct (Hd1 id H) as [H'|H']; [left; left; exact H'|right; exact H'].
Qed.

Lemma refreshes_weaken (S1 S2 : list Z) (w w' : World) :
  (forall id, In id S1 -> In id S2) -> refreshes S1 w w' -> refreshes S2 w w'.
Proof.
  intros Hsub (Hs & Hg & Hd). split; [exact Hs|]. split; [exact Hg|].
  intros id H. destruct (Hd id H) as [H'|H']; [left; apply Hsub, H'|right; exact H'].
Qed.

Lemma refreshes_then (S1 : list Z) (w w1 w2 : World) :
  refreshes S1 w w1 -> refreshes [] w1 w2 -> refreshes S1 w w2.
Proof.
  intros H1 H2. eapply refreshes_weaken; [|eapply refreshes_trans; eassumption].
  intros id. rewrite app_nil_r. auto.
Qed.

(** An assignment to the object under [id] that keeps its settings. *)
Lemma refreshes_alter (g : Filter -> Filter) (id : Z) (w w' : World) :
  (forall f, same_settings f (g f)) ->
  cacheFilters w' = alter g id (cacheFilters w) ->
  cacheGroups w' = cacheGroups w ->
  refreshes [id] w w'.
Proof.
  intros Hg Hf Hgr. split; [|split; [exact Hgr|]].
  - intros k. unfold cache_getFilter. rewrite Hf.
    destruct (decide (k = id)) as [->|Hne].
    + rewrite lookup_alter_eq. destruct (cacheFilters w !! id); cbn; [apply Hg|exact I].
    + rewrite lookup_alter_ne by congruence.
      destruct (cacheFilters w !! k); [apply same_settings_refl|exact I].
  - intros k (f & Hk & Hd). destruct (decide (k = id)) as [->|Hne];
      [left; left; reflexivity|].
    right. exists f. unfold cache_getFilter in *. rewrite Hf in Hk.
    rewrite lookup_alter_ne in Hk by congruence. auto.
Qed.

(** An assignment under [id] that also takes the mark away. *)
Lemma refreshes_alter_done (g : Filter -> Filter) (id : Z) (S : list Z)
    (w0 w w' : World) :
  (forall f, same_settings f (g f) /\ _isDownloading (g f) = false) ->
  cacheFilters w' = alter g id (cacheFilters w) ->
  cacheGroups w' = cacheGroups w ->
  refreshes (id :: S) w0 w -> refreshes S w0 w'.
Proof.
  intros Hg Hf Hgr (Hs & Hg0 & Hd). split; [|split; [congruence|]].
  - intros k. specialize (Hs k). unfold cache_getFilter in *. rewrite Hf.
    destruct (decide (k = id)) as [->|Hne].
    + rewrite lookup_alter_eq.
      destruct (cacheFilters w0 !! id), (cacheFilters w !! id); cbn;
        try contradiction; try exact I.
      eapply same_settings_trans; [exact Hs|apply Hg].
    + rewrite lookup_alter_ne by congruence. exact Hs.
  - intros k (f & Hk & Hdk). unfold cache_getFilter in Hk. rewrite Hf in Hk.
    destruct (decide (k = id)) as [->|Hne].
    + rewrite lookup_alter_eq in Hk.
      destruct (cacheFilters w !! id) as [f0|]; [|discriminate].
      cbn in Hk. injection Hk as <-. rewrite (proj2 (Hg f0)) in Hdk. discriminate.
    + rewrite lookup_alter_ne in Hk by congruence.
      destruct (Hd k) as [[->|H]|H]; [exists f; auto|congruence|left; exact H|right; exact H].
Qed.

Lemma loadFilterRules_request_cache (filterMetadata : Filter)
    (forceRemote : bool) (w : World) :
  loadFilterRules_request filterMetadata forceRemote w = Throw TypeError w \/
  exists filter w',
    loadFilterRules_request filterMetadata forceRemote w = Ok filter w' /\
    cacheFilters w' =
      alter (set_isDownloading true) (filterId filterMetadata) (cacheFilters w) /\
    cacheGroups w' = cacheGroups w.
Proof.
  unfold loadFilterRules_request, notifyListeners, assign_filter, bind, gets, modify, ret, throw.
  destruct (cache_getFilter (filterId filterMetadata) w) as [f|];
    [right|left; reflexivity].
  eexists _, _. split; [reflexivity|]. split; reflexivity.
Qed.

Lemma loadFilterRules_answer_cache (filter filterMetadata : Filter)
    (forceRemote : bool) (w : World) :
  exists (g : Filter -> Filter) (b : bool) (w' : World),
    loadFilterRules_answer E filter filterMetadata forceRemote ret w = Ok b w' /\
    (forall f, same_settings f (g f) /\ _isDownloading (g f) = false) /\
    cacheFilters w' = alter g (filterId filterMetadata) (cacheFilters w) /\
    cacheGroups w' = cacheGroups w.
Proof.
  unfold loadFilterRules_answer, successCallback, errorCallback, notifyListeners,
    assign_filter, deref, bind, gets, modify, ret.
  destruct (rulesAnswer E (filterId filter) forceRemote) as [rules|].
  - exists (on_rules_loaded filterMetadata (rulesAnswerTime E (filterId filter))).
    eexists _, _. split; [reflexivity|]. split; [|split; reflexivity].
    intros f. split; [repeat split|reflexivity].
  - exists (set_isDownloading false).
    eexists _, _. split; [reflexivity|]. split; [|split; reflexivity].
    intros f. split; [repeat split|reflexivity].
Qed.

Lemma startDownloads_refreshes (filterMetadataList : list Filter) (w : World) :
  exists started thrown w',
    startDownloads filterMetadataList w = Ok (started, thrown) w' /\
    refreshes (List.map (fun r => filterId (snd r)) started) w w'.
Proof.
  revert w. induction filterMetadataList as [|m rest IH]; intros w.
  - exists [], false, w. split; [reflexivity|apply refreshes_refl].
  - cbn [startDownloads].
    destruct (loadFilterRules_request_cache m true w)
      as [Hthrow|(filter & w1 & Hreq & Hcache & Hgroups)].
    + rewrite Hthrow. destruct (IH w) as (started & thrown & w' & Hrun & Href).
      exists started, true, w'. unfold bind, ret. rewrite Hrun. auto.
    + rewrite Hreq. destruct (IH w1) as (started & thrown & w' & Hrun & Href).
      exists ((filter, m) :: started), thrown, w'.
      unfold bind, ret. rewrite Hrun. split; [reflexivity|].
      apply (refreshes_trans [filterId m] _ w w1 w'); [|exact Href].
      apply (refreshes_alter (set_isDownloading true)); auto.
      intros f. repeat split.
Qed.

Section WithCallback.

Variable callback : bool -> option (list Z) -> M unit.

Hypothesis callback_failure :
  forall w0, exists w1, callback false None w0 = Ok tt w1 /\ refreshes [] w0 w1.

Hypothesis callback_success :
  forall ids w0, exists w1,
    callback true (Some ids) w0 = Ok tt w1 /\ refreshes [] w0 w1.

Lemma settleDownloads_refreshes (arrivals : list (Filter * Filter))
    (loadedFilters : list Z) (settled : bool) (w0 w : World) :
  refreshes (List.map (fun r => filterId (snd r)) arrivals) w0 w ->
  exists w',
    settleDownloads E arrivals loadedFilters settled callback w = Ok tt w' /\
    refreshes [] w0 w'.
Proof.
  revert loadedFilters settled w.
  induction arrivals as [|[f m] rest IH]; intros loadedFilters settled w Href.
  - cbn. destruct settled.
    + exists w. split; [reflexivity|exact Href].
    + destruct (callback_success loadedFilters w) as (w1 & Hcb & H1).
      exists w1. split; [exact Hcb|]. eapply refreshes_then; eassumption.
  - rewrite settleDownloads_cons.
    destruct (loadFilterRules_answer_cache f m true w)
      as (g & b & w1 & Hans & Hg & Hcache & Hgroups).
    rewrite Hans.
    assert (Href1 : refreshes (List.map (fun r => filterId (snd r)) rest) w0 w1).
    { eapply (refreshes_alter_done g); eauto. }
    destruct b.
    + apply IH. exact Href1.
    + unfold bind. destruct settled.
      * cbn. apply IH. exact Href1.
      * destruct (callback_failure w1) as (w2 & Hcb & H2). rewrite Hcb.
        apply IH. eapply refreshes_then; eassumption.
Qed.

Lemma loadFiltersFromBackend_refreshes_run (filterMetadataList : list Filter)
    (w : World) :
  exists w',
    loadFiltersFromBackend E filterMetadataList callback w = Ok tt w' /\
    refreshes [] w w'.
Proof.
  unfold loadFiltersFromBackend, bind.
  destruct (startDownloads_refreshes filterMetadataList w)
    as (started & thrown & w1 & Hstart & Href).
  rewrite Hstart. cbn [fst snd].
  assert (Hmid : exists w2,
            (if thrown then callback false None else ret tt) w1 = Ok tt w2 /\
            refreshes [] w1 w2).
  { destruct thrown; [apply callback_failure|].
    exists w1. split; [reflexivity|apply refreshes_refl]. }
  destruct Hmid as (w2 & Hmid & Href2). rewrite Hmid.
  apply settleDownloads_refreshes.
  eapply refreshes_weaken; [|eapply refreshes_then; eassumption].
  intros id. rewrite !in_map_iff. intros (r & Hid & Hr). exists r.
  split; [exact Hid|].
  apply list_elem_of_In. unfold by_answer_time. rewrite merge_sort_Permutation.
  apply list_elem_of_In. exact Hr.
Qed.

End WithCallback.

(** X7. [loadFiltersFromBackend].  Whatever the list, the state and the
    answers of the network, and for every callback that returns and keeps
    the settings itself, the batch returns, and from before to after it
    the cache is only refreshed: no filter is added or removed, no filter
    changes its id, group, url or its enabled, installed or trusted flag,
    the groups are untouched, and no filter is left marked as downloading
    that was not marked before, also when the batch is rejected at its
    first failure while other answers are still to come. *)
Theorem loadFiltersFromBackend_only_refreshes (filterMetadataList : list Filter)
    (callback : bool -> option (list Z) -> M unit) (w : World) :
  (forall w0, exists w1, callback false None w0 = Ok tt w1 /\ refreshes [] w0 w1) ->
  (forall ids w0, exists w1,
     callback true (Some ids) w0 = Ok tt w1 /\ refreshes [] w0 w1) ->
  exists w',
    loadFiltersFromBackend E filterMetadataList callback w = Ok tt w' /\
    refreshes [] w w'.
Proof.
  intros Hfail Hok. apply loadFiltersFromBackend_refreshes_run; assumption.
Qed.

Lemma notifyListeners_refreshes (ev : EventKind) (p : Payload) (w : World) :
  exists w', notifyListeners ev p w = Ok tt w' /\ refreshes [] w w'.
Proof.
  eexists. split; [reflexivity|]. apply refreshes_same_cache; reflexivity.
Qed.

(** The stage of a check after the metadata has arrived, for any two
    reporting functions that return and keep the settings. *)
Lemma download_stage_refreshes (onSuccess : list (option Filter) -> M unit)
    (onError : M unit) (l : list Filter) (w wb : World) :
  (forall fs w0, exists w1, onSuccess fs w0 = Ok tt w1 /\ refreshes [] w0 w1) ->
  (forall w0, exists w1, onError w0 = Ok tt w1 /\ refreshes [] w0 w1) ->
  refreshes [] w wb ->
  exists w',
    loadFiltersFromBackend E (metadataToUpdate E l wb)
      (fun success filterIds =>
         if success then
           match filterIds with
           | None => throw TypeError
           | Some filterIds =>
               let* filters := gets (loadedFiltersOf filterIds) in
               updateCustomFilters E [] (fun customFilters =>
                 onSuccess (List.map Some filters ++ customFilters))
           end
         else onError) wb = Ok tt w' /\
    refreshes [] w w'.
Proof.
  intros Hsuccess Herror Hb.
  match goal with
  | |- exists w', loadFiltersFromBackend E ?l' ?cb wb = _ /\ _ =>
      destruct (loadFiltersFromBackend_refreshes_run cb) with (filterMetadataList := l')
        (w := wb) as (w' & Hrun & Hr)
  end.
  - exact Herror.
  - intros loaded w1. cbn. unfold bind, gets, updateCustomFilters. cbn.
    apply Hsuccess.
  - exists w'. split; [exact Hrun|]. eapply refreshes_then; eassumption.
Qed.

(** X8. [checkAntiBannerFiltersUpdate].  A check that selects no custom
    filter returns, whatever the flag, the list, the state and the answers
    of the network, and from before to after it the cache is only
    refreshed: the check enables, disables, installs, uninstalls, adds and
    removes no filter, leaves the groups alone, and marks no filter as
    downloading beyond its return. *)
Theorem checkAntiBannerFiltersUpdate_only_refreshes (forceUpdate : option bool)
    (filters : option (list Filter)) (w : World) :
  customFilterIds (selectFilterIdsToUpdate forceUpdate filters w) = [] ->
  exists w',
    checkAntiBannerFiltersUpdate E forceUpdate filters w = Ok tt w' /\
    refreshes [] w w'.
Proof.
  intros Hcustom.
  unfold checkAntiBannerFiltersUpdate, setFiltersUpdateLastCheck.
  unfold bind at 1. unfold gets at 1. unfold bind at 1. unfold modify at 1.
  set (w0 := emit _ _).
  assert (Href0 : refreshes [] w w0) by (apply refreshes_same_cache; reflexivity).
  unfold bind at 1. unfold gets at 1.
  change (selectFilterIdsToUpdate forceUpdate filters w0)
    with (selectFilterIdsToUpdate forceUpdate filters w).
  rewrite Hcustom.
  set (ids := filterIds (selectFilterIdsToUpdate forceUpdate filters w)).
  assert (Hnotify : forall p wb, refreshes [] w wb ->
            exists w', notifyListeners UPDATE_FILTERS_SHOW_POPUP p wb = Ok tt w' /\
                       refreshes [] w w').
  { intros p wb Hb. destruct (notifyListeners_refreshes UPDATE_FILTERS_SHOW_POPUP p wb)
      as (w' & Hn & Hr). exists w'. split; [exact Hn|].
    eapply refreshes_then; eassumption. }
  pose (onSuccess := fun updatedFilters : list (option Filter) =>
          notifyListeners UPDATE_FILTERS_SHOW_POPUP
            (PPopup (mkPopup true (Some updatedFilters) forceUpdate (clock w)))).
  pose (onError :=
          notifyListeners UPDATE_FILTERS_SHOW_POPUP
            (PPopup (mkPopup false None forceUpdate (clock w)))).
  assert (Hbatch : forall l wb, refreshes [] w wb ->
            exists w', _ /\ refreshes [] w w')
    by (intros l wb; apply (download_stage_refreshes onSuccess onError l w wb);
        intros; apply notifyListeners_refreshes).
  destruct (Z.of_nat (List.length ids) + Z.of_nat (List.length (@nil Z)) =? 0).
  - apply Hnotify, Href0.
  - unfold loadFiltersMetadataFromBackend.
    destruct (Z.of_nat (List.length ids) =? 0).
    + apply (Hbatch [] w0 Href0).
    + unfold bind at 1. unfold modify at 1.
      assert (Hrefb : refreshes [] w (emit (RequestMetadata ids) w0)).
      { eapply refreshes_then; [exact Href0|]. apply refreshes_same_cache; reflexivity. }
      destruct (metadataAnswer E ids) as [l|].
      * apply (Hbatch l _ Hrefb).
      * apply Hnotify, Hrefb.
Qed.

End Refreshes.

(** ** A check that finds no newer version *)

Section NothingNewer.

Import FiltersUpdate.

Variable E : Env.

Lemma loadFiltersFromBackend_nil (callback : bool -> option (list Z) -> M unit)
    (w : World) :
  loadFiltersFromBackend E [] callback w = callback true (Some []) w.
Proof. reflexivity. Qed.

(** X9. [checkAntiBannerFiltersUpdate].  When no custom filter is selected
    and the metadata that is fetched has no greater version for a filter of
    the cache (or cannot be fetched), the check downloads nothing: its
    effects are the storage write, the metadata request and one popup, and
    it leaves the cache as it was.  In particular it does not write the
    [lastCheckTime] of the filters it has checked, which only a download
    does, so that the same filters are selected by the next check. *)
Theorem checkAntiBannerFiltersUpdate_without_newer_version
    (forceUpdate : option bool) (filters : option (list Filter)) (w : World) :
  customFilterIds (selectFilterIdsToUpdate forceUpdate filters w) = [] ->
  (forall l,
     metadataAnswer E (filterIds (selectFilterIdsToUpdate forceUpdate filters w))
       = Some l ->
     metadataToUpdate E l w = []) ->
  exists w',
    checkAntiBannerFiltersUpdate E forceUpdate filters w = Ok tt w' /\
    trace w' =
      trace w ++
      check_without_download E forceUpdate
        (filterIds (selectFilterIdsToUpdate forceUpdate filters w)) (clock w) /\
    cacheFilters w' = cacheFilters w /\
    clock w' = clock w /\
    selectFilterIdsToUpdate forceUpdate filters w' =
    selectFilterIdsToUpdate forceUpdate filters w.
Proof.
  intros Hcustom Hmeta.
  unfold checkAntiBannerFiltersUpdate, setFiltersUpdateLastCheck.
  unfold bind at 1. unfold gets at 1. unfold bind at 1. unfold modify at 1.
  set (w0 := emit _ _).
  unfold bind at 1. unfold gets at 1.
  change (selectFilterIdsToUpdate forceUpdate filters w0)
    with (selectFilterIdsToUpdate forceUpdate filters w).
  rewrite Hcustom. unfold check_without_download.
  destruct (filterIds (selectFilterIdsToUpdate forceUpdate filters w))
    as [|id ids] eqn:Hids.
  - cbn. eexists. split; [reflexivity|]. cbn.
    rewrite <- app_assoc. repeat split.
  - replace (Z.of_nat (List.length (id :: ids)) + Z.of_nat (List.length (@nil Z)) =? 0)
      with false by (symmetry; apply Z.eqb_neq; cbn [List.length]; lia).
    unfold loadFiltersMetadataFromBackend.
    replace (Z.of_nat (List.length (id :: ids)) =? 0)
      with false by (symmetry; apply Z.eqb_neq; cbn [List.length]; lia).
    unfold bind at 1. unfold modify at 1.
    destruct (metadataAnswer E (id :: ids)) as [l|] eqn:Hanswer.
    + unfold bind at 1. unfold gets at 1.
      rewrite (metadataToUpdate_cache E l (emit (RequestMetadata (id :: ids)) w0) w eq_refl),
        (Hmeta l eq_refl).
      rewrite loadFiltersFromBackend_nil. cbn.
      eexists. split; [reflexivity|]. cbn.
      rewrite <- !app_assoc. repeat split.
    + cbn. eexists. split; [reflexivity|]. cbn.
      rewrite <- !app_assoc. repeat split.
Qed.

End NothingNewer.

(** ** Enabling a filter and checking it for updates *)

Section EnableAndUpdate.

Import FiltersUpdate FiltersManager.

Variable E : Env.

Lemma enableGroup_quiet (groupId : Z) (w : World) :
  exists w',
    enableGroup groupId w = Ok tt w' /\
    cacheFilters w' = cacheFilters w /\
    clock w' = clock w /\
    emits w w' [].
Proof.
  unfold enableGroup. unfold_monad.
  destruct (cache_getGroup groupId w) as [group|].
  - destruct (truthy_bool (g_enabled group)).
    + exists w. repeat split; try reflexivity. apply emits_refl.
    + eexists. split; [reflexivity|]. repeat split; try reflexivity.
      eexists. split; [reflexivity|reflexivity].
  - exists w. repeat split; try reflexivity. apply emits_refl.
Qed.

Lemma enableFilter_quiet (id : Z) (filter : Filter) (w : World) :
  cache_getFilter id w = Some filter ->
  exists w',
    enableFilter E id w = Ok tt w' /\
    cache_getFilter id w' = Some (set_enabled true filter) /\
    clock w' = clock w /\
    emits w w' [].
Proof.
  intros Hf. unfold enableFilter. unfold bind at 1, gets at 1. rewrite Hf.
  unfold bind at 1, assign_filter at 1, modify at 1.
  set (w1 := with_cacheFilters (alter (set_enabled true) id (cacheFilters w)) w).
  unfold bind at 1, gets at 1. unfold bind at 1.
  assert (Hg : exists w2,
             (if negb (groupHasEnabledStatus (groupId filter) w1)
              then enableGroup (groupId filter)
              else if (id =? SEARCH_AND_SELF_PROMO_FILTER_ID E)
                      || (groupId filter =? CUSTOM_FILTERS_GROUP_ID E)
                   then enableGroup (groupId filter)
                   else ret tt) w1 = Ok tt w2 /\
             cacheFilters w2 = cacheFilters w1 /\
             clock w2 = clock w1 /\ emits w1 w2 []).
  { destruct (negb (groupHasEnabledStatus (groupId filter) w1));
      [apply enableGroup_quiet|].
    destruct ((id =? SEARCH_AND_SELF_PROMO_FILTER_ID E)
              || (groupId filter =? CUSTOM_FILTERS_GROUP_ID E));
      [apply enableGroup_quiet|].
    exists w1. repeat split; try reflexivity. apply emits_refl. }
  destruct Hg as (w2 & Hrun & Hcache & Hclock & Hst & ev & Htr & Hev).
  rewrite Hrun. unfold notifyListeners, modify.
  eexists. split; [reflexivity|]. unfold cache_getFilter in *. cbn.
  rewrite Hcache. unfold w1. cbn.
  split; [rewrite lookup_alter_eq, Hf; reflexivity|].
  split; [exact Hclock|].
  split; [exact Hst|].
  exists (ev ++ [Notify FILTER_ENABLE_DISABLE (PFilter (Some (set_enabled true filter)))]).
  split; [unfold emit; cbn; rewrite Htr, <- app_assoc; reflexivity|].
  rewrite List.filter_app, Hev. reflexivity.
Qed.

(** The download of the rules of a filter of the cache, alone in flight:
    the filter that the cache holds afterwards. *)
Lemma loadFilterRules_exact (filterMetadata filter : Filter)
    (forceRemote : bool) (w : World) :
  cache_getFilter (filterId filterMetadata) w = Some filter ->
  exists w1,
    (forall callback : bool -> M unit,
       loadFilterRules E filterMetadata forceRemote callback w =
       callback (match rulesAnswer E (filterId filter) forceRemote with
                 | Some _ => true
                 | None => false
                 end) w1) /\
    cache_getFilter (filterId filterMetadata) w1 =
      Some (match rulesAnswer E (filterId filter) forceRemote with
            | Some _ =>
                on_rules_loaded filterMetadata
                  (rulesAnswerTime E (filterId filter)) filter
            | None => set_isDownloading false filter
            end) /\
    clock w1 = rulesAnswerTime E (filterId filter) /\
    emits w w1 [RequestRules (filterId filter) forceRemote].
Proof.
  intros Hf.
  unfold loadFilterRules, loadFilterRules_request, loadFilterRules_answer,
    successCallback, errorCallback.
  unfold_monad. rewrite Hf.
  destruct (rulesAnswer E (filterId filter) forceRemote) as [rules|].
  - eexists. split; [intros callback; reflexivity|].
    unfold cache_getFilter in *. cbn. rewrite !lookup_alter_eq, Hf. cbn.
    split; [reflexivity|]. split; [reflexivity|].
    split; [reflexivity|].
    eexists. split; [unfold emit; cbn; rewrite <- !app_assoc; reflexivity|reflexivity].
  - eexists. split; [intros callback; reflexivity|].
    unfold cache_getFilter in *. cbn. rewrite !lookup_alter_eq, Hf. cbn.
    split; [reflexivity|]. split; [reflexivity|].
    split; [reflexivity|].
    eexists. split; [unfold emit; cbn; rewrite <- !app_assoc; reflexivity|reflexivity].
Qed.

(** X10. [enableAndUpdateFilter] for a filter whose rules have to be
    downloaded (a filter that is neither installed nor loaded).  It makes
    one request, for the rules of the filter, and starts no update check:
    no storage write, no metadata request, no popup.  When the rules
    arrive the filter is installed and enabled, and the check is skipped
    because the download has just set [lastCheckTime] to the current time;
    when they do not arrive the filter is neither installed nor enabled,
    and nothing is checked either. *)
Theorem enableAndUpdateFilter_fresh_download (id : Z) (filter : Filter)
    (w : World) :
  keyed w ->
  cache_getFilter id w = Some filter ->
  truthy_bool (installed filter) = false ->
  truthy_bool (loaded filter) = false ->
  exists w' filter',
    enableAndUpdateFilter E id w = Ok tt w' /\
    cache_getFilter id w' = Some filter' /\
    emits w w' [RequestRules id false] /\
    clock w' = rulesAnswerTime E id /\
    _isDownloading filter' = false /\
    match rulesAnswer E id false with
    | Some _ =>
        enabled filter' = Some true /\ installed filter' = Some true /\
        loaded filter' = Some true /\ lastCheckTime filter' = Some (clock w')
    | None =>
        enabled filter' = enabled filter /\ installed filter' = installed filter /\
        loaded filter' = loaded filter /\ lastCheckTime filter' = lastCheckTime filter
    end.
Proof.
  intros Hkeyed Hf Hinst Hloaded.
  pose proof (Hkeyed id filter Hf) as Hid.
  unfold enableAndUpdateFilter, addAntiBannerFilter.
  unfold bind at 1. rewrite (getFilterById_present id filter w Hf).
  rewrite Hinst, Hloaded.
  assert (Hf' : cache_getFilter (filterId filter) w = Some filter)
    by (rewrite Hid; exact Hf).
  destruct (loadFilterRules_exact filter filter false w Hf')
    as (w1 & Hrun & Hc1 & Hclock1 & Hemits1).
  rewrite Hrun. rewrite Hid in *.
  destruct (rulesAnswer E id false) as [rules|].
  - set (installed1 := set_installed true
                         (on_rules_loaded filter (rulesAnswerTime E id) filter)).
    unfold bind at 1. unfold bind at 1, assign_filter at 1, modify at 1.
    set (w2 := with_cacheFilters _ w1).
    assert (Hc2 : cache_getFilter id w2 = Some installed1).
    { unfold cache_getFilter in *. unfold w2. cbn.
      rewrite lookup_alter_eq, Hc1. reflexivity. }
    unfold bind at 1, deref at 1, gets at 1. rewrite Hc2. cbn [default].
    unfold notifyListeners at 1, modify at 1.
    set (w3 := emit _ w2).
    assert (Hc3 : cache_getFilter id w3 = Some installed1) by exact Hc2.
    destruct (enableFilter_quiet id installed1 w3 Hc3)
      as (w4 & Henable & Hc4 & Hclock4 & Hemits4).
    unfold bind at 1. rewrite Henable.
    unfold bind at 1, gets at 1. rewrite Hc4.
    assert (Hemits : emits w w4 [RequestRules id false]).
    { eapply emits_quiet_r; [|exact Hemits4].
      eapply emits_quiet_r; [exact Hemits1|].
      eapply emits_quiet_l; [apply emits_with_cacheFilters|].
      apply (emits_emit (Notify FILTER_ADD_REMOVE (PFilter (Some installed1))) w2). }
    assert (Hclock : clock w4 = rulesAnswerTime E id)
      by (rewrite Hclock4; exact Hclock1).
    exists w4, (set_enabled true installed1). split.
    + destruct (negb (truthy_str (customUrl (set_enabled true installed1))));
        [|reflexivity].
      unfold checkFilterUpdate. cbn. rewrite Hclock, Z.sub_diag. reflexivity.
    + split; [exact Hc4|]. split; [exact Hemits|]. split; [exact Hclock|].
      rewrite Hclock. repeat split.
  - exists w1, (set_isDownloading false filter).
    split; [reflexivity|]. split; [exact Hc1|]. split; [exact Hemits1|].
    split; [exact Hclock1|]. repeat split.
Qed.

(** X11. [addAntiBannerFilter] installs a filter once.  For a filter of
    the cache the callback is called once, with the outcome.  After a
    success a second call makes no request, emits no event and changes
    nothing: it goes straight to its callback with [true].  After a
    failure the filter is as far from installed as before, so that a later
    call asks for the rules again. *)
Theorem addAntiBannerFilter_installs_once (id : Z) (filter : Filter) (w : World) :
  keyed w ->
  cache_getFilter id w = Some filter ->
  exists w1,
    (forall callback : bool -> M unit,
       addAntiBannerFilter E id callback w = callback (installs E w id) w1) /\
    if installs E w id then
      forall callback : bool -> M unit,
        addAntiBannerFilter E id callback w1 = callback true w1
    else
      installs E w1 id = false /\ emits w w1 [RequestRules id false].
Proof.
  intros Hkeyed Hf. pose proof (Hkeyed _ _ Hf) as Hid.
  unfold installs at 1 2. rewrite Hf.
  assert (Hadd : forall (w0 : World) (f0 : Filter) (callback : bool -> M unit),
            cache_getFilter id w0 = Some f0 ->
            truthy_bool (installed f0) = true ->
            addAntiBannerFilter E id callback w0 = callback true w0).
  { intros w0 f0 callback H0 Hi. unfold addAntiBannerFilter. unfold bind at 1.
    rewrite (getFilterById_present id f0 w0 H0), Hi. reflexivity. }
  destruct (truthy_bool (installed filter)) eqn:Hinst; cbn [orb].
  { exists w. split; intros callback; apply (Hadd w filter callback Hf Hinst). }
  destruct (truthy_bool (loaded filter)) eqn:Hload; cbn [orb].
  { eexists. split.
    - intros callback. unfold addAntiBannerFilter. unfold bind at 1.
      rewrite (getFilterById_present id filter w Hf), Hinst, Hload.
      unfold_monad. unfold cache_getFilter in *. cbn.
      rewrite lookup_alter_eq, Hf. cbn. reflexivity.
    - intros callback. apply (Hadd _ (set_installed true filter)).
      + unfold cache_getFilter in *. cbn. rewrite lookup_alter_eq, Hf. reflexivity.
      + reflexivity. }
  assert (Hf' : cache_getFilter (filterId filter) w = Some filter)
    by (rewrite Hid; exact Hf).
  destruct (loadFilterRules_exact filter filter false w Hf')
    as (w1 & Hrun & Hc1 & Hclock1 & Hemits1).
  rewrite Hid in *.
  assert (Hfirst : forall callback : bool -> M unit,
            addAntiBannerFilter E id callback w =
            bind (if match rulesAnswer E id false with
                     | Some _ => true
                     | None => false
                     end
                  then
                    assign_filter id (set_installed true) ;;;
                    (let* filter0 := deref id (set_installed true filter) in
                     notifyListeners FILTER_ADD_REMOVE (PFilter (Some filter0)))
                  else ret tt)
              (fun _ => callback match rulesAnswer E id false with
                                 | Some _ => true
                                 | None => false
                                 end) w1).
  { intros callback. unfold addAntiBannerFilter. unfold bind at 1.
    rewrite (getFilterById_present id filter w Hf), Hinst, Hload.
    rewrite Hrun. reflexivity. }
  destruct (rulesAnswer E id false) as [rules|] eqn:Hanswer.
  - eexists. split.
    + intros callback. rewrite Hfirst. unfold_monad.
      unfold cache_getFilter in *. cbn. rewrite lookup_alter_eq, Hc1. cbn.
      reflexivity.
    + intros callback.
      apply (Hadd _ (set_installed true
                       (on_rules_loaded filter (rulesAnswerTime E id) filter))).
      * unfold cache_getFilter in *. cbn. rewrite lookup_alter_eq, Hc1. reflexivity.
      * reflexivity.
  - exists w1. split.
    + intros callback. rewrite Hfirst. reflexivity.
    + split; [|exact Hemits1]. unfold installs. rewrite Hc1. cbn.
      rewrite Hinst, Hload, Hid, Hanswer. reflexivity.
Qed.

(** X14. [enableAndUpdateFilter] for a filter that is installed already.
    No rules are requested; the filter is enabled first.  A custom filter
    is not checked.  A built-in filter is not checked when its
    [lastCheckTime] is less than 5 minutes old; otherwise the forced check
    of this one filter follows, and because the filter has been enabled
    before, the check selects it: the metadata is requested for its id
    alone. *)
Theorem enableAndUpdateFilter_installed (id : Z) (filter : Filter) (w : World) :
  keyed w ->
  cache_getFilter id w = Some filter ->
  truthy_bool (installed filter) = true ->
  exists w1,
    enableFilter E id w = Ok tt w1 /\
    cache_getFilter id w1 = Some (set_enabled true filter) /\
    emits w w1 [] /\
    (truthy_str (customUrl filter) = true ->
     enableAndUpdateFilter E id w = Ok tt w1) /\
    (truthy_str (customUrl filter) = false ->
     (forall t, lastCheckTime filter = Some t -> clock w - t < 5 * 60 * 1000 ->
      enableAndUpdateFilter E id w = Ok tt w1) /\
     ((lastCheckTime filter = None \/
       exists t, lastCheckTime filter = Some t /\ 5 * 60 * 1000 <= clock w - t) ->
      enableAndUpdateFilter E id w =
        FiltersUpdate.checkAntiBannerFiltersUpdate E (Some true)
          (Some [set_enabled true filter]) w1 /\
      filterIds
        (selectFilterIdsToUpdate (Some true) (Some [set_enabled true filter]) w1)
        = [id])).
Proof.
  intros Hkeyed Hf Hinst. pose proof (Hkeyed _ _ Hf) as Hid.
  destruct (enableFilter_quiet id filter w Hf) as (w1 & Henable & Hc1 & Hclock1 & Hemits1).
  exists w1. split; [exact Henable|]. split; [exact Hc1|]. split; [exact Hemits1|].
  assert (Hrun : enableAndUpdateFilter E id w =
                 if negb (truthy_str (customUrl filter))
                 then checkFilterUpdate E (set_enabled true filter) w1
                 else Ok tt w1).
  { unfold enableAndUpdateFilter, addAntiBannerFilter. unfold bind at 1.
    rewrite (getFilterById_present id filter w Hf), Hinst.
    unfold bind at 1. rewrite Henable. unfold bind at 1, gets at 1. rewrite Hc1.
    cbn [customUrl set_enabled].
    destruct (negb (truthy_str (customUrl filter))); reflexivity. }
  rewrite Hrun. split; [intros ->; reflexivity|].
  intros Hurl. rewrite Hurl. cbn [negb]. unfold checkFilterUpdate. cbn [enabled set_enabled truthy_bool negb lastCheckTime].
  rewrite Hclock1. unfold ENABLED_FILTERS_SKIP_TIMEOUT. split.
  - intros t -> Hlt. cbn. replace (clock w - t <? 5 * 60 * 1000) with true; [reflexivity|].
    symmetry. apply Z.ltb_lt. exact Hlt.
  - intros Hstale. split.
    + destruct Hstale as [->|(t & -> & Hge)]; [reflexivity|].
      cbn. replace (clock w - t <? 5 * 60 * 1000) with false; [reflexivity|].
      symmetry. apply Z.ltb_ge. exact Hge.
    + unfold selectFilterIdsToUpdate. cbn. rewrite Hinst, Hurl, Hid. reflexivity.
Qed.

(** What [addAntiBannerFilter] lets the outside see: the request for the
    rules, when they have to be downloaded. *)
Lemma addAntiBannerFilter_emits (id : Z) (filter : Filter) (w : World) :
  keyed w ->
  cache_getFilter id w = Some filter ->
  exists w1,
    (forall callback : bool -> M unit,
       addAntiBannerFilter E id callback w = callback (installs E w id) w1) /\
    emits w w1 (if needs_download w id then [RequestRules id false] else []).
Proof.
  intros Hkeyed Hf. pose proof (Hkeyed _ _ Hf) as Hid.
  unfold installs, needs_download. rewrite Hf.
  destruct (truthy_bool (installed filter)) eqn:Hinst; cbn [orb negb andb].
  { exists w. split; [|apply emits_refl].
    intros callback. unfold addAntiBannerFilter. unfold bind at 1.
    rewrite (getFilterById_present id filter w Hf), Hinst. reflexivity. }
  destruct (truthy_bool (loaded filter)) eqn:Hload; cbn [orb negb andb].
  { eexists. split.
    - intros callback. unfold addAntiBannerFilter. unfold bind at 1.
      rewrite (getFilterById_present id filter w Hf), Hinst, Hload.
      unfold_monad. unfold cache_getFilter in *. cbn.
      rewrite lookup_alter_eq, Hf. cbn. reflexivity.
    - eapply emits_quiet_l; [apply emits_with_cacheFilters|].
      apply (emits_emit (Notify FILTER_ADD_REMOVE
                           (PFilter (Some (set_installed true filter))))). }
  assert (Hf' : cache_getFilter (filterId filter) w = Some filter)
    by (rewrite Hid; exact Hf).
  destruct (loadFilterRules_exact filter filter false w Hf')
    as (w1 & Hrun & Hc1 & Hclock1 & Hemits1).
  rewrite Hid in *.
  destruct (rulesAnswer E id false) as [rules|] eqn:Hanswer.
  - eexists. split.
    + intros callback. unfold addAntiBannerFilter. unfold bind at 1.
      rewrite (getFilterById_present id filter w Hf), Hinst, Hload, Hrun.
      unfold_monad. unfold cache_getFilter in *. cbn.
      rewrite lookup_alter_eq, Hc1. cbn. reflexivity.
    + eapply emits_quiet_r; [exact Hemits1|].
      eapply emits_quiet_l; [apply emits_with_cacheFilters|].
      apply (emits_emit
               (Notify FILTER_ADD_REMOVE
                  (PFilter (Some (set_installed true
                     (on_rules_loaded filter (rulesAnswerTime E id) filter)))))).
  - exists w1. split; [|exact Hemits1].
    intros callback. unfold addAntiBannerFilter. unfold bind at 1.
    rewrite (getFilterById_present id filter w Hf), Hinst, Hload, Hrun.
    reflexivity.
Qed.

Lemma needs_download_cache (w1 w2 : World) (id : Z) :
  cache_getFilter id w1 = cache_getFilter id w2 ->
  needs_download w1 id = needs_download w2 id.
Proof. intros H. unfold needs_download. rewrite H. reflexivity. Qed.

Lemma filter_none {A} (p : A -> bool) (l : list A) :
  (forall x, In x l -> p x = false) -> List.filter p l = [].
Proof.
  induction l as [|a l IH]; intros H; cbn; [reflexivity|].
  rewrite (H a (or_introl eq_refl)). apply IH. intros x Hx. apply H. right. exact Hx.
Qed.

(** One step of [loadNextFilter], as the outside sees it. *)
Lemma loadNextFilter_step_emits (id : Z) (rest : list Z) (filter : Filter)
    (w : World) :
  keyed w ->
  cache_getFilter id w = Some filter ->
  exists w2,
    loadNextFilter E (id :: rest) w = loadNextFilter E rest w2 /\
    keyed w2 /\
    (forall k, k <> id -> cache_getFilter k w2 = cache_getFilter k w) /\
    emits w w2 (if needs_download w id then [RequestRules id false] else []).
Proof.
  intros Hkeyed Hf.
  destruct (addAntiBannerFilter_emits id filter w Hkeyed Hf)
    as (w1 & Hadd & Hemits1).
  destruct (addAntiBannerFilter_run E id filter w Hkeyed Hf)
    as (w1' & f1 & ev1 & Hadd' & Hf1 & Hid1 & _ & _ & _ & Hframe1 & _).
  assert (Hsame : w1' = w1).
  { pose proof (Hadd (fun _ => ret tt)) as Ha.
    rewrite (Hadd' (fun _ => ret tt)) in Ha. unfold ret in Ha. congruence. }
  subst w1'.
  assert (Hkeyed_frame : forall (wa : World) (fa : Filter),
            cache_getFilter id wa = Some fa -> filterId fa = id ->
            (forall k, k <> id -> cache_getFilter k wa = cache_getFilter k w) ->
            keyed wa).
  { intros wa fa Ha Hida Hfr k f Hk. destruct (Z.eq_dec k id) as [->|Hne].
    - rewrite Ha in Hk. congruence.
    - rewrite (Hfr k Hne) in Hk. exact (Hkeyed k f Hk). }
  cbn [loadNextFilter]. rewrite Hadd.
  destruct (installs E w id).
  - destruct (enableFilter_quiet id f1 w1 Hf1) as (w3 & Hen & Hf3 & _ & Hemits3).
    destruct (enableFilter_run E id f1 w1 Hf1) as (w3' & ev3 & Hen' & _ & Hframe3 & _).
    assert (Hsame : w3' = w3) by congruence. subst w3'.
    assert (Hframe : forall k, k <> id -> cache_getFilter k w3 = cache_getFilter k w)
      by (intros k Hk; rewrite (Hframe3 k Hk); apply Hframe1, Hk).
    exists w3. unfold bind at 1. rewrite Hen.
    split; [reflexivity|]. split; [|split; [exact Hframe|]].
    + apply (Hkeyed_frame w3 (set_enabled true f1) Hf3); [exact Hid1|exact Hframe].
    + eapply emits_quiet_r; eassumption.
  - exists w1. split; [reflexivity|]. split; [|split; [exact Hframe1|exact Hemits1]].
    apply (Hkeyed_frame w1 f1 Hf1 Hid1 Hframe1).
Qed.

Lemma loadNextFilter_emits (l : list Z) :
  List.NoDup l ->
  forall w,
    keyed w ->
    (forall id, In id l -> is_Some (cache_getFilter id w)) ->
    exists w',
      loadNextFilter E l w = Ok tt w' /\
      emits w w'
        (List.map (fun id => RequestRules id false)
           (List.filter (needs_download w) l)).
Proof.
  induction 1 as [|id rest Hnotin Hnodup IH]; intros w Hkeyed Hpres.
  - exists w. split; [reflexivity|apply emits_refl].
  - destruct (Hpres id (or_introl eq_refl)) as [filter Hf].
    destruct (loadNextFilter_step_emits id rest filter w Hkeyed Hf)
      as (w2 & Hstep & Hkeyed2 & Hframe & Hemits2).
    assert (Hrest : forall x, In x rest -> x <> id)
      by (intros x Hx ->; contradiction).
    assert (Hpres2 : forall x, In x rest -> is_Some (cache_getFilter x w2)).
    { intros x Hx. rewrite (Hframe x (Hrest x Hx)). apply Hpres. right. exact Hx. }
    destruct (IH w2 Hkeyed2 Hpres2) as (w' & Hrun & Hemits').
    exists w'. rewrite Hstep. split; [exact Hrun|].
    assert (Hfil : List.filter (needs_download w2) rest =
                   List.filter (needs_download w) rest).
    { apply List.filter_ext_in. intros x Hx.
      apply needs_download_cache, Hframe, Hrest, Hx. }
    rewrite Hfil in Hemits'. cbn [List.filter].
    pose proof (emits_trans _ _ _ _ _ Hemits2 Hemits') as Hall.
    destruct (needs_download w id); exact Hall.
Qed.

(** X15. [addAndEnableFilters] and the network.  On a cache keyed by id
    that holds the filters of the batch, the call returns and all that the
    outside sees of it are the requests for the rules of the filters of the
    de-duplicated batch that are neither installed nor loaded, one each, in
    the order of the batch, with [forceRemote] false: it writes nothing to
    the storage, requests no metadata and shows no popup.  When every
    installation succeeds, the same call made again requests nothing. *)
Theorem addAndEnableFilters_requests (filterIds : list Z) (w : World) :
  keyed w ->
  (forall id, In id filterIds -> is_Some (cache_getFilter id w)) ->
  exists w',
    addAndEnableFilters E (Some filterIds) w = Ok tt w' /\
    emits w w'
      (List.map (fun id => RequestRules id false)
         (List.filter (needs_download w) (removeDuplicates filterIds))) /\
    (forallb (installs E w) filterIds = true ->
     exists w'',
       addAndEnableFilters E (Some filterIds) w' = Ok tt w'' /\
       emits w' w'' []).
Proof.
  intros Hkeyed Hpres.
  assert (Hpres' : forall id, In id (removeDuplicates filterIds) ->
            is_Some (cache_getFilter id w))
    by (intros id Hin; apply Hpres, In_removeDuplicates, Hin).
  assert (Hsome : forall w0, addAndEnableFilters E (Some filterIds) w0 =
                             loadNextFilter E (removeDuplicates filterIds) w0).
  { intros w0. unfold addAndEnableFilters.
    destruct filterIds as [|x l]; reflexivity. }
  destruct (loadNextFilter_emits _ (NoDup_removeDuplicates filterIds) w Hkeyed Hpres')
    as (w' & Hrun & Hemits).
  exists w'. rewrite Hsome. split; [exact Hrun|]. split; [exact Hemits|].
  intros Hall.
  destruct (loadNextFilter_run E _ (NoDup_removeDuplicates filterIds) w Hkeyed Hpres')
    as (w1 & blocks & Hrun1 & Hkeyed1 & _ & Hafter & _).
  assert (Hsame : w1 = w') by congruence. subst w1.
  assert (Hinstalled : forall id, In id (removeDuplicates filterIds) ->
            exists f', cache_getFilter id w' = Some f' /\
                       truthy_bool (installed f') = true).
  { intros id Hin. destruct (Hafter id Hin) as (f & f' & _ & Hf' & _ & Hinst).
    exists f'. split; [exact Hf'|].
    assert (Hok : installs E w id = true).
    { rewrite forallb_forall in Hall. apply Hall, In_removeDuplicates, Hin. }
    rewrite Hok in Hinst. exact Hinst. }
  destruct (loadNextFilter_emits _ (NoDup_removeDuplicates filterIds) w' Hkeyed1)
    as (w'' & Hrun2 & Hemits2).
  { intros id Hin. destruct (Hinstalled id Hin) as (f' & Hf' & _).
    rewrite Hf'. eexists. reflexivity. }
  exists w''. rewrite Hsome. split; [exact Hrun2|].
  rewrite filter_none in Hemits2; [exact Hemits2|].
  intros id Hin. destruct (Hinstalled id Hin) as (f' & Hf' & Hinst).
  unfold needs_download. rewrite Hf', Hinst. reflexivity.
Qed.

End EnableAndUpdate.

(** ** Reloading the filters *)

Section Reloading.

Import FiltersUpdate.

Variable E : Env.





End Reloading.

(** ** The group of a filter that is enabled *)

Section EnableFilterGroup.

Import FiltersManager.

Variable E : Env.

(** X13. [enableFilter] and the group of the filter.  For a filter of the
    cache the call returns, the cache object is enabled and the
    [FILTER_ENABLE_DISABLE] event is the last effect.  When the group of
    the filter has been toggled before and the filter is neither the
    search-and-self-promotion filter nor a filter of the custom group, no
    group is touched and the event is the only effect: a group that was
    disabled stays disabled.  Otherwise the group of the filter, when the
    cache holds it, is enabled afterwards, and its event, if it was not
    enabled, comes before the event of the filter.  No other group and no
    other filter is touched. *)
Theorem enableFilter_group_rule (id : Z) (filter : Filter) (w : World) :
  cache_getFilter id w = Some filter ->
  exists w' before,
    enableFilter E id w = Ok tt w' /\
    cache_getFilter id w' = Some (set_enabled true filter) /\
    (forall k, k <> id -> cache_getFilter k w' = cache_getFilter k w) /\
    (forall g, g <> groupId filter -> cache_getGroup g w' = cache_getGroup g w) /\
    trace w' =
      trace w ++ before ++
      [Notify FILTER_ENABLE_DISABLE (PFilter (Some (set_enabled true filter)))] /\
    if groupHasEnabledStatus (groupId filter) w
       && negb ((id =? SEARCH_AND_SELF_PROMO_FILTER_ID E)
                || (groupId filter =? CUSTOM_FILTERS_GROUP_ID E))
    then cacheGroups w' = cacheGroups w /\ before = []
    else
      match cache_getGroup (groupId filter) w with
      | Some group =>
          isGroupEnabled (groupId filter) w' = true /\
          before =
            if truthy_bool (g_enabled group) then []
            else [Notify FILTER_GROUP_ENABLE_DISABLE
                    (PGroup (set_group_enabled true group))]
      | None => cacheGroups w' = cacheGroups w /\ before = []
      end.
Proof.
  intros Hf. unfold enableFilter. unfold bind at 1, gets at 1. rewrite Hf.
  unfold bind at 1, assign_filter at 1, modify at 1.
  set (w1 := with_cacheFilters (alter (set_enabled true) id (cacheFilters w)) w).
  unfold bind at 1, gets at 1. unfold bind at 1.
  change (groupHasEnabledStatus (groupId filter) w1)
    with (groupHasEnabledStatus (groupId filter) w).
  assert (Hfilters : forall w2 : World, cacheFilters w2 = cacheFilters w1 ->
            cache_getFilter id w2 = Some (set_enabled true filter) /\
            (forall k, k <> id -> cache_getFilter k w2 = cache_getFilter k w)).
  { intros w2 H2. unfold cache_getFilter in *. rewrite H2. unfold w1. cbn. split.
    - rewrite lookup_alter_eq, Hf. reflexivity.
    - intros k Hk. apply lookup_alter_ne. congruence. }
  assert (Hskip : exists w' before,
            bind (ret tt) (fun _ =>
              notifyListeners FILTER_ENABLE_DISABLE
                (PFilter (Some (set_enabled true filter)))) w1 = Ok tt w' /\
            cache_getFilter id w' = Some (set_enabled true filter) /\
            (forall k, k <> id -> cache_getFilter k w' = cache_getFilter k w) /\
            (forall g, g <> groupId filter ->
               cache_getGroup g w' = cache_getGroup g w) /\
            trace w' =
              trace w ++ before ++
              [Notify FILTER_ENABLE_DISABLE
                 (PFilter (Some (set_enabled true filter)))] /\
            cacheGroups w' = cacheGroups w /\ before = []).
  { eexists _, []. split; [reflexivity|].
    destruct (Hfilters w1 eq_refl) as [H1 H2].
    split; [exact H1|]. split; [exact H2|]. repeat split. }
  assert (Henable : exists w' before,
            bind (enableGroup (groupId filter)) (fun _ =>
              notifyListeners FILTER_ENABLE_DISABLE
                (PFilter (Some (set_enabled true filter)))) w1 = Ok tt w' /\
            cache_getFilter id w' = Some (set_enabled true filter) /\
            (forall k, k <> id -> cache_getFilter k w' = cache_getFilter k w) /\
            (forall g, g <> groupId filter ->
               cache_getGroup g w' = cache_getGroup g w) /\
            trace w' =
              trace w ++ before ++
              [Notify FILTER_ENABLE_DISABLE
                 (PFilter (Some (set_enabled true filter)))] /\
            match cache_getGroup (groupId filter) w with
            | Some group =>
                isGroupEnabled (groupId filter) w' = true /\
                before =
                  if truthy_bool (g_enabled group) then []
                  else [Notify FILTER_GROUP_ENABLE_DISABLE
                          (PGroup (set_group_enabled true group))]
            | None => cacheGroups w' = cacheGroups w /\ before = []
            end).
  { destruct (Hfilters w1 eq_refl) as [H1 H2].
    unfold bind, enableGroup. unfold_monad.
    change (cache_getGroup (groupId filter) w1)
      with (cache_getGroup (groupId filter) w).
    destruct (cache_getGroup (groupId filter) w) as [group|] eqn:Hgroup.
    - destruct (truthy_bool (g_enabled group)) eqn:Henabled.
      + eexists _, []. split; [reflexivity|].
        split; [exact H1|]. split; [exact H2|]. split; [reflexivity|].
        split; [reflexivity|]. split; [|reflexivity].
        unfold isGroupEnabled.
        change (cache_getGroup (groupId filter) (emit _ w1))
          with (cache_getGroup (groupId filter) w).
        rewrite Hgroup. exact Henabled.
      + eexists _, [_]. split; [reflexivity|].
        split; [exact H1|]. split; [exact H2|].
        split; [|split; [|split; [|reflexivity]]].
        * intros g Hg. unfold cache_getGroup. cbn.
          apply lookup_alter_ne. congruence.
        * unfold emit. cbn. rewrite <- app_assoc. reflexivity.
        * unfold isGroupEnabled, cache_getGroup in *. cbn.
          rewrite lookup_alter_eq, Hgroup. reflexivity.
    - eexists _, []. split; [reflexivity|].
      split; [exact H1|]. split; [exact H2|]. repeat split. }
  destruct (groupHasEnabledStatus (groupId filter) w); cbn [negb andb].
  - destruct ((id =? SEARCH_AND_SELF_PROMO_FILTER_ID E)
              || (groupId filter =? CUSTOM_FILTERS_GROUP_ID E)); cbn [negb].
    + exact Henable.
    + exact Hskip.
  - exact Henable.
Qed.

End EnableFilterGroup.

(** ** The further properties on the sample installation *)

Section OnSampleMore.

Import Sample SampleMore.

(** The enabled filters of the sample installation. *)
Lemma getEnabledFilters_witness :
  keyed world0 /\
  exists filters w',
    FiltersManager.getEnabledFilters world0 = Ok filters w' /\
    (forall f, In f filters ->
       truthy_bool (enabled f) = true /\
       cache_getFilter (filterId f) w' = Some f) /\
    (forall id, is_Some (filtersStateInfo world0 !! id) ->
       (FiltersManager.isFilterEnabled id world0 = true <->
        exists f, In f filters /\ filterId f = id)).
Proof.
  split; [exact keyed_world0|].
  exact (getEnabledFilters_agrees_with_isFilterEnabled world0 keyed_world0).
Defined.

(** Filter 3 of the sample installation is built in; its removal takes it
    out of the cache. *)
Lemma removeFilter_witness :
  cache_getFilter 3 world0 = Some f3 /\
  truthy_str (customUrl f3) = false /\
  exists w',
    Lifecycle.removeFilter removeCustomFilter 3 world0 = Ok tt w' /\
    trace w' =
      trace world0 ++
      [Notify FILTER_ENABLE_DISABLE
         (PFilter (Some (set_installed false (set_enabled false f3))));
       Notify FILTER_ADD_REMOVE
         (PFilter (Some (set_installed false (set_enabled false f3))))] /\
    cache_getFilter 3 w' = None /\
    (forall k, k <> 3 -> cache_getFilter k w' = cache_getFilter k world0) /\
    Lifecycle.removeFilter removeCustomFilter 3 w' = Ok tt w' /\
    FiltersManager.getFilterById 3 w' = Throw (FilterNotFound 3) w' /\
    (forall callback,
       FiltersManager.addAntiBannerFilter env_ok 3 callback w'
       = Throw (FilterNotFound 3) w').
Proof.
  split; [vm_compute; reflexivity|]. split; [vm_compute; reflexivity|].
  apply (removeFilter_builtin_removes removeCustomFilter env_ok 3 f3 world0).
  - vm_compute. reflexivity.
  - vm_compute. reflexivity.
Defined.

(** Filter 3 was renamed and filter 7 was dropped by the remote metadata:
    both ids are obsolete, filter 1 is not. *)
Lemma removeObsoleteFilters_witness :
  updateFiltersJson remoteMetadata world0 = Ok tt world0 /\
  obsolete_id localMetadata remoteMetadata 3 /\
  ~ obsolete_id localMetadata remoteMetadata 1 /\
  exists w',
    Lifecycle.removeObsoleteFilters removeCustomFilter updateFiltersJson
      localMetadata remoteMetadata world0 = Ok tt w' /\
    (forall id, obsolete_id localMetadata remoteMetadata id ->
       cache_getFilter id w' = None) /\
    (forall id, ~ obsolete_id localMetadata remoteMetadata id ->
       cache_getFilter id w' = cache_getFilter id world0).
Proof.
  split; [reflexivity|]. split; [|split].
  - exists (mkFilterMetadata 3 (Some "Old name"%string)).
    split; [right; left; reflexivity|]. split; [reflexivity|].
    intros (r & Hr & Hid & Hname). cbn in Hr.
    destruct Hr as [<-|[<-|[]]]; cbn in Hid, Hname; congruence.
  - intros (m & Hm & Hid & Hno). apply Hno. cbn in Hm.
    destruct Hm as [<-|[<-|[<-|[]]]]; cbn in Hid; try discriminate.
    exists (mkFilterMetadata 1 (Some "Base filter"%string)).
    split; [left; reflexivity|]. split; reflexivity.
  - apply (removeObsoleteFilters_removes_unmatched removeCustomFilter
             updateFiltersJson localMetadata remoteMetadata world0).
    intros m f Hm Hf. cbn in Hm.
    destruct Hm as [<-|[<-|[<-|[]]]]; vm_compute in Hf;
      try discriminate; injection Hf as <-; reflexivity.
Defined.

(** One second later the unforced check of the sample installation
    selects what it selected before. *)
Lemma selectFilterIdsToUpdate_monotone_witness :
  cacheFilters (with_clock 10001000 world0) = cacheFilters world0 /\
  customStore (with_clock 10001000 world0) = customStore world0 /\
  clock world0 <= clock (with_clock 10001000 world0) /\
  sublist
    (FiltersUpdate.filterIds
       (FiltersUpdate.selectFilterIdsToUpdate None None world0))
    (FiltersUpdate.filterIds
       (FiltersUpdate.selectFilterIdsToUpdate (Some true) None
          (with_clock 10001000 world0))).
Proof.
  split; [reflexivity|]. split; [reflexivity|]. split; [cbn; lia|].
  apply (selectFilterIdsToUpdate_monotone None None world0
           (with_clock 10001000 world0)).
  - reflexivity.
  - reflexivity.
  - cbn. lia.
Defined.

(** A batch of two downloads on the sample installation, with a callback
    that does nothing. *)
Lemma loadFiltersFromBackend_only_refreshes_witness :
  exists w',
    FiltersUpdate.loadFiltersFromBackend env_fail2
      [remote 2 "3.0.0"; remote 1 "3.0.0"] (fun _ _ => ret tt) world0 = Ok tt w' /\
    refreshes [] world0 w'.
Proof.
  apply (loadFiltersFromBackend_only_refreshes env_fail2
           [remote 2 "3.0.0"; remote 1 "3.0.0"] (fun _ _ => ret tt) world0).
  - intros w0. exists w0. split; [reflexivity|apply refreshes_refl].
  - intros ids w0. exists w0. split; [reflexivity|apply refreshes_refl].
Defined.

(** The forced check of filter 2 selects no custom filter. *)
Lemma checkAntiBannerFiltersUpdate_only_refreshes_witness :
  FiltersUpdate.customFilterIds
    (FiltersUpdate.selectFilterIdsToUpdate (Some true) (Some [f2]) world0) = [] /\
  exists w',
    FiltersUpdate.checkAntiBannerFiltersUpdate env_ok (Some true) (Some [f2]) world0
      = Ok tt w' /\
    refreshes [] world0 w'.
Proof.
  split; [vm_compute; reflexivity|].
  apply (checkAntiBannerFiltersUpdate_only_refreshes env_ok (Some true)
           (Some [f2]) world0).
  vm_compute. reflexivity.
Defined.

(** The forced check of filter 2 when the server has its version 2.0.0. *)
Lemma checkAntiBannerFiltersUpdate_without_newer_version_witness :
  FiltersUpdate.metadataToUpdate env_current [remote 2 "2.0.0"] world0 = [] /\
  exists w',
    FiltersUpdate.checkAntiBannerFiltersUpdate env_current (Some true)
      (Some [f2]) world0 = Ok tt w' /\
    trace w' =
      trace world0 ++
      check_without_download env_current (Some true)
        (FiltersUpdate.filterIds
           (FiltersUpdate.selectFilterIdsToUpdate (Some true) (Some [f2]) world0))
        (clock world0) /\
    cacheFilters w' = cacheFilters world0 /\
    clock w' = clock world0 /\
    FiltersUpdate.selectFilterIdsToUpdate (Some true) (Some [f2]) w' =
    FiltersUpdate.selectFilterIdsToUpdate (Some true) (Some [f2]) world0.
Proof.
  split; [vm_compute; reflexivity|].
  apply (checkAntiBannerFiltersUpdate_without_newer_version env_current
           (Some true) (Some [f2]) world0).
  - vm_compute. reflexivity.
  - intros l Hl. vm_compute in Hl. injection Hl as <-. vm_compute. reflexivity.
Defined.

(** Filter 3 of the sample installation has to be downloaded. *)
Lemma enableAndUpdateFilter_fresh_download_witness :
  exists w' filter',
    FiltersManager.enableAndUpdateFilter env_ok 3 world0 = Ok tt w' /\
    cache_getFilter 3 w' = Some filter' /\
    emits world0 w' [RequestRules 3 false] /\
    clock w' = rulesAnswerTime env_ok 3 /\
    _isDownloading filter' = false /\
    match rulesAnswer env_ok 3 false with
    | Some _ =>
        enabled filter' = Some true /\ installed filter' = Some true /\
        loaded filter' = Some true /\ lastCheckTime filter' = Some (clock w')
    | None =>
        enabled filter' = enabled f3 /\ installed filter' = installed f3 /\
        loaded filter' = loaded f3 /\ lastCheckTime filter' = lastCheckTime f3
    end.
Proof.
  apply (enableAndUpdateFilter_fresh_download env_ok 3 f3 world0).
  - exact keyed_world0.
  - vm_compute. reflexivity.
  - reflexivity.
  - reflexivity.
Defined.

(** The installation of filter 3 when its rules cannot be downloaded. *)
Lemma addAntiBannerFilter_installs_once_witness :
  installs env_fail3 world0 3 = false /\
  exists w1,
    (forall callback : bool -> M unit,
       FiltersManager.addAntiBannerFilter env_fail3 3 callback world0 =
       callback (installs env_fail3 world0 3) w1) /\
    if installs env_fail3 world0 3 then
      forall callback : bool -> M unit,
        FiltersManager.addAntiBannerFilter env_fail3 3 callback w1 = callback true w1
    else
      installs env_fail3 w1 3 = false /\ emits world0 w1 [RequestRules 3 false].
Proof.
  split; [vm_compute; reflexivity|].
  apply (addAntiBannerFilter_installs_once env_fail3 3 f3 world0).
  - exact keyed_world0.
  - vm_compute. reflexivity.
Defined.

(** Filter 3 is in group 2, which has never been toggled. *)
Lemma enableFilter_group_rule_witness :
  groupHasEnabledStatus (groupId f3) world0 = false /\
  exists w' before,
    FiltersManager.enableFilter env_ok 3 world0 = Ok tt w' /\
    cache_getFilter 3 w' = Some (set_enabled true f3) /\
    (forall k, k <> 3 -> cache_getFilter k w' = cache_getFilter k world0) /\
    (forall g, g <> groupId f3 -> cache_getGroup g w' = cache_getGroup g world0) /\
    trace w' =
      trace world0 ++ before ++
      [Notify FILTER_ENABLE_DISABLE (PFilter (Some (set_enabled true f3)))] /\
    if groupHasEnabledStatus (groupId f3) world0
       && negb ((3 =? SEARCH_AND_SELF_PROMO_FILTER_ID env_ok)
                || (groupId f3 =? CUSTOM_FILTERS_GROUP_ID env_ok))
    then cacheGroups w' = cacheGroups world0 /\ before = []
    else
      match cache_getGroup (groupId f3) world0 with
      | Some group =>
          FiltersManager.isGroupEnabled (groupId f3) w' = true /\
          before =
            if truthy_bool (g_enabled group) then []
            else [Notify FILTER_GROUP_ENABLE_DISABLE
                    (PGroup (set_group_enabled true group))]
      | None => cacheGroups w' = cacheGroups world0 /\ before = []
      end.
Proof.
  split; [vm_compute; reflexivity|].
  apply (enableFilter_group_rule env_ok 3 f3 world0).
  vm_compute. reflexivity.
Defined.

(** Filter 2 is installed and has never been checked. *)
Lemma enableAndUpdateFilter_installed_witness :
  lastCheckTime f2 = None /\
  exists w1,
    FiltersManager.enableFilter env_ok 2 world0 = Ok tt w1 /\
    cache_getFilter 2 w1 = Some (set_enabled true f2) /\
    emits world0 w1 [] /\
    (truthy_str (customUrl f2) = true ->
     FiltersManager.enableAndUpdateFilter env_ok 2 world0 = Ok tt w1) /\
    (truthy_str (customUrl f2) = false ->
     (forall t, lastCheckTime f2 = Some t -> clock world0 - t < 5 * 60 * 1000 ->
      FiltersManager.enableAndUpdateFilter env_ok 2 world0 = Ok tt w1) /\
     ((lastCheckTime f2 = None \/
       exists t, lastCheckTime f2 = Some t /\ 5 * 60 * 1000 <= clock world0 - t) ->
      FiltersManager.enableAndUpdateFilter env_ok 2 world0 =
        FiltersUpdate.checkAntiBannerFiltersUpdate env_ok (Some true)
          (Some [set_enabled true f2]) w1 /\
      FiltersUpdate.filterIds
        (FiltersUpdate.selectFilterIdsToUpdate (Some true)
           (Some [set_enabled true f2]) w1)
        = [2])).
Proof.
  split; [reflexivity|].
  apply (enableAndUpdateFilter_installed env_ok 2 f2 world0).
  - exact keyed_world0.
  - vm_compute. reflexivity.
  - reflexivity.
Defined.

(** The batch [3; 4; 3; 1] on the sample installation: the rules of the
    filters 3 and 4 are requested, filter 1 is installed already. *)
Lemma addAndEnableFilters_requests_witness :
  List.filter (needs_download world0) (removeDuplicates [3; 4; 3; 1]) = [3; 4] /\
  exists w',
    FiltersManager.addAndEnableFilters env_ok (Some [3; 4; 3; 1]) world0 = Ok tt w' /\
    emits world0 w'
      (List.map (fun id => RequestRules id false)
         (List.filter (needs_download world0) (removeDuplicates [3; 4; 3; 1]))) /\
    (forallb (installs env_ok world0) [3; 4; 3; 1] = true ->
     exists w'',
       FiltersManager.addAndEnableFilters env_ok (Some [3; 4; 3; 1]) w' = Ok tt w'' /\
       emits w' w'' []).
Proof.
  split; [vm_compute; reflexivity|].
  apply (addAndEnableFilters_requests env_ok [3; 4; 3; 1] world0).
  - exact keyed_world0.
  - intros id Hid. cbn in Hid.
    destruct Hid as [<-|[<-|[<-|[<-|[]]]]]; eexists; vm_compute; reflexivity.
Defined.

End OnSampleMore.
